(** * Causal prototype: graph construction, synthetic generation and the
      causal query dispatcher

    A shallow embedding of
      - [causal_analysis/data/synthetic_generator.py] (SyntheticDataGenerator),
      - [causal_analysis/causal_model.py] (CausalModel),
      - [causal_analysis/dispatch.py] (dispatch_query and its five handlers),
      - [causal_analysis/data/utils.py] (the configurations, the sample data
        set and the validation of a data set),
      - [causal_analysis/api/main.py] (the legacy endpoint),
    the properties their specification states about them, and further
    properties of the code.

    Conventions.
      - A Python float is an exact rational or NaN ([num]); the arithmetic is
        exact, NaN is absorbing and every comparison with NaN is false.
        Rounding and the infinities of IEEE doubles are outside this
        reading, so the statements replay the operations of the code in the
        order in which the code performs them; the one expression where
        that order shows in the last digit is given on binary64 numbers
        too ([binary64]).
      - A string is a sequence of code points below 256.
      - A function that may raise returns [py A]: [Return a] or [Raise e].
      - A JSON object read with [d["k"]] / [d.get("k")] is a record of
        optional fields; [d["k"]] on an absent field raises [KeyError].
      - Of the libraries, pandas' frames with their mean and deviation and
        networkx's graphs with their acyclicity test are modelled; pandas'
        correlation, numpy's generator, networkx's topological sort, DoWhy
        and the file system enter as Section variables. *)

From Stdlib Require Import Ascii QArith Qcanon Qcabs.
From Stdlib Require Floats.PrimFloat.
From stdpp Require Import base option list strings gmap numbers relations.

Local Open Scope string_scope.

(** ** Python floats *)

Module Num.

(** [None] is NaN. *)
Definition num : Type := option Qc.

Definition NaN : num := None.
Definition of_Z (z : Z) : num := Some (Qc_of_Z z).
Definition of_Q (q : Q) : num := Some (Q2Qc q).

Definition lift2 (f : Qc → Qc → Qc) (x y : num) : num :=
  match x, y with
  | Some a, Some b => Some (f a b)
  | _, _ => None
  end.

Definition add : num → num → num := lift2 Qcplus.
Definition sub : num → num → num := lift2 Qcminus.
Definition mul : num → num → num := lift2 Qcmult.
Definition abs (x : num) : num := Qcabs <$> x.

(** [np.isnan] *)
Definition isnan (x : num) : bool :=
  match x with None => true | Some _ => false end.

(** [x > y]; false as soon as one side is NaN. *)
Definition gt (x y : num) : bool :=
  match x, y with
  | Some a, Some b => bool_decide (b < a)%Qc
  | _, _ => false
  end.

(** The non-negative square root of a number, kept symbolic: [Sqrt v] is
    [sqrt v], NaN when [v] is NaN or negative.  Only comparisons against it
    are needed: [x <= sqrt v] holds for a negative [x], and is
    [x * x <= v] otherwise. *)
Record root : Type := Sqrt { radicand : num }.

Definition le_root (x : num) (r : root) : bool :=
  match x, radicand r with
  | Some a, Some v =>
      bool_decide (0 ≤ v)%Qc &&
      (bool_decide (a < 0)%Qc || bool_decide (a * a ≤ v)%Qc)
  | _, _ => false
  end.

End Num.

Export Num.

(** ** The Python runtime: exceptions, strings, dicts *)

Module Py.

Inductive exn : Type :=
| KeyError (key : string)
| ValueError (msg : string)
| TypeError (msg : string)
| AttributeError (msg : string)
  (** [ValueError(f"Data is missing required variables: {missing_vars}")],
      kept with the set it interpolates *)
| MissingVariables (missing : gset string)
  (** an exception raised inside pandas, DoWhy or the file system *)
| LibraryError (msg : string).

Inductive py (A : Type) : Type :=
| Return (a : A)
| Raise (e : exn).
Global Arguments Return {_} _.
Global Arguments Raise {_} _.

Global Instance py_ret : MRet py := λ A a, Return a.
Global Instance py_bind : MBind py := λ A B f m,
  match m with
  | Return a => f a
  | Raise e => Raise e
  end.

(** [repr] of a string, read as a sequence of code points below 256.  The
    string is put between single quotes, or between double quotes when it
    holds a single quote and no double quote; the enclosing quote and the
    backslash are escaped with a backslash, tab, line feed and carriage
    return are shown as [\t], [\n] and [\r], and any other code point
    that is not printable as [\xhh]. *)
Definition single_quote : ascii := ascii_of_nat 39.
Definition double_quote : ascii := ascii_of_nat 34.
Definition backslash : ascii := ascii_of_nat 92.

(** [str.isprintable] on one code point below 256 *)
Definition isprintable (c : ascii) : bool :=
  let n := nat_of_ascii c in
  (32 <=? n)%nat && (n <? 127)%nat || (161 <=? n)%nat && negb (n =? 173)%nat.

Definition hexdigit (n : nat) : ascii :=
  default "0"%char (String.get n "0123456789abcdef").

Definition escape (enclosing c : ascii) : string :=
  let n := nat_of_ascii c in
  if bool_decide (c = enclosing) || bool_decide (c = backslash)
  then String backslash (String c "")
  else if (n =? 9)%nat then String backslash "t"
  else if (n =? 10)%nat then String backslash "n"
  else if (n =? 13)%nat then String backslash "r"
  else if isprintable c then String c ""
  else String backslash
         (String "x" (String (hexdigit (n / 16)) (String (hexdigit (n mod 16)) ""))).

Fixpoint escaped (enclosing : ascii) (s : string) : string :=
  match s with
  | EmptyString => EmptyString
  | String c s' => escape enclosing c ++ escaped enclosing s'
  end.

Fixpoint occurs (c : ascii) (s : string) : bool :=
  match s with
  | EmptyString => false
  | String c' s' => bool_decide (c' = c) || occurs c s'
  end.

Definition repr (s : string) : string :=
  let enclosing :=
    if occurs single_quote s && negb (occurs double_quote s)
    then double_quote else single_quote in
  String enclosing (escaped enclosing s ++ String enclosing "").

Fixpoint join (sep : string) (l : list string) : string :=
  match l with
  | [] => ""
  | [x] => x
  | x :: l => x ++ sep ++ join sep l
  end.

Definition set_repr (s : gset string) : string :=
  if decide (s = ∅) then "set()"
  else "{" ++ join ", " (repr <$> elements s) ++ "}".

(** [str(e)] *)
Definition str (e : exn) : string :=
  match e with
  | KeyError k => repr k
  | ValueError m | TypeError m | AttributeError m | LibraryError m => m
  | MissingVariables s => "Data is missing required variables: " ++ set_repr s
  end.

(** [f"{x}"] for an optional string: an absent value prints as [None] *)
Definition fmt (x : option string) : string := default "None" x.

(** [t in s] on strings *)
Fixpoint starts_with (t s : string) : bool :=
  match t, s with
  | EmptyString, _ => true
  | String a t', String b s' => bool_decide (a = b) && starts_with t' s'
  | String _ _, EmptyString => false
  end.

Fixpoint contains (s t : string) : bool :=
  starts_with t s ||
  match s with
  | EmptyString => false
  | String _ s' => contains s' t
  end.

(** [d[k]] on a JSON object: the field when present, [KeyError] otherwise *)
Definition getkey {A} (k : string) (field : option A) : py A :=
  match field with
  | Some v => Return v
  | None => Raise (KeyError k)
  end.

(** A dict in insertion order: [d[k] = v] overwrites in place or appends *)
Fixpoint dict_set {V} (k : string) (v : V) (d : list (string * V)) : list (string * V) :=
  match d with
  | [] => [(k, v)]
  | (k', v') :: d' =>
      if decide (k' = k) then (k, v) :: d' else (k', v') :: dict_set k v d'
  end.

Fixpoint dict_get {V} (k : string) (d : list (string * V)) : option V :=
  match d with
  | [] => None
  | (k', v) :: d' => if decide (k' = k) then Some v else dict_get k d'
  end.

Definition keys {V} (d : list (string * V)) : list string := d.*1.

(** [max(xs, key=f)]: the first element whose key no later one exceeds;
    raises on an empty sequence *)
Definition max_by {A} (key : A → num) (xs : list A) : py A :=
  match xs with
  | [] => Raise (ValueError "max() arg is an empty sequence")
  | x :: xs' =>
      Return (foldl (λ best y, if Num.gt (key y) (key best) then y else best) x xs')
  end.

End Py.

Export Py.

(** ** pandas: series and frames *)

Module pd.

Abbreviation Series := (list num).

(** A frame is its header and its rows; a cell missing from a row is NaN. *)
Record DataFrame : Type := {
  columns : list string;
  rows : list (gmap string num)
}.

Definition cell (c : string) (r : gmap string num) : num := default NaN (r !! c).

(** [df[c]] *)
Definition getitem (df : DataFrame) (c : string) : py Series :=
  if decide (c ∈ columns df) then Return (cell c <$> rows df)
  else Raise (KeyError c).

(** [len(df)] *)
Definition len (df : DataFrame) : nat := length (rows df).

(** [df[mask]] for a mask computed row by row *)
Definition select (keep : gmap string num → bool) (df : DataFrame) : DataFrame :=
  {| columns := columns df; rows := List.filter keep (rows df) |}.

(** [df.iloc[:k]] and [df.iloc[k:]] *)
Definition iloc_to (k : nat) (df : DataFrame) : DataFrame :=
  {| columns := columns df; rows := take k (rows df) |}.
Definition iloc_from (k : nat) (df : DataFrame) : DataFrame :=
  {| columns := columns df; rows := drop k (rows df) |}.

(** [s[mask]] *)
Fixpoint mask_select (mask : list bool) (s : Series) : Series :=
  match mask, s with
  | b :: mask', x :: s' => if b then x :: mask_select mask' s' else mask_select mask' s'
  | _, _ => []
  end.

(** [mask.any()] and [mask.sum()] *)
Definition any (mask : list bool) : bool := existsb id mask.
Definition count (mask : list bool) : nat := length (List.filter id mask).

(** The cells that are not NaN: pandas' reductions skip the others. *)
Definition valid (s : Series) : list Qc := omap id s.

Definition total (xs : list Qc) : Qc := foldr Qcplus 0%Qc xs.

Definition Qc_of_nat (n : nat) : Qc := Qc_of_Z (Z.of_nat n).

(** [s.mean()] *)
Definition mean (s : Series) : num :=
  match valid s with
  | [] => NaN
  | xs => Some (total xs / Qc_of_nat (length xs))%Qc
  end.

(** [s.var()] with one delta degree of freedom, and [s.std()], its root *)
Definition var (s : Series) : num :=
  let xs := valid s in
  if decide (length xs < 2)%nat then NaN
  else
    let m := (total xs / Qc_of_nat (length xs))%Qc in
    Some (total ((λ x, (x - m) * (x - m))%Qc <$> xs) / Qc_of_nat (length xs - 1))%Qc.

Definition std (s : Series) : Num.root := Num.Sqrt (var s).

(** [pd.DataFrame(data)] for a dict of arrays: the keys are the columns,
    the arrays must agree in length, an empty dict gives an empty frame. *)
Definition from_dict (data : list (string * Series)) : py DataFrame :=
  match data with
  | [] => Return {| columns := []; rows := [] |}
  | (_, first) :: _ =>
      if decide (Forall (λ item, length item.2 = length first) data)
      then Return {| columns := keys data;
                     rows := (λ i, list_to_map
                                     ((λ item, (item.1, default NaN (item.2 !! i))) <$> data))
                             <$> seq 0 (length first) |}
      else Raise (ValueError "All arrays must be of the same length")
  end.

End pd.

Export pd.

(** ** networkx: directed graphs *)

Module nx.

(** Nodes and edges in insertion order, each held once. *)
Record DiGraph : Type := {
  nodes : list string;
  edges : list (string * string)
}.

Definition empty : DiGraph := {| nodes := []; edges := [] |}.

Definition add_node (v : string) (g : DiGraph) : DiGraph :=
  if decide (v ∈ nodes g) then g
  else {| nodes := nodes g ++ [v]; edges := edges g |}.

Definition add_edge (u v : string) (g : DiGraph) : DiGraph :=
  let g' := add_node v (add_node u g) in
  if decide ((u, v) ∈ edges g') then g'
  else {| nodes := nodes g'; edges := edges g' ++ [(u, v)] |}.

(** The in-degree of [v] counting only edges that leave [remaining]. *)
Definition in_degree_within (g : DiGraph) (remaining : list string) (v : string) : nat :=
  length (List.filter (λ e, bool_decide (e.2 = v) && bool_decide (e.1 ∈ remaining)) (edges g)).

(** Kahn's algorithm as [topological_generations] runs it: each round
    removes the generation of nodes whose in-degree has dropped to zero;
    it stops when a round finds none.  What is left is the [indegree_map]
    that makes networkx raise [NetworkXUnfeasible]. *)
Fixpoint peel (fuel : nat) (g : DiGraph) (remaining : list string) : list string :=
  match fuel with
  | O => remaining
  | S fuel' =>
      let zero_indegree :=
        List.filter (λ v, bool_decide (in_degree_within g remaining v = 0%nat)) remaining in
      match zero_indegree with
      | [] => remaining
      | _ =>
          peel fuel' g
            (List.filter (λ v, bool_decide (v ∉ zero_indegree)) remaining)
      end
  end.

(** [nx.is_directed_acyclic_graph(G)] *)
Definition is_directed_acyclic_graph (g : DiGraph) : bool :=
  bool_decide (peel (length (nodes g)) g (nodes g) = []).

(** [G.predecessors(n)] and [G.successors(n)]: the neighbours in the order
    their edges were added; a node that is not in the graph raises
    [NetworkXError]. *)
Definition predecessors (g : DiGraph) (n : string) : py (list string) :=
  if decide (n ∈ nodes g)
  then Return (List.filter (λ e, bool_decide (e.2 = n)) (edges g)).*1
  else Raise (LibraryError ("The node " ++ n ++ " is not in the digraph.")).

Definition successors (g : DiGraph) (n : string) : py (list string) :=
  if decide (n ∈ nodes g)
  then Return (List.filter (λ e, bool_decide (e.1 = n)) (edges g)).*2
  else Raise (LibraryError ("The node " ++ n ++ " is not in the digraph.")).

End nx.

(** ** The graph configuration (the DAG JSON file) *)

Module Config.

Record VarInfo : Type := { type : option string }.

Record Edge : Type := { edge_from : string; edge_to : string }.

Record DagConfig : Type := {
  variables : option (list (string * VarInfo));
  edges : option (list Edge);
  treatment_variable : option string;
  outcome_variable : option string;
  confounders : option (list string);
  instruments : option (list string)
}.

End Config.

(** ** synthetic_generator.py *)

Module SyntheticDataGenerator.

Import Config.

Record t : Type := {
  seed : option Z;
  dag_config : DagConfig;
  variables : list (string * VarInfo);
  edges : list Edge;
  graph : nx.DiGraph
}.

Definition _build_graph (variables : list (string * VarInfo)) (edges : list Edge)
  : py nx.DiGraph :=
  let G := foldl (λ G var_name, nx.add_node var_name G) nx.empty (keys variables) in
  let G := foldl (λ G edge, nx.add_edge (edge_from edge) (edge_to edge) G) G edges in
  if negb (nx.is_directed_acyclic_graph G)
  then Raise (ValueError "The provided graph is not a DAG")
  else Return G.

(** The assignments of [__init__] that follow the call
    [np.random.seed(seed)], on an in-memory configuration and up to the
    graph.  The constructor itself, with the seeding before them and the
    topological order after them, is [new] below. *)
Definition init (dag_config : DagConfig) (seed : option Z) : py t :=
  let variables := default [] (Config.variables dag_config) in
  let edges := default [] (Config.edges dag_config) in
  graph ← _build_graph variables edges;
  mret {| seed := seed; dag_config := dag_config; variables := variables;
          edges := edges; graph := graph |}.

Definition _is_treatment_outcome_relationship (self : t) (parent child : string) : bool :=
  let treatment_var := default "" (treatment_variable (dag_config self)) in
  let outcome_var := default "" (outcome_variable (dag_config self)) in
  bool_decide (parent = treatment_var) && bool_decide (child = outcome_var).

Definition _is_confounder_relationship (self : t) (parent child : string) : bool :=
  let confounders := default [] (confounders (dag_config self)) in
  let treatment_var := default "" (treatment_variable (dag_config self)) in
  let outcome_var := default "" (outcome_variable (dag_config self)) in
  bool_decide (parent ∈ confounders) &&
  (bool_decide (child = treatment_var) || bool_decide (child = outcome_var)).

(** [values += coeff * parent_values] on numpy arrays: elementwise when the
    shapes agree, a one-element right-hand side is broadcast, any other
    shape mismatch raises a [ValueError] (numpy's message goes on with the
    shapes, which are not shown here). *)
Definition iadd_scaled (values : Series) (coeff : num) (parent_values : Series)
  : py Series :=
  if decide (length parent_values = length values)
  then Return (zip_with (λ v x, Num.add v (Num.mul coeff x)) values parent_values)
  else match parent_values with
       | [x] => Return ((λ v, Num.add v (Num.mul coeff x)) <$> values)
       | _ => Raise (ValueError "operands could not be broadcast together")
       end.

Section Random.

(** The process-wide numpy generator: [random_normal loc scale n] draws
    [n] values and advances the state. *)
Context {rng : Type}.
Variable random_normal : num → num → nat → rng → Series * rng.

Definition _generate_continuous_variable (self : t) (n_samples : nat)
    (var_name : string) (parents : list string) (data : gmap string Series)
    (treatment_effect noise_std confounder_strength : num) (st : rng)
  : py Series * rng :=
  match parents with
  | [] => let '(values, st') := random_normal (of_Z 0) (of_Z 1) n_samples st in
          (Return values, st')
  | _ =>
      let '(values, st') := random_normal (of_Z 0) noise_std n_samples st in
      (foldl (λ acc parent,
                values ← acc;
                parent_values ← getkey parent (data !! parent);
                let coeff :=
                  if _is_treatment_outcome_relationship self parent var_name
                  then treatment_effect
                  else if _is_confounder_relationship self parent var_name
                  then confounder_strength
                  else of_Q (1 # 2) in
                iadd_scaled values coeff parent_values)
             (Return values) parents,
       st')
  end.

(** The generator's other draws: [binomial(1, p, size)] for a number [p]
    and for an array [p] (which raises when a cell is NaN or outside
    [0, 1]), [choice(a, size)] and [choice(a, size, p=p)]; then [np.exp] on
    one cell, [np.random.seed] on an integer and networkx's
    [topological_sort]. *)
Variable random_binomial : num → nat → rng → Series * rng.
Variable random_binomial_each : Series → nat → rng → py Series * rng.
Variable random_choice : list num → option (list num) → nat → rng → Series * rng.
Variable np_exp : num → num.
Variable random_seed : Z → py rng.
Variable topological_sort : nx.DiGraph → py (list string).

(** [1 / (1 + np.exp(-x))] on one cell *)
Definition logistic (x : num) : num :=
  Num.lift2 Qcdiv (of_Z 1) (Num.add (of_Z 1) (np_exp (Qcopp <$> x))).

(** [np.where(condition, x, y)] for an array [x] and a number [y] *)
Definition np_where (condition : list bool) (x : Series) (y : num) : py Series :=
  if decide (length x = length condition)
  then Return (zip_with (λ (c : bool) v, if c then v else y) condition x)
  else match condition, x with
       | [c], _ => Return ((λ v, if c then v else y) <$> x)
       | _, [v] => Return ((λ c : bool, if c then v else y) <$> condition)
       | _, _ => Raise (ValueError "operands could not be broadcast together")
       end.

Definition _generate_binary_variable (self : t) (n_samples : nat)
    (var_name : string) (parents : list string) (data : gmap string Series)
    (treatment_effect noise_std confounder_strength : num) (st : rng)
  : py Series * rng :=
  match parents with
  | [] => let '(values, st') := random_binomial (of_Q (1 # 2)) n_samples st in
          (Return values, st')
  | _ =>
      let linear_combination := replicate n_samples (of_Z 0) in
      match foldl (λ acc parent,
                     linear_combination ← acc;
                     parent_values ← getkey parent (data !! parent);
                     let coeff :=
                       if _is_treatment_outcome_relationship self parent var_name
                       then treatment_effect
                       else if _is_confounder_relationship self parent var_name
                       then confounder_strength
                       else of_Q (1 # 2) in
                     iadd_scaled linear_combination coeff parent_values)
                  (Return linear_combination) parents with
      | Raise e => (Raise e, st)
      | Return linear_combination =>
          let probabilities := logistic <$> linear_combination in
          random_binomial_each probabilities n_samples st
      end
  end.

Definition _generate_categorical_variable (self : t) (n_samples : nat)
    (var_name : string) (parents : list string) (data : gmap string Series)
    (treatment_effect noise_std confounder_strength : num) (st : rng)
  : py Series * rng :=
  match parents with
  | [] =>
      let '(values, st') :=
        random_choice [of_Z 0; of_Z 1; of_Z 2] None n_samples st in
      (Return values, st')
  | _ =>
      match _generate_binary_variable self n_samples var_name parents data
              treatment_effect noise_std confounder_strength st with
      | (Raise e, st') => (Raise e, st')
      | (Return binary_version, st') =>
          let '(choice, st'') :=
            random_choice [of_Z 1; of_Z 2] (Some [of_Q (7 # 10); of_Q (3 # 10)])
              n_samples st' in
          (np_where ((λ b, bool_decide (b = of_Z 1)) <$> binary_version) choice (of_Z 0),
           st'')
      end
  end.

(** The body of the loop of [generate_data]: one variable of the
    topological order.  [data] is the dict of generated columns in the
    order they were stored; an exception ends the loop. *)
Definition generate_variable (self : t) (n_samples : nat)
    (treatment_effect noise_std confounder_strength : num)
    (acc : py (list (string * Series)) * rng) (var_name : string)
  : py (list (string * Series)) * rng :=
  match acc with
  | (Raise e, st) => (Raise e, st)
  | (Return data, st) =>
      let store (generated : py Series * rng) : py (list (string * Series)) * rng :=
        (values ← generated.1; mret (dict_set var_name values data), generated.2) in
      match getkey var_name (dict_get var_name (variables self)) with
      | Raise e => (Raise e, st)
      | Return var_config =>
          let var_type := default "continuous" (type var_config) in
          match nx.predecessors (graph self) var_name with
          | Raise e => (Raise e, st)
          | Return parents =>
              if decide (var_type = "binary") then
                store (_generate_binary_variable self n_samples var_name parents
                         (list_to_map data) treatment_effect noise_std
                         confounder_strength st)
              else if decide (var_type = "continuous") then
                store (_generate_continuous_variable self n_samples var_name parents
                         (list_to_map data) treatment_effect noise_std
                         confounder_strength st)
              else if decide (var_type = "categorical") then
                store (_generate_categorical_variable self n_samples var_name parents
                         (list_to_map data) treatment_effect noise_std
                         confounder_strength st)
              else (Return data, st)
          end
      end
  end.

(** [generate_data]; [self.topological_order], which the record does not
    hold, is passed beside it. *)
Definition generate_data (self : t) (topological_order : list string) (n_samples : nat)
    (treatment_effect noise_std confounder_strength : num) (st : rng)
  : py DataFrame * rng :=
  let '(data, st') :=
    foldl (generate_variable self n_samples treatment_effect noise_std
             confounder_strength)
          (Return [], st) topological_order in
  (data ≫= from_dict, st').

(** [np.linspace(start, stop, n)] *)
Definition linspace (start stop : Qc) (n : nat) : list num :=
  match n with
  | 0%nat => []
  | 1%nat => [Some start]
  | _ => (λ i, Some (start + Qc_of_nat i * ((stop - start) / Qc_of_nat (n - 1)))%Qc)
         <$> seq 0 n
  end.

(** [generate_multiple_datasets]; the keyword arguments passed on are the
    noise deviation and the confounder strength. *)
Definition generate_multiple_datasets (self : t) (topological_order : list string)
    (n_datasets n_samples : nat) (treatment_effects : option (list num))
    (noise_std confounder_strength : num) (st : rng)
  : py (list (DataFrame * num)) * rng :=
  let treatment_effects :=
    match treatment_effects with
    | None => linspace (Q2Qc (1 # 2)) (Qc_of_Z 3) n_datasets
    | Some treatment_effects => treatment_effects
    end in
  foldl (λ (acc : py (list (DataFrame * num)) * rng) (item : nat * num),
           let '(i, effect) := item in
           match acc with
           | (Raise e, st) => (Raise e, st)
           | (Return datasets, st) =>
               match seed self with
               | None =>
                   (Raise (TypeError
                      "unsupported operand type(s) for +: 'NoneType' and 'int'"), st)
               | Some seed =>
                   match random_seed (seed + Z.of_nat i) with
                   | Raise e => (Raise e, st)
                   | Return st =>
                       match generate_data self topological_order n_samples effect
                               noise_std confounder_strength st with
                       | (Raise e, st') => (Raise e, st')
                       | (Return df, st') => (Return (datasets ++ [(df, effect)])%list, st')
                       end
                   end
               end
           end)
        (Return [], st) (imap pair treatment_effects).

(** [SyntheticDataGenerator(dag_config, seed)] for an integer seed, through
    the last line of [__init__]: numpy is seeded, the graph is built, the
    topological order is computed and returned beside the record. *)
Definition new (dag_config : DagConfig) (seed : Z) : py (t * list string * rng) :=
  st ← random_seed seed;
  self ← init dag_config (Some seed);
  topological_order ← topological_sort (graph self);
  mret (self, topological_order, st).

End Random.

End SyntheticDataGenerator.

(** ** causal_model.py *)

Module CausalModel.

Import Config.

(** [dag_config: Union[str, Path, Dict]] *)
Inductive dag_source : Type :=
| FromPath (path : string)
| FromDict (config : DagConfig).

Section DoWhy.

(** DoWhy's model object, its constructor (data, treatment, outcome,
    graph when passed, instruments, common causes; an argument left out
    is [None]), and the reading of a JSON file. *)
Context {dowhy : Type}.
Variable json_load : string → py DagConfig.
Variable DoWhyCausalModel :
  DataFrame → string → string → option nx.DiGraph →
  option (list string) → option (list string) → py dowhy.

Record t : Type := {
  dag_config : DagConfig;
  data : option DataFrame;
  dowhy_model : option dowhy;
  graph : nx.DiGraph
}.

Definition _load_dag_config (dag_config : dag_source) : py DagConfig :=
  match dag_config with
  | FromPath path => json_load path
  | FromDict config => Return config
  end.

Definition _build_networkx_graph (dag_config : DagConfig) : py nx.DiGraph :=
  variables ← getkey "variables" (Config.variables dag_config);
  let graph := foldl (λ graph var, nx.add_node var.1 graph) nx.empty variables in
  edges ← getkey "edges" (Config.edges dag_config);
  mret (foldl (λ graph edge, nx.add_edge (edge_from edge) (edge_to edge) graph)
              graph edges).

(** [not x] for an optional string: absent and empty are both falsy *)
Definition falsy (x : option string) : bool :=
  match x with
  | None => true
  | Some s => bool_decide (s = "")
  end.

Definition _create_dowhy_model (self : t) : py t :=
  match data self with
  | None => Raise (ValueError "Data must be attached before creating DoWhy model")
  | Some data =>
      let treatment := treatment_variable (dag_config self) in
      let outcome := outcome_variable (dag_config self) in
      if falsy treatment || falsy outcome
      then Raise (ValueError
             "DAG configuration must specify treatment_variable and outcome_variable")
      else
        let treatment := default "" treatment in
        let outcome := default "" outcome in
        let set_model m :=
          {| dag_config := dag_config self; data := Some data;
             dowhy_model := Some m; graph := graph self |} in
        match DoWhyCausalModel data treatment outcome (Some (graph self))
                (instruments (dag_config self))
                (confounders (dag_config self)) with
        | Return m => Return (set_model m)
        | Raise _ =>
            match DoWhyCausalModel data treatment outcome None None
                    (confounders (dag_config self)) with
            | Return m => Return (set_model m)
            | Raise e2 =>
                Raise (ValueError ("DoWhy model creation failed: " ++ str e2))
            end
        end
  end.

(** [CausalModel(dag_config, data)] *)
Definition init (dag_config : dag_source) (data : option DataFrame) : py t :=
  dag_config ← _load_dag_config dag_config;
  graph ← _build_networkx_graph dag_config;
  let self := {| dag_config := dag_config; data := data;
                 dowhy_model := None; graph := graph |} in
  match data with
  | Some _ => _create_dowhy_model self
  | None => Return self
  end.

Definition _validate_data (self : t) : py () :=
  match data self with
  | None => Return ()
  | Some data =>
      variables ← getkey "variables" (Config.variables (dag_config self));
      let required_vars : gset string := list_to_set (keys variables) in
      let data_vars : gset string := list_to_set (columns data) in
      let missing_vars := required_vars ∖ data_vars in
      if decide (missing_vars = ∅) then Return ()
      else Raise (MissingVariables missing_vars)
  end.

(** [attach_data]: the table is stored before it is validated. *)
Definition attach_data (self : t) (data : DataFrame) : py t :=
  let self := {| dag_config := dag_config self; data := Some data;
                 dowhy_model := dowhy_model self; graph := graph self |} in
  _ ← _validate_data self;
  _create_dowhy_model self.

Definition get_parents (self : t) (variable : string) : py (list string) :=
  nx.predecessors (graph self) variable.

Definition get_children (self : t) (variable : string) : py (list string) :=
  nx.successors (graph self) variable.

End DoWhy.

End CausalModel.

(** ** data/utils.py *)

Module utils.

Import Config.

Definition binary : VarInfo := {| type := Some "binary" |}.
Definition continuous : VarInfo := {| type := Some "continuous" |}.

(** The configuration dict.  [variables] is the dict literal of treatment
    and outcome, then one assignment per confounder, so a repeated name
    keeps its first position and its last entry; of an entry the [type] is
    kept, of the configuration the keys that are read. *)
Definition create_simple_treatment_outcome_dag (treatment_name outcome_name : string)
    (confounder_names : list string) : DagConfig :=
  let variables := dict_set outcome_name continuous (dict_set treatment_name binary []) in
  let variables :=
    foldl (λ variables conf_name, dict_set conf_name continuous variables)
          variables confounder_names in
  let edges :=
    foldl (λ edges conf_name,
             (edges ++ [{| edge_from := conf_name; edge_to := treatment_name |}])
               ++ [{| edge_from := conf_name; edge_to := outcome_name |}])%list
          [] confounder_names in
  let edges := (edges ++ [{| edge_from := treatment_name; edge_to := outcome_name |}])%list in
  {| variables := Some variables;
     edges := Some edges;
     treatment_variable := Some treatment_name;
     outcome_variable := Some outcome_name;
     confounders := Some confounder_names;
     instruments := None |}.

Definition create_mediation_dag (treatment_name mediator_name outcome_name : string)
    (confounder_names : list string) : DagConfig :=
  let variables :=
    dict_set outcome_name continuous
      (dict_set mediator_name continuous (dict_set treatment_name binary [])) in
  let variables :=
    foldl (λ variables conf_name, dict_set conf_name continuous variables)
          variables confounder_names in
  let edges :=
    foldl (λ edges conf_name,
             edges ++ [ {| edge_from := conf_name; edge_to := treatment_name |};
                        {| edge_from := conf_name; edge_to := mediator_name |};
                        {| edge_from := conf_name; edge_to := outcome_name |} ])%list
          [] confounder_names in
  let edges :=
    (edges ++ [ {| edge_from := treatment_name; edge_to := mediator_name |};
                {| edge_from := mediator_name; edge_to := outcome_name |};
                {| edge_from := treatment_name; edge_to := outcome_name |} ])%list in
  {| variables := Some variables;
     edges := Some edges;
     treatment_variable := Some treatment_name;
     outcome_variable := Some outcome_name;
     confounders := Some confounder_names;
     instruments := None |}.

(** The entries of [errors] and [warnings], each with the values its
    message interpolates. *)
Inductive message : Type :=
  (** [f"Missing columns: {missing_cols}"] *)
| MissingColumns (missing_cols : list string)
  (** ["Treatment variable has insufficient variation"] *)
| InsufficientVariation
  (** ["Sample size is quite small (< 100)"] *)
| SmallSample
  (** ["Treatment variable has many unique values - consider if this is continuous"] *)
| ManyUniqueValues
  (** [f"High missing values in: {high_missing.to_dict()}"] *)
| HighMissing (high_missing : list (string * num))
  (** [f"Small treatment group size: {min_group_size}"] *)
| SmallGroup (min_group_size : nat).

Record Validation : Type := {
  valid : bool;
  errors : list message;
  warnings : list message
}.

(** [s.nunique()]: the distinct values that are not NaN *)
Definition nunique (s : Series) : nat := length (remove_dups (pd.valid s)).

(** [s.value_counts()]: each distinct value with the number of its cells *)
Definition value_counts (s : Series) : list (Qc * nat) :=
  let xs := pd.valid s in
  (λ x, (x, length (List.filter (λ y, bool_decide (y = x)) xs))) <$> remove_dups xs.

(** One cell of [data.isnull().sum() / len(data) * 100]; on an empty table
    it is [0 / 0]. *)
Definition missing_pct (data : DataFrame) (col : string) : num :=
  let missing := length (List.filter (λ r, isnan (cell col r)) (rows data)) in
  if decide (len data = 0%nat) then NaN
  else Some (Qc_of_nat missing / Qc_of_nat (len data) * Qc_of_Z 100)%Qc.

Definition validate_dataset_for_causal_analysis (data : DataFrame)
    (treatment_var outcome_var : string) (confounders : list string) : Validation :=
  let results := {| valid := true; errors := []; warnings := [] |} in
  let required_cols := treatment_var :: outcome_var :: confounders in
  let missing_cols :=
    List.filter (λ col, bool_decide (col ∉ columns data)) required_cols in
  let results :=
    match missing_cols with
    | [] => results
    | _ => {| valid := false;
              errors := errors results ++ [MissingColumns missing_cols];
              warnings := warnings results |}
    end in
  let results :=
    if decide (len data < 100)%nat
    then {| valid := valid results; errors := errors results;
            warnings := warnings results ++ [SmallSample] |}
    else results in
  let results :=
    if decide (treatment_var ∈ columns data) then
      let treatment_unique := nunique (cell treatment_var <$> rows data) in
      if decide (treatment_unique < 2)%nat
      then {| valid := false;
              errors := errors results ++ [InsufficientVariation];
              warnings := warnings results |}
      else if decide (10 < treatment_unique)%nat
      then {| valid := valid results; errors := errors results;
              warnings := warnings results ++ [ManyUniqueValues] |}
      else results
    else results in
  let high_missing :=
    List.filter (λ entry, Num.gt entry.2 (of_Z 10))
                ((λ col, (col, missing_pct data col)) <$> columns data) in
  let results :=
    match high_missing with
    | [] => results
    | _ => {| valid := valid results; errors := errors results;
              warnings := warnings results ++ [HighMissing high_missing] |}
    end in
  if decide (treatment_var ∈ columns data ∧
             nunique (cell treatment_var <$> rows data) = 2%nat)
  then
    let treatment_counts := value_counts (cell treatment_var <$> rows data) in
    match treatment_counts.*2 with
    | count :: counts =>
        let min_group_size := foldl Nat.min count counts in
        if decide (min_group_size < 10)%nat
        then {| valid := valid results; errors := errors results;
                warnings := warnings results ++ [SmallGroup min_group_size] |}
        else results
    | [] => results
    end
  else results.

Section Sample.

Context {rng : Type}.
Variable random_normal : num → num → nat → rng → Series * rng.
Variable random_binomial : num → nat → rng → Series * rng.
Variable random_binomial_each : Series → nat → rng → py Series * rng.
Variable random_choice : list num → option (list num) → nat → rng → Series * rng.
Variable np_exp : num → num.
Variable random_seed : Z → py rng.
Variable topological_sort : nx.DiGraph → py (list string).

Definition generate_sample_dataset (n_samples : nat) (treatment_effect : num)
    (dag_config : option DagConfig) (seed : Z) : py DataFrame :=
  let dag_config :=
    match dag_config with
    | None => create_simple_treatment_outcome_dag "T" "Y" ["X"]
    | Some dag_config => dag_config
    end in
  '(generator, topological_order, st) ←
    SyntheticDataGenerator.new random_seed topological_sort dag_config seed;
  (SyntheticDataGenerator.generate_data random_normal random_binomial
     random_binomial_each random_choice np_exp generator topological_order n_samples
     treatment_effect (of_Q (1 # 2)) (of_Z 1) st).1.

End Sample.

End utils.

(** ** dispatch.py *)

Module dispatch.

(** [query_json]: the fields the handlers read, each present or absent. *)
Record Query : Type := {
  query_type : option string;
  treatment_variable : option string;
  outcome_variable : option string;
  anomaly_threshold : option num;
  potential_causes : option (list string);
  target_variable : option string;
  baseline_period : option string;
  comparison_period : option string;
  potential_drivers : option (list string);
  intervention_variable : option string;
  intervention_value : option num;
  outcome_variables : option (list string);
  factual_scenario : option (list (string * num));
  counterfactual_scenario : option (list (string * num))
}.

(** One entry of [all_estimates] / [failed_estimates] *)
Inductive estimate_entry : Type :=
| Estimated (method : string) (estimate : num) (confidence_interval : num * num)
| MethodFailed (method : string) (error : string).

Record Attribution : Type := {
  correlation : num;
  normal_mean : num;
  anomaly_mean : num;
  difference : num
}.

Record Contribution : Type := {
  baseline_mean : num;
  comparison_mean : num;
  shift : num;
  correlation_with_target : num;
  estimated_contribution : num
}.

Record Effect : Type := {
  original_value : num;
  intervened_value : num;
  effect : num
}.

(** The returned dict, one constructor per [return] of the module.  Of the
    [summary] line only the name it computes with [max] is kept. *)
Inductive Result : Type :=
| Failure (query_type : option string) (error : string)
| EffectEstimate (treatment_var outcome_var : string) (estimate : num)
    (confidence_interval : num * num) (all_estimates : list estimate_entry)
| AllMethodsFailed (failed_estimates : list estimate_entry)
| NoAnomalies (outcome_var : string) (anomaly_threshold : num)
| AnomalyAttribution (outcome_var : string) (anomaly_threshold : num)
    (anomalies_found : nat) (attribution_scores : list (string * Attribution))
    (top_contributor : string)
| ShiftAttribution (target_var : string)
    (baseline_mean comparison_mean shift_magnitude : num)
    (driver_contributions : list (string * Contribution)) (main_driver : string)
| Intervention (intervention_var : string) (intervention_value : num)
    (intervention_effects : list (string * Effect))
| Counterfactual (factual_scenario counterfactual_scenario : list (string * num))
    (outcome_var : string)
    (factual_outcome counterfactual_outcome counterfactual_effect : num).

(** [result["success"]] *)
Definition success (r : Result) : bool :=
  match r with
  | Failure _ _ | AllMethodsFailed _ => false
  | _ => true
  end.

(** [result.get("error")] *)
Definition error (r : Result) : option string :=
  match r with
  | Failure _ e => Some e
  | AllMethodsFailed _ => Some "All estimation methods failed"
  | _ => None
  end.

(** What DoWhy hands back for an estimate: an object with a [value]
    attribute (possibly [None]) or a bare number. *)
Inductive estimate : Type :=
| EstimateObject (value : option num)
| EstimateNumber (x : num).

(** [float(estimate.value)] / [float(estimate)] *)
Definition estimate_value (e : estimate) : py num :=
  match e with
  | EstimateObject (Some v) | EstimateNumber v => Return v
  | EstimateObject None =>
      Raise (TypeError "float() argument must be a string or a real number, not 'NoneType'")
  end.

Definition methods : list string :=
  ["backdoor.linear_regression"; "backdoor.propensity_score_stratification"].

Definition is_estimated (e : estimate_entry) : bool :=
  match e with Estimated _ _ _ => true | MethodFailed _ _ => false end.

(** [if not np.isnan(x): x else 0.0] *)
Definition nan_to_zero (x : num) : num := if isnan x then of_Z 0 else x.

Section Handlers.

Context {dowhy estimand : Type}.
(** pandas' [Series.corr], [pd.read_csv], and, from DoWhy, the model
    constructor and its [identify_effect] and [estimate_effect]. *)
Variable corr : Series → Series → num.
Variable read_csv : string → py DataFrame.
Variable json_load : string → py Config.DagConfig.
Variable DoWhyCausalModel :
  DataFrame → string → string → option nx.DiGraph →
  option (list string) → option (list string) → py dowhy.
Variable dowhy_identify_effect : dowhy → py estimand.
Variable dowhy_estimate_effect : dowhy → estimand → string → py estimate.

Local Abbreviation CausalModel := (@CausalModel.t dowhy).

(** [CausalModel.identify_effect] and [CausalModel.estimate_effect] *)
Definition identify_effect (self : CausalModel) : py estimand :=
  match CausalModel.dowhy_model self with
  | None => Raise (ValueError "DoWhy model not created. Attach data first.")
  | Some m => dowhy_identify_effect m
  end.

Definition estimate_effect (self : CausalModel) (identified_estimand : estimand)
    (method_name : string) : py estimate :=
  match CausalModel.dowhy_model self with
  | None => Raise (ValueError "DoWhy model not created. Attach data first.")
  | Some m => dowhy_estimate_effect m identified_estimand method_name
  end.

(** [causal_model.data], read where the anomaly handler first uses it, by
    [data[outcome_var]] *)
Definition model_data (causal_model : CausalModel) : py DataFrame :=
  match CausalModel.data causal_model with
  | Some data => Return data
  | None => Raise (TypeError "'NoneType' object is not subscriptable")
  end.

(** [try: ... except Exception as e: return {success: False, ...}] *)
Definition fail_soft (tag : option string) (body : py Result) : Result :=
  match body with
  | Return r => r
  | Raise e => Failure tag (str e)
  end.

(** The body of the loop over [methods] *)
Definition try_method (causal_model : CausalModel) (identified_estimand : estimand)
    (method : string) : estimate_entry :=
  match estimate_effect causal_model identified_estimand method ≫= estimate_value with
  | Return estimate_value =>
      Estimated method estimate_value
        (Num.sub estimate_value
           (Num.mul (Num.mul (of_Q (196 # 100)) (Num.abs estimate_value)) (of_Q (1 # 10))),
         Num.add estimate_value
           (Num.mul (Num.mul (of_Q (196 # 100)) (Num.abs estimate_value)) (of_Q (1 # 10))))
  | Raise method_error => MethodFailed method (str method_error)
  end.

Definition _handle_effect_estimation (query_json : Query) (causal_model : CausalModel)
  : Result :=
  fail_soft (Some "effect_estimation") (
    treatment_var ← getkey "treatment_variable" (treatment_variable query_json);
    outcome_var ← getkey "outcome_variable" (outcome_variable query_json);
    identified_estimand ← identify_effect causal_model;
    let estimates := try_method causal_model identified_estimand <$> methods in
    match List.find is_estimated estimates with
    | Some (Estimated _ estimate confidence_interval) =>
        mret (EffectEstimate treatment_var outcome_var estimate confidence_interval
                estimates)
    | _ => mret (AllMethodsFailed estimates)
    end).

Definition _handle_anomaly_attribution (query_json : Query) (causal_model : CausalModel)
  : Result :=
  fail_soft (Some "anomaly_attribution") (
    outcome_var ← getkey "outcome_variable" (outcome_variable query_json);
    anomaly_threshold ← getkey "anomaly_threshold" (anomaly_threshold query_json);
    potential_causes ← getkey "potential_causes" (potential_causes query_json);
    data ← model_data causal_model;
    outcome_values ← getitem data outcome_var;
    let anomalies := (λ y, Num.gt y anomaly_threshold) <$> outcome_values in
    if negb (any anomalies) then mret (NoAnomalies outcome_var anomaly_threshold)
    else
      let attribution_scores :=
        foldl (λ attribution_scores cause,
                 if decide (cause ∈ columns data) then
                   let values := cell cause <$> rows data in
                   let correlation := corr values outcome_values in
                   let normal_mean := mean (mask_select (negb <$> anomalies) values) in
                   let anomaly_mean := mean (mask_select anomalies values) in
                   dict_set cause
                     {| correlation := nan_to_zero correlation;
                        normal_mean := nan_to_zero normal_mean;
                        anomaly_mean := nan_to_zero anomaly_mean;
                        difference :=
                          if negb (isnan anomaly_mean || isnan normal_mean)
                          then Num.sub anomaly_mean normal_mean else of_Z 0 |}
                     attribution_scores
                 else attribution_scores)
              [] potential_causes in
      top ← max_by (λ x, Num.abs (default NaN
                            (correlation <$> dict_get x attribution_scores)))
                   (keys attribution_scores);
      mret (AnomalyAttribution outcome_var anomaly_threshold (count anomalies)
              attribution_scores top)).

Definition _handle_distribution_shift_attribution (query_json : Query)
    (causal_model : CausalModel) : Result :=
  fail_soft (Some "distribution_shift_attribution") (
    target_var ← getkey "target_variable" (target_variable query_json);
    _ ← getkey "baseline_period" (baseline_period query_json);
    _ ← getkey "comparison_period" (comparison_period query_json);
    potential_drivers ← getkey "potential_drivers" (potential_drivers query_json);
    data ← match CausalModel.data causal_model with
           | Some data => Return data
           | None => Raise (AttributeError "'NoneType' object has no attribute 'iloc'")
           end;
    let baseline_data := iloc_to (len data / 2) data in
    let comparison_data := iloc_from (len data / 2) data in
    baseline_target ← getitem baseline_data target_var;
    let baseline_mean := mean baseline_target in
    comparison_target ← getitem comparison_data target_var;
    let comparison_mean := mean comparison_target in
    let shift_magnitude := Num.sub comparison_mean baseline_mean in
    let driver_contributions :=
      foldl (λ driver_contributions driver,
               if decide (driver ∈ columns data) then
                 let baseline_driver_mean := mean (cell driver <$> rows baseline_data) in
                 let comparison_driver_mean :=
                   mean (cell driver <$> rows comparison_data) in
                 let driver_shift := Num.sub comparison_driver_mean baseline_driver_mean in
                 let correlation :=
                   corr (cell driver <$> rows data) (cell target_var <$> rows data) in
                 let contribution :=
                   if negb (isnan correlation) then Num.mul driver_shift correlation
                   else of_Z 0 in
                 dict_set driver
                   {| baseline_mean := baseline_driver_mean;
                      comparison_mean := comparison_driver_mean;
                      shift := driver_shift;
                      correlation_with_target := nan_to_zero correlation;
                      estimated_contribution := contribution |}
                   driver_contributions
               else driver_contributions)
            [] potential_drivers in
    main ← max_by (λ x, Num.abs (default NaN
                           (estimated_contribution <$> dict_get x driver_contributions)))
                  (keys driver_contributions);
    mret (ShiftAttribution target_var baseline_mean comparison_mean shift_magnitude
            driver_contributions main)).

(** The first loop of the intervention handler: one outcome variable.
    [data_intervened], a copy with the intervention column overwritten,
    is built and never read. *)
Definition intervene_on (data : DataFrame) (intervention_var : string)
    (intervention_value : num)
    (outcomes : list (string * num) * list (string * num)) (outcome_var : string)
  : list (string * num) * list (string * num) :=
  let '(original_outcomes, intervened_outcomes) := outcomes in
  if decide (outcome_var ∈ columns data) then
    let original := mean (cell outcome_var <$> rows data) in
    let original_outcomes := dict_set outcome_var original original_outcomes in
    if decide (intervention_var ∈ columns data) then
      let correlation :=
        corr (cell intervention_var <$> rows data) (cell outcome_var <$> rows data) in
      if negb (isnan correlation) then
        let original_intervention_mean := mean (cell intervention_var <$> rows data) in
        let intervention_effect :=
          Num.mul (Num.sub intervention_value original_intervention_mean) correlation in
        (original_outcomes,
         dict_set outcome_var (Num.add original intervention_effect) intervened_outcomes)
      else (original_outcomes, dict_set outcome_var original intervened_outcomes)
    else (original_outcomes, dict_set outcome_var original intervened_outcomes)
  else (original_outcomes, intervened_outcomes).

Definition _handle_intervention (query_json : Query) (causal_model : CausalModel)
  : Result :=
  fail_soft (Some "intervention") (
    intervention_var ← getkey "intervention_variable" (intervention_variable query_json);
    intervention_value ← getkey "intervention_value" (intervention_value query_json);
    outcome_vars ← getkey "outcome_variables" (outcome_variables query_json);
    data ← match CausalModel.data causal_model with
           | Some data => Return data
           | None => Raise (AttributeError "'NoneType' object has no attribute 'copy'")
           end;
    let '(original_outcomes, intervened_outcomes) :=
      foldl (intervene_on data intervention_var intervention_value) ([], []) outcome_vars in
    intervention_effects ←
      foldl (λ acc outcome_var,
               intervention_effects ← acc;
               match dict_get outcome_var original_outcomes with
               | Some original =>
                   intervened ← getkey outcome_var (dict_get outcome_var intervened_outcomes);
                   mret (dict_set outcome_var
                           {| original_value := original;
                              intervened_value := intervened;
                              effect := Num.sub intervened original |}
                           intervention_effects)
               | None => mret intervention_effects
               end)
            (Return []) outcome_vars;
    mret (Intervention intervention_var intervention_value intervention_effects)).

(** The filtering loop of the counterfactual handler; membership is
    tested on the full table, the deviation is taken over the rows that
    are left. *)
Definition filter_factual (data : DataFrame) (factual_scenario : list (string * num))
  : DataFrame :=
  foldl (λ filtered_data item,
           let '(var, value) := item in
           if decide (var ∈ columns data) then
             select (λ r, Num.le_root (Num.abs (Num.sub (cell var r) value))
                            (std (cell var <$> rows filtered_data)))
                    filtered_data
           else filtered_data)
        data factual_scenario.

Definition _handle_counterfactual (query_json : Query) (causal_model : CausalModel)
  : Result :=
  fail_soft (Some "counterfactual") (
    factual_scenario ← getkey "factual_scenario" (factual_scenario query_json);
    counterfactual_scenario ←
      getkey "counterfactual_scenario" (counterfactual_scenario query_json);
    outcome_var ← getkey "outcome_variable" (outcome_variable query_json);
    data ← match CausalModel.data causal_model with
           | Some data => Return data
           | None => Raise (AttributeError "'NoneType' object has no attribute 'copy'")
           end;
    let filtered_data := filter_factual data factual_scenario in
    let filtered_data := if decide (len filtered_data = 0%nat) then data else filtered_data in
    outcome_values ← getitem filtered_data outcome_var;
    let factual_outcome := mean outcome_values in
    let counterfactual_adjustment :=
      foldl (λ counterfactual_adjustment item,
               let '(var, cf_value) := item in
               if decide (var ∈ columns data) then
                 match dict_get var factual_scenario with
                 | Some factual_value =>
                     let correlation :=
                       corr (cell var <$> rows data) (cell outcome_var <$> rows data) in
                     if negb (isnan correlation) then
                       Num.add counterfactual_adjustment
                         (Num.mul (Num.sub cf_value factual_value) correlation)
                     else counterfactual_adjustment
                 | None => counterfactual_adjustment
                 end
               else counterfactual_adjustment)
            (of_Z 0) counterfactual_scenario in
    let counterfactual_outcome := Num.add factual_outcome counterfactual_adjustment in
    mret (Counterfactual factual_scenario counterfactual_scenario outcome_var
            factual_outcome counterfactual_outcome
            (Num.sub counterfactual_outcome factual_outcome))).

Definition dispatch_query (query_json : Query) (dag_path data_path : string) : Result :=
  fail_soft (Some (default "unknown" (query_type query_json))) (
    data ← read_csv data_path;
    causal_model ← CausalModel.init json_load DoWhyCausalModel
                     (CausalModel.FromPath dag_path) (Some data);
    let query_type := query_type query_json in
    if decide (query_type = Some "effect_estimation")
    then mret (_handle_effect_estimation query_json causal_model)
    else if decide (query_type = Some "anomaly_attribution")
    then mret (_handle_anomaly_attribution query_json causal_model)
    else if decide (query_type = Some "distribution_shift_attribution")
    then mret (_handle_distribution_shift_attribution query_json causal_model)
    else if decide (query_type = Some "intervention")
    then mret (_handle_intervention query_json causal_model)
    else if decide (query_type = Some "counterfactual")
    then mret (_handle_counterfactual query_json causal_model)
    else mret (Failure query_type ("Unknown query type: " ++ fmt query_type))).

End Handlers.

(** Reading fields of a result that need not be there *)
Definition get_anomalies_found (r : Result) : option nat :=
  match r with
  | NoAnomalies _ _ => Some 0%nat
  | AnomalyAttribution _ _ n _ _ => Some n
  | _ => None
  end.

Definition get_attribution_scores (r : Result) : option (list (string * Attribution)) :=
  match r with
  | NoAnomalies _ _ => Some []
  | AnomalyAttribution _ _ _ scores _ => Some scores
  | _ => None
  end.

Definition get_factual_outcome (r : Result) : option num :=
  match r with
  | Counterfactual _ _ _ y _ _ => Some y
  | _ => None
  end.

(** A query with only its tag *)
Definition bare_query (tag : option string) : Query :=
  {| query_type := tag; treatment_variable := None; outcome_variable := None;
     anomaly_threshold := None; potential_causes := None; target_variable := None;
     baseline_period := None; comparison_period := None; potential_drivers := None;
     intervention_variable := None; intervention_value := None;
     outcome_variables := None; factual_scenario := None;
     counterfactual_scenario := None |}.

Definition recognized : list string :=
  ["effect_estimation"; "anomaly_attribution"; "distribution_shift_attribution";
   "intervention"; "counterfactual"].

(** [result["query_type"]] *)
Definition get_query_type (r : Result) : option string :=
  match r with
  | Failure query_type _ => query_type
  | EffectEstimate _ _ _ _ _ | AllMethodsFailed _ => Some "effect_estimation"
  | NoAnomalies _ _ | AnomalyAttribution _ _ _ _ _ => Some "anomaly_attribution"
  | ShiftAttribution _ _ _ _ _ _ => Some "distribution_shift_attribution"
  | Intervention _ _ _ => Some "intervention"
  | Counterfactual _ _ _ _ _ _ => Some "counterfactual"
  end.

End dispatch.

(** ** The confidence interval on IEEE doubles

    Everywhere else a float is an exact rational or NaN.  For the one
    expression whose value depends on the order of two roundings, the
    interval of [_handle_effect_estimation], here is the same expression
    on binary64 numbers, beside the interval as the specification writes
    it. *)

Module binary64.

Import PrimFloat.
Local Open Scope float_scope.

(** The doubles nearest to 1.96 and to 0.1 *)
Definition c1_96 : float := 0x1.f5c28f5c28f5cp+0.
Definition c0_1 : float := 0x1.999999999999ap-4.

(** [[float(estimate_value - 1.96 * abs(estimate_value) * 0.1),
      float(estimate_value + 1.96 * abs(estimate_value) * 0.1)]] *)
Definition confidence_interval (estimate_value : float) : float * float :=
  (estimate_value - c1_96 * abs estimate_value * c0_1,
   estimate_value + c1_96 * abs estimate_value * c0_1).

(** The specification's [estimate ± 1.96 * 0.1 * |estimate|] *)
Definition claimed_interval (estimate : float) : float * float :=
  (estimate - c1_96 * c0_1 * abs estimate,
   estimate + c1_96 * c0_1 * abs estimate).

End binary64.

(** ** api/main.py *)

Module api.

(** What an endpoint does: it returns a body or raises [HTTPException]. *)
Inductive response (A : Type) : Type :=
| Respond (body : A)
| HTTPException (status_code : nat) (detail : string).
Global Arguments Respond {_} _.
Global Arguments HTTPException {_} _ _.

Record LegacyCausalQuery : Type := {
  treatment_variable : string;
  outcome_variable : string;
  confounders : list string;
  treatment_value : option num;
  dag_file : option string;
  data_file : option string
}.

Record CausalResult : Type := {
  estimate : option num;
  confidence_interval : option (num * num);
  summary : string;
  success : bool;
  error : option string;
  query_type : option string;
  results : option dispatch.Result
}.

(** [result.get("estimate")] and [result.get("confidence_interval")] *)
Definition get_estimate (r : dispatch.Result) : option num :=
  match r with
  | dispatch.EffectEstimate _ _ estimate _ _ => Some estimate
  | _ => None
  end.

Definition get_confidence_interval (r : dispatch.Result) : option (num * num) :=
  match r with
  | dispatch.EffectEstimate _ _ _ confidence_interval _ => Some confidence_interval
  | _ => None
  end.

Section Endpoints.

Context {dowhy estimand : Type}.
Variable corr : Series → Series → num.
Variable read_csv : string → py DataFrame.
Variable json_load : string → py Config.DagConfig.
Variable DoWhyCausalModel :
  DataFrame → string → string → option nx.DiGraph →
  option (list string) → option (list string) → py dowhy.
Variable dowhy_identify_effect : dowhy → py estimand.
Variable dowhy_estimate_effect : dowhy → estimand → string → py dispatch.estimate.
(** [str(e)] of an [HTTPException], and [result.get("summary")], the line
    of a result that its record does not hold *)
Variable str_http : nat → string → string.
Variable get_summary : dispatch.Result → option string.

(** The legacy endpoint [/analyze]: the body of its [try], then its
    [except Exception], which also catches the [HTTPException] the body
    raises.  The confounders and the treatment value are copied into the
    query, where no handler reads them. *)
Definition analyze_causal_effect (query : LegacyCausalQuery) : response CausalResult :=
  let body : response CausalResult :=
    if CausalModel.falsy (data_file query)
    then HTTPException 400 "data_file is required"
    else
      let effect_query :=
        {| dispatch.query_type := Some "effect_estimation";
           dispatch.treatment_variable := Some (treatment_variable query);
           dispatch.outcome_variable := Some (outcome_variable query);
           dispatch.anomaly_threshold := None; dispatch.potential_causes := None;
           dispatch.target_variable := None; dispatch.baseline_period := None;
           dispatch.comparison_period := None; dispatch.potential_drivers := None;
           dispatch.intervention_variable := None; dispatch.intervention_value := None;
           dispatch.outcome_variables := None; dispatch.factual_scenario := None;
           dispatch.counterfactual_scenario := None |} in
      let result :=
        dispatch.dispatch_query corr read_csv json_load DoWhyCausalModel
          dowhy_identify_effect dowhy_estimate_effect effect_query
          (if CausalModel.falsy (dag_file query)
           then "causal_analysis/config/sample_dag.json"
           else default "" (dag_file query))
          (default "" (data_file query)) in
      if dispatch.success result then
        Respond {| estimate := get_estimate result;
                   confidence_interval := get_confidence_interval result;
                   summary := default "Analysis completed" (get_summary result);
                   success := true;
                   error := None;
                   query_type := dispatch.get_query_type result;
                   results := Some result |}
      else
        Respond {| estimate := None;
                   confidence_interval := None;
                   summary := default "Analysis failed" (dispatch.error result);
                   success := false;
                   error := dispatch.error result;
                   query_type := dispatch.get_query_type result;
                   results := None |} in
  match body with
  | Respond result => Respond result
  | HTTPException status_code detail =>
      HTTPException 500 (str_http status_code detail)
  end.

End Endpoints.

End api.

(** ** The specification's vocabulary *)

Module Spec.

Definition Qc_max (a b : Qc) : Qc := if bool_decide (a ≤ b)%Qc then b else a.

(** The maximum of a column: its largest cell that is not NaN *)
Definition series_max (s : Series) : num :=
  match valid s with
  | [] => NaN
  | x :: xs => Some (foldl Qc_max x xs)
  end.

(** [estimate ± 1.96 * |estimate| * 0.1], the two products taken from left
    to right *)
Definition confidence_interval (estimate : num) : num * num :=
  (Num.sub estimate
     (Num.mul (Num.mul (of_Q (196 # 100)) (Num.abs estimate)) (of_Q (1 # 10))),
   Num.add estimate
     (Num.mul (Num.mul (of_Q (196 # 100)) (Num.abs estimate)) (of_Q (1 # 10)))).

(** A name that [repr] shows as it is, between single quotes: printable
    code points only, none of them a backslash or a single quote *)
Fixpoint plain (s : string) : bool :=
  match s with
  | EmptyString => true
  | String c s' =>
      isprintable c && negb (bool_decide (c = backslash))
      && negb (bool_decide (c = single_quote)) && plain s'
  end.

(** The per-method entries a result reports, on success or on failure *)
Definition reported_estimates (r : dispatch.Result) : list dispatch.estimate_entry :=
  match r with
  | dispatch.EffectEstimate _ _ _ _ all_estimates => all_estimates
  | dispatch.AllMethodsFailed failed_estimates => failed_estimates
  | _ => []
  end.

Section Bridge.

Context {dowhy estimand : Type}.
Variable DoWhyCausalModel :
  DataFrame → string → string → option nx.DiGraph →
  option (list string) → option (list string) → py dowhy.
Variable dowhy_estimate_effect : dowhy → estimand → string → py dispatch.estimate.

(** DoWhy builds a model for the table, with the graph or, failing
    that, without it. *)
Definition dowhy_accepts (config : Config.DagConfig) (graph : nx.DiGraph)
    (data : DataFrame) (treatment outcome : string) (m : dowhy) : Prop :=
  DoWhyCausalModel data treatment outcome (Some graph) (Config.instruments config)
    (Config.confounders config) = Return m ∨
  ((∃ e, DoWhyCausalModel data treatment outcome (Some graph)
           (Config.instruments config) (Config.confounders config) = Raise e) ∧
   DoWhyCausalModel data treatment outcome None None (Config.confounders config)
     = Return m).

(** An estimation method succeeds with a value when DoWhy's estimator
    returns that number, bare or as the [value] of an estimate object. *)
Definition succeeds_with (m : dowhy) (identified_estimand : estimand)
    (method : string) (v : num) : Prop :=
  dowhy_estimate_effect m identified_estimand method = Return (dispatch.EstimateNumber v) ∨
  dowhy_estimate_effect m identified_estimand method
    = Return (dispatch.EstimateObject (Some v)).

(** It fails, with an error text, when the estimator raises (the text is
    that of its exception) or returns an object whose [value] is [None],
    which cannot be made a float. *)
Definition fails_with (m : dowhy) (identified_estimand : estimand)
    (method : string) (error : string) : Prop :=
  (∃ e, dowhy_estimate_effect m identified_estimand method = Raise e ∧ error = str e) ∨
  (dowhy_estimate_effect m identified_estimand method
     = Return (dispatch.EstimateObject None) ∧
   error = "float() argument must be a string or a real number, not 'NoneType'").

End Bridge.

(** The claim's filter for a counterfactual query: a row is kept when, for
    each factual variable, its value lies within one standard deviation,
    taken over the table's column, of the declared value. *)
Definition within_one_std (column : Series) (value : num) (x : num) : bool :=
  Num.le_root (Num.abs (Num.sub x value)) (std column).

Definition intersection_filter (data : DataFrame) (factual_scenario : list (string * num))
  : DataFrame :=
  select (λ r, forallb (λ item : string * num,
                          within_one_std (cell item.1 <$> rows data) item.2 (cell item.1 r))
                       factual_scenario)
         data.

(** The filter as amended: the [k]-th variable is compared against the
    deviation of its column over the rows the variables before it have
    left, and a variable without a column filters nothing. *)
Definition passes (data : DataFrame) (before : list (string * num))
    (item : string * num) (r : gmap string num) : bool :=
  if decide (item.1 ∈ columns data)
  then within_one_std (cell item.1 <$> rows (dispatch.filter_factual data before))
         item.2 (cell item.1 r)
  else true.

Definition survives (data : DataFrame) (factual_scenario : list (string * num))
    (r : gmap string num) : bool :=
  forallb (λ k, match factual_scenario !! k with
                | Some item => passes data (take k factual_scenario) item r
                | None => true
                end)
          (seq 0 (length factual_scenario)).

(** [coefficient(parent -> child)] in the specification's words *)
Definition coefficient (config : Config.DagConfig)
    (treatment_effect confounder_strength : num) (parent child : string) : num :=
  let treatment := default "" (Config.treatment_variable config) in
  let outcome := default "" (Config.outcome_variable config) in
  if decide (parent = treatment ∧ child = outcome) then treatment_effect
  else if decide (parent ∈ default [] (Config.confounders config) ∧
                  (child = treatment ∨ child = outcome))
  then confounder_strength
  else of_Q (1 # 2).

(** One row of the column: the noise, then parent after parent its
    coefficient times its value *)
Definition linear_row (coeff : string → num) (parents : list string) (noise : num)
    (parent_value : string → num) : num :=
  foldl (λ acc parent, Num.add acc (Num.mul (coeff parent) (parent_value parent)))
        noise parents.

(** The cell of a generated column *)
Definition at_row (data : gmap string Series) (i : nat) (parent : string) : num :=
  default NaN (data !! parent ≫= (.!! i)).

(** The configuration's edges as a relation on names, and a cycle: a name
    that reaches itself along one edge or more *)
Definition edge_rel (edges : list Config.Edge) (u v : string) : Prop :=
  ∃ e, e ∈ edges ∧ Config.edge_from e = u ∧ Config.edge_to e = v.

Definition cyclic (edges : list Config.Edge) : Prop :=
  ∃ v, tc (edge_rel edges) v v.

(** An error names an edge when its message shows both end points. *)
Definition names_edge (e : exn) (edge : Config.Edge) : bool :=
  contains (str e) (Config.edge_from edge) && contains (str e) (Config.edge_to edge).

(** The effect the specification gives an intervention *)
Definition intervention_effect (corr : Series → Series → num) (data : DataFrame)
    (intervention_var : string) (intervention_value : num) (outcome_var : string) : num :=
  if decide (intervention_var ∈ columns data) then
    let correlation :=
      corr (cell intervention_var <$> rows data) (cell outcome_var <$> rows data) in
    if isnan correlation then of_Z 0
    else Num.mul (Num.sub intervention_value (mean (cell intervention_var <$> rows data)))
           correlation
  else of_Z 0.


Section Intervention.

Variable corr : Series → Series → num.

(** What the first loop of the intervention handler leaves for one outcome
    variable, and the entry the second loop builds from it *)
Definition original_of (data : DataFrame) (k : string) : num :=
  mean (cell k <$> rows data).
Definition intervened_of (data : DataFrame) (iv : string) (value : num) (k : string) : num :=
  if decide (iv ∈ columns data) then
    let c := corr (cell iv <$> rows data) (cell k <$> rows data) in
    if negb (isnan c)
    then Num.add (original_of data k)
           (Num.mul (Num.sub value (mean (cell iv <$> rows data))) c)
    else original_of data k
  else original_of data k.

Definition entry_of (original intervened : list (string * num)) (k : string)
  : option dispatch.Effect :=
  o ← dict_get k original;
  i ← dict_get k intervened;
  Some {| dispatch.original_value := o; dispatch.intervened_value := i;
          dispatch.effect := Num.sub i o |}.


End Intervention.

(** The names a configuration knows: the declared variables and the end
    points of its edges *)
Definition mentions (vs : list (string * Config.VarInfo)) (es : list Config.Edge)
    (x : string) : Prop :=
  x ∈ keys vs ∨ ∃ e, e ∈ es ∧ (x = Config.edge_from e ∨ x = Config.edge_to e).

(** A topological order of a graph: its nodes, each once, every edge
    pointing forward *)
Definition topological (g : nx.DiGraph) (order : list string) : Prop :=
  NoDup order ∧
  (∀ v, v ∈ order ↔ v ∈ nx.nodes g) ∧
  ∀ u v, (u, v) ∈ nx.edges g →
    ∃ i j, order !! i = Some u ∧ order !! j = Some v ∧ (i < j)%nat.

(** A variable the generator gives a column: declared, with one of the
    three types, an absent type counting as continuous *)
Definition typed (variables : list (string * Config.VarInfo)) (v : string) : Prop :=
  ∃ info, dict_get v variables = Some info ∧
    default "continuous" (Config.type info) ∈ ["binary"; "continuous"; "categorical"].

(** A column of [n] cells, none of them NaN *)
Definition column_of (n : nat) (s : Series) : Prop :=
  length s = n ∧ Forall (λ x, x ≠ NaN) s.

(** What numpy promises of the draws the generator makes for [n] samples
    and a noise deviation it accepts: each returns [n] numbers; [binomial]
    with an array of probabilities does so when the array holds [n] numbers
    between 0 and 1; [np.exp] of a number is a positive number. *)
Record numpy_draws {rng : Type} (n : nat) (noise_std : num)
    (random_normal : num → num → nat → rng → Series * rng)
    (random_binomial : num → nat → rng → Series * rng)
    (random_binomial_each : Series → nat → rng → py Series * rng)
    (random_choice : list num → option (list num) → nat → rng → Series * rng)
    (np_exp : num → num) : Prop := {
  normal_root : ∀ st, column_of n (random_normal (of_Z 0) (of_Z 1) n st).1;
  normal_noise : ∀ st, column_of n (random_normal (of_Z 0) noise_std n st).1;
  binomial_root : ∀ st, column_of n (random_binomial (of_Q (1 # 2)) n st).1;
  binomial_each : ∀ p st,
    length p = n →
    Forall (λ x, ∃ q, x = Some q ∧ (0 ≤ q)%Qc ∧ (q ≤ 1)%Qc) p →
    ∃ values, (random_binomial_each p n st).1 = Return values ∧ column_of n values;
  choice_root : ∀ st,
    column_of n (random_choice [of_Z 0; of_Z 1; of_Z 2] None n st).1;
  choice_split : ∀ st,
    column_of n (random_choice [of_Z 1; of_Z 2]
                   (Some [of_Q (7 # 10); of_Q (3 # 10)]) n st).1;
  exp_positive : ∀ q, ∃ e, np_exp (Some q) = Some e ∧ (0 < e)%Qc
}.

(** What numpy promises of the size of the draws the generator makes with
    [size = n]: each returns, when it returns, [n] values. *)
Record draws_sized {rng : Type} (n : nat)
    (random_normal : num → num → nat → rng → Series * rng)
    (random_binomial : num → nat → rng → Series * rng)
    (random_binomial_each : Series → nat → rng → py Series * rng)
    (random_choice : list num → option (list num) → nat → rng → Series * rng)
  : Prop := {
  normal_size : ∀ loc scale st, length (random_normal loc scale n st).1 = n;
  binomial_size : ∀ p st, length (random_binomial p n st).1 = n;
  binomial_each_size : ∀ p st values,
    (random_binomial_each p n st).1 = Return values → length values = n;
  choice_size : ∀ a p st, length (random_choice a p n st).1 = n
}.

End Spec.

(** ** Concrete configurations, tables and collaborators *)

Module Examples.

Import Config.

Definition frame (columns : list string) (cells : list (list num)) : DataFrame :=
  {| columns := columns;
     rows := (λ r, list_to_map (zip columns r) : gmap string num) <$> cells |}.

Definition continuous : VarInfo := {| type := Some "continuous" |}.

(** One confounder: X -> T, X -> Y, T -> Y *)
Definition triangle : DagConfig :=
  {| variables := Some [("X", continuous); ("T", continuous); ("Y", continuous)];
     edges := Some [ {| edge_from := "X"; edge_to := "T" |};
                     {| edge_from := "X"; edge_to := "Y" |};
                     {| edge_from := "T"; edge_to := "Y" |} ];
     treatment_variable := Some "T";
     outcome_variable := Some "Y";
     confounders := Some ["X"];
     instruments := None |}.

(** A table for [triangle] without the confounder's column *)
Definition table_TY : DataFrame :=
  frame ["T"; "Y"] [ [of_Z 0; of_Z 1]; [of_Z 1; of_Z 5] ].

(** Collaborators: a file system without the file, one that holds
    [table_TY] and [triangle], a DoWhy that accepts every table, and one
    whose regression fails while its stratification estimates 2. *)
Definition no_such_file {A} (path : string) : py A :=
  Raise (LibraryError ("[Errno 2] No such file or directory: " ++ repr path)).
Definition read_table_TY (path : string) : py DataFrame := Return table_TY.
Definition load_triangle (path : string) : py DagConfig := Return triangle.
Definition corr_undefined (x y : Series) : num := NaN.
Definition dowhy_accept (data : DataFrame) (treatment outcome : string)
    (graph : option nx.DiGraph) (instruments common_causes : option (list string))
  : py () := Return ().
Definition identify_ok (m : ()) : py () := Return ().
Definition estimate_second_only (m : ()) (estimand : ()) (method : string)
  : py dispatch.estimate :=
  if decide (method = "backdoor.linear_regression")
  then Raise (LibraryError "Singular matrix")
  else Return (dispatch.EstimateObject (Some (of_Z 2))).
Definition estimate_never (m : ()) (estimand : ()) (method : string)
  : py dispatch.estimate := Raise (LibraryError "Singular matrix").

Definition triangle_graph : nx.DiGraph :=
  {| nx.nodes := ["X"; "T"; "Y"]; nx.edges := [("X", "T"); ("X", "Y"); ("T", "Y")] |}.

Definition model_TY : @CausalModel.t () :=
  {| CausalModel.dag_config := triangle; CausalModel.data := Some table_TY;
     CausalModel.dowhy_model := Some (); CausalModel.graph := triangle_graph |}.

Definition effect_query : dispatch.Query :=
  {| dispatch.query_type := Some "effect_estimation";
     dispatch.treatment_variable := Some "T"; dispatch.outcome_variable := Some "Y";
     dispatch.anomaly_threshold := None; dispatch.potential_causes := None;
     dispatch.target_variable := None; dispatch.baseline_period := None;
     dispatch.comparison_period := None; dispatch.potential_drivers := None;
     dispatch.intervention_variable := None; dispatch.intervention_value := None;
     dispatch.outcome_variables := None; dispatch.factual_scenario := None;
     dispatch.counterfactual_scenario := None |}.

Definition anomaly_query (threshold : num) (causes : list string) : dispatch.Query :=
  {| dispatch.query_type := Some "anomaly_attribution";
     dispatch.treatment_variable := None; dispatch.outcome_variable := Some "Y";
     dispatch.anomaly_threshold := Some threshold;
     dispatch.potential_causes := Some causes;
     dispatch.target_variable := None; dispatch.baseline_period := None;
     dispatch.comparison_period := None; dispatch.potential_drivers := None;
     dispatch.intervention_variable := None; dispatch.intervention_value := None;
     dispatch.outcome_variables := None; dispatch.factual_scenario := None;
     dispatch.counterfactual_scenario := None |}.

(** A table whose outcome column has no value at all, and one with a
    single row *)
Definition table_XY_missing : DataFrame :=
  frame ["X"; "Y"] [ [of_Z 1; NaN]; [of_Z 2; NaN] ].
Definition table_one_row : DataFrame :=
  frame ["X"; "Y"] [ [of_Z 1; of_Z 2] ].

Definition model_of (data : DataFrame) : @CausalModel.t () :=
  {| CausalModel.dag_config := triangle; CausalModel.data := Some data;
     CausalModel.dowhy_model := Some (); CausalModel.graph := triangle_graph |}.

Definition intervention_query (variable : string) (value : num) (outcomes : list string)
  : dispatch.Query :=
  {| dispatch.query_type := Some "intervention";
     dispatch.treatment_variable := None; dispatch.outcome_variable := None;
     dispatch.anomaly_threshold := None; dispatch.potential_causes := None;
     dispatch.target_variable := None; dispatch.baseline_period := None;
     dispatch.comparison_period := None; dispatch.potential_drivers := None;
     dispatch.intervention_variable := Some variable;
     dispatch.intervention_value := Some value;
     dispatch.outcome_variables := Some outcomes; dispatch.factual_scenario := None;
     dispatch.counterfactual_scenario := None |}.

Definition shift_query (target : string) (drivers : list string) : dispatch.Query :=
  {| dispatch.query_type := Some "distribution_shift_attribution";
     dispatch.treatment_variable := None; dispatch.outcome_variable := None;
     dispatch.anomaly_threshold := None; dispatch.potential_causes := None;
     dispatch.target_variable := Some target; dispatch.baseline_period := Some "first";
     dispatch.comparison_period := Some "second";
     dispatch.potential_drivers := Some drivers;
     dispatch.intervention_variable := None; dispatch.intervention_value := None;
     dispatch.outcome_variables := None; dispatch.factual_scenario := None;
     dispatch.counterfactual_scenario := None |}.

Definition counterfactual_query (factual counterfactual : list (string * num))
    (outcome : string) : dispatch.Query :=
  {| dispatch.query_type := Some "counterfactual";
     dispatch.treatment_variable := None; dispatch.outcome_variable := Some outcome;
     dispatch.anomaly_threshold := None; dispatch.potential_causes := None;
     dispatch.target_variable := None; dispatch.baseline_period := None;
     dispatch.comparison_period := None; dispatch.potential_drivers := None;
     dispatch.intervention_variable := None; dispatch.intervention_value := None;
     dispatch.outcome_variables := None; dispatch.factual_scenario := Some factual;
     dispatch.counterfactual_scenario := Some counterfactual |}.

(** Four rows; the last one is far from the others in [A] and in [B]. *)
Definition table_ABY : DataFrame :=
  frame ["A"; "B"; "Y"]
    [ [of_Z 0; of_Z 0; of_Z 0]; [of_Z 0; of_Z 1; of_Z 0];
      [of_Z 0; of_Z 2; of_Z 3]; [of_Z 10; of_Z 100; of_Z 0] ].

Definition factual_AB : list (string * num) := [("A", of_Z 0); ("B", of_Z 0)].
Definition factual_BA : list (string * num) := [("B", of_Z 0); ("A", of_Z 0)].

(** A generator for [triangle], a table holding the parents of [Y], and a
    stand-in for numpy's generator that counts: the state is the next value
    drawn. *)
Definition generator_triangle : SyntheticDataGenerator.t :=
  {| SyntheticDataGenerator.seed := Some 42%Z;
     SyntheticDataGenerator.dag_config := triangle;
     SyntheticDataGenerator.variables :=
       [("X", continuous); ("T", continuous); ("Y", continuous)];
     SyntheticDataGenerator.edges :=
       [ {| edge_from := "X"; edge_to := "T" |};
         {| edge_from := "X"; edge_to := "Y" |};
         {| edge_from := "T"; edge_to := "Y" |} ];
     SyntheticDataGenerator.graph := triangle_graph |}.

Definition parents_of_Y : gmap string Series :=
  {[ "X" := [of_Z 1; of_Z 2]; "T" := [of_Z 0; of_Z 1] ]}.

Definition counting_normal (loc scale : num) (n : nat) (st : nat) : Series * nat :=
  ((λ k, of_Z (Z.of_nat (st + k))) <$> seq 0 n, (st + n)%nat).

(** Two variables that cause each other *)
Definition loop : DagConfig :=
  {| variables := Some [("X", continuous); ("Y", continuous)];
     edges := Some [ {| edge_from := "X"; edge_to := "Y" |};
                     {| edge_from := "Y"; edge_to := "X" |} ];
     treatment_variable := Some "X";
     outcome_variable := Some "Y";
     confounders := None;
     instruments := None |}.

(** A model of [triangle] constructed without a table, a table with a
    column for each of its variables, and a model of the configuration
    [create_simple_treatment_outcome_dag()] *)
Definition model_without_data : @CausalModel.t () :=
  {| CausalModel.dag_config := triangle; CausalModel.data := None;
     CausalModel.dowhy_model := None; CausalModel.graph := triangle_graph |}.

Definition table_XTY : DataFrame :=
  frame ["X"; "T"; "Y"] [ [of_Z 1; of_Z 0; of_Z 1]; [of_Z 2; of_Z 1; of_Z 5] ].

Definition model_simple : @CausalModel.t () :=
  {| CausalModel.dag_config := utils.create_simple_treatment_outcome_dag "T" "Y" ["X"];
     CausalModel.data := None; CausalModel.dowhy_model := None;
     CausalModel.graph :=
       {| nx.nodes := ["T"; "Y"; "X"];
          nx.edges := [("X", "T"); ("X", "Y"); ("T", "Y")] |} |}.

(** Stand-ins for numpy's other draws, the state counting on: a coin that
    always shows 1, a choice that always takes the first value, an
    exponential that is 1 everywhere, a seed between 0 and 2**32 - 1 that
    is the state (any other is refused, as numpy does), and sorts that know
    the one order of the graphs they are used on. *)
Definition always_one (p : num) (n : nat) (st : nat) : Series * nat :=
  (replicate n (of_Z 1), S st).
Definition always_one_each (p : Series) (n : nat) (st : nat) : py Series * nat :=
  (Return (replicate n (of_Z 1)), S st).
Definition first_choice (a : list num) (p : option (list num)) (n : nat) (st : nat)
  : Series * nat :=
  (replicate n (default (of_Z 0) (head a)), S st).
Definition exp_one (x : num) : num := of_Z 1.
Definition seed_state (seed : Z) : py nat :=
  if bool_decide (0 ≤ seed < 2 ^ 32)%Z then Return (Z.to_nat seed)
  else Raise (ValueError "Seed must be between 0 and 2**32 - 1").
Definition sort_XTY (g : nx.DiGraph) : py (list string) := Return ["X"; "T"; "Y"].
Definition sort_XTMY (g : nx.DiGraph) : py (list string) :=
  Return ["X"; "T"; "M"; "Y"].

(** The generator of [create_simple_treatment_outcome_dag()] *)
Definition default_generator (seed : Z) : SyntheticDataGenerator.t :=
  {| SyntheticDataGenerator.seed := Some seed;
     SyntheticDataGenerator.dag_config :=
       utils.create_simple_treatment_outcome_dag "T" "Y" ["X"];
     SyntheticDataGenerator.variables :=
       [("T", utils.binary); ("Y", utils.continuous); ("X", utils.continuous)];
     SyntheticDataGenerator.edges :=
       [ {| edge_from := "X"; edge_to := "T" |};
         {| edge_from := "X"; edge_to := "Y" |};
         {| edge_from := "T"; edge_to := "Y" |} ];
     SyntheticDataGenerator.graph :=
       {| nx.nodes := ["T"; "Y"; "X"];
          nx.edges := [("X", "T"); ("X", "Y"); ("T", "Y")] |} |}.

(** The doubles 8.954178849140114, 7.199159794708652, 7.199159794708651 and
    10.709197903571576 *)
Module doubles.
Import PrimFloat.
Local Open Scope float_scope.
Definition estimate_8_95 : float := 0x1.1e88a214f2ef4p+3.
Definition lower_reported : float := 0x1.ccbf08b93ce93p+2.
Definition lower_claimed : float := 0x1.ccbf08b93ce92p+2.
Definition upper_reported : float := 0x1.56b1bfcd4769fp+3.
End doubles.

End Examples.

(** * Properties *)

(** ** Numbers and strings *)

Lemma starts_with_refl (t : string) : starts_with t t = true.
Proof.
  induction t as [|a t IH]; simpl; [done|].
  rewrite IH. by rewrite bool_decide_eq_true_2.
Qed.

Lemma contains_here (s t : string) : starts_with t s = true → contains s t = true.
Proof. intros H. destruct s; simpl in *; rewrite H; done. Qed.

Lemma contains_app_r (a s t : string) : contains s t = true → contains (a ++ s) t = true.
Proof.
  intros H. induction a as [|c a IH]; simpl; [done|].
  rewrite IH. apply orb_true_r.
Qed.

Lemma contains_suffix (a t : string) : contains (a ++ t) t = true.
Proof. apply contains_app_r, contains_here, starts_with_refl. Qed.

Lemma starts_with_app_l (t s b : string) :
  starts_with t s = true → starts_with t (s ++ b) = true.
Proof.
  revert s. induction t as [|a t IH]; intros s H; [done|].
  destruct s as [|c s]; [done|]. simpl in *.
  apply andb_true_iff in H as [-> H]. simpl. by apply IH.
Qed.

Lemma contains_app_l (s b t : string) : contains s t = true → contains (s ++ b) t = true.
Proof.
  induction s as [|c s IH].
  - simpl. rewrite orb_false_r. intros H. destruct t; [|done]. by destruct b.
  - change (String c s ++ b) with (String c (s ++ b)).
    cbn [contains]. intros [H|H]%orb_true_iff.
    + apply (starts_with_app_l _ _ b) in H.
      change (String c s ++ b) with (String c (s ++ b)) in H. by rewrite H.
    + rewrite IH by done. apply orb_true_r.
Qed.

Lemma escape_plain (c : ascii) :
  isprintable c = true → c ≠ backslash → c ≠ single_quote →
  escape single_quote c = String c "".
Proof.
  intros Hp Hb Hq. unfold escape.
  rewrite (bool_decide_eq_false_2 _ Hq), (bool_decide_eq_false_2 _ Hb), Hp.
  cbn [orb]. unfold isprintable in Hp. cbv zeta in Hp.
  destruct (nat_of_ascii c =? 9)%nat eqn:E9; [apply Nat.eqb_eq in E9; by rewrite E9 in Hp|].
  destruct (nat_of_ascii c =? 10)%nat eqn:E10;
    [apply Nat.eqb_eq in E10; by rewrite E10 in Hp|].
  destruct (nat_of_ascii c =? 13)%nat eqn:E13;
    [apply Nat.eqb_eq in E13; by rewrite E13 in Hp|].
  done.
Qed.

Lemma plain_cons (c : ascii) (s : string) :
  Spec.plain (String c s) = true ↔
  isprintable c = true ∧ c ≠ backslash ∧ c ≠ single_quote ∧ Spec.plain s = true.
Proof.
  cbn [Spec.plain]. rewrite !andb_true_iff, !negb_true_iff, !bool_decide_eq_false. tauto.
Qed.

Lemma escaped_plain (s : string) :
  Spec.plain s = true → escaped single_quote s = s ∧ occurs single_quote s = false.
Proof.
  induction s as [|c s IH]; [done|].
  intros (Hp & Hb & Hq & Hs)%plain_cons. destruct (IH Hs) as [IH1 IH2].
  cbn [escaped occurs]. rewrite escape_plain, IH1, IH2 by done.
  by rewrite (bool_decide_eq_false_2 _ Hq).
Qed.

Lemma repr_plain (s : string) :
  Spec.plain s = true → repr s = String single_quote (s ++ String single_quote "").
Proof.
  intros [He Ho]%escaped_plain. unfold repr. rewrite Ho. cbn [andb]. by rewrite He.
Qed.

Lemma contains_repr_plain (v : string) : Spec.plain v = true → contains (repr v) v = true.
Proof.
  intros Hv. rewrite repr_plain by done.
  apply (contains_app_r (String single_quote "")), contains_app_l.
  apply contains_here, starts_with_refl.
Qed.

Lemma contains_join (sep : string) (l : list string) (x t : string) :
  x ∈ l → contains x t = true → contains (join sep l) t = true.
Proof.
  intros Hx Ht. induction l as [|y l IH]; [by apply elem_of_nil in Hx|].
  apply elem_of_cons in Hx as [->|Hx].
  - destruct l; simpl; [done|]. by apply contains_app_l.
  - destruct l as [|z l]; [by apply elem_of_nil in Hx|].
    change (join sep (y :: z :: l)) with (y ++ sep ++ join sep (z :: l)).
    apply contains_app_r, contains_app_r. by apply IH.
Qed.

Lemma missing_variables_named (missing : gset string) (v t : string) :
  v ∈ missing → contains (repr v) t = true →
  contains (str (MissingVariables missing)) t = true.
Proof.
  intros Hv Ht. unfold str, set_repr.
  rewrite decide_False by (intros ->; by apply not_elem_of_empty in Hv).
  apply contains_app_r, (contains_app_r "{"), contains_app_l.
  apply contains_join with (repr v); [|done].
  apply list_elem_of_fmap. exists v. split; [done|]. by apply elem_of_elements.
Qed.

(** ** The dispatcher's fallback branch *)

Section UnknownQueryType.

Context {dowhy estimand : Type}.
Variable corr : Series → Series → num.
Variable read_csv : string → py DataFrame.
Variable json_load : string → py Config.DagConfig.
Variable DoWhyCausalModel :
  DataFrame → string → string → option nx.DiGraph →
  option (list string) → option (list string) → py dowhy.
Variable dowhy_identify_effect : dowhy → py estimand.
Variable dowhy_estimate_effect : dowhy → estimand → string → py dispatch.estimate.

Local Abbreviation dispatch_query :=
  (dispatch.dispatch_query corr read_csv json_load DoWhyCausalModel
     dowhy_identify_effect dowhy_estimate_effect).
Local Abbreviation load_model :=
  (CausalModel.init json_load DoWhyCausalModel).

Lemma unknown_tag_branch (query_json : dispatch.Query) (dag_path data_path : string) :
  (∀ tag, dispatch.query_type query_json = Some tag → tag ∉ dispatch.recognized) →
  dispatch_query query_json dag_path data_path =
    dispatch.fail_soft (Some (default "unknown" (dispatch.query_type query_json)))
      (data ← read_csv data_path;
       _ ← load_model (CausalModel.FromPath dag_path) (Some data);
       mret (dispatch.Failure (dispatch.query_type query_json)
               ("Unknown query type: " ++ fmt (dispatch.query_type query_json)))).
Proof.
  intros Hun. unfold dispatch.dispatch_query.
  repeat case_decide;
    try (match goal with
         | H : dispatch.query_type _ = Some _ |- _ =>
             exfalso; apply (Hun _ H); unfold dispatch.recognized; set_solver
         end).
  done.
Qed.

(** C9, as amended.  A query whose tag is none of the five recognized
    kinds always gets [success = false] and nothing is raised (the
    dispatcher returns a result).  When the table and the model load, the
    error is ["Unknown query type: <tag>"], which contains the tag; when
    reading the table or building the model raises, the error is that
    exception's message instead. *)
Theorem unknown_query_type (query_json : dispatch.Query) (dag_path data_path : string)
    (tag : string) :
  dispatch.query_type query_json = Some tag →
  tag ∉ dispatch.recognized →
  let r := dispatch_query query_json dag_path data_path in
  dispatch.success r = false ∧
  (∀ data causal_model,
     read_csv data_path = Return data →
     load_model (CausalModel.FromPath dag_path) (Some data) = Return causal_model →
     r = dispatch.Failure (Some tag) ("Unknown query type: " ++ tag) ∧
     contains ("Unknown query type: " ++ tag) tag = true) ∧
  (∀ e, read_csv data_path = Raise e → r = dispatch.Failure (Some tag) (str e)) ∧
  (∀ data e,
     read_csv data_path = Return data →
     load_model (CausalModel.FromPath dag_path) (Some data) = Raise e →
     r = dispatch.Failure (Some tag) (str e)).
Proof.
  intros Htag Hun r. subst r. rewrite unknown_tag_branch.
  2:{ intros t Ht. congruence. }
  rewrite Htag. unfold fmt. cbn [default from_option].
  split; [|split; [|split]].
  - destruct (read_csv data_path) as [data|e]; [|done].
    cbn [mbind py_bind].
    by destruct (CausalModel.init _ _ _ _).
  - intros data cm -> Hinit. cbn [mbind py_bind]. rewrite Hinit.
    split; [done|]. apply contains_suffix.
  - by intros e ->.
  - intros data e -> Hinit. cbn [mbind py_bind]. by rewrite Hinit.
Qed.

End UnknownQueryType.

Lemma unknown_query_type_witness :
  dispatch.dispatch_query Examples.corr_undefined Examples.read_table_TY
    Examples.load_triangle Examples.dowhy_accept Examples.identify_ok
    Examples.estimate_never (dispatch.bare_query (Some "not_a_real_type"))
    "dag.json" "data.csv"
  = dispatch.Failure (Some "not_a_real_type") "Unknown query type: not_a_real_type".
Proof.
  refine (proj1 (proj1 (proj2
    (unknown_query_type Examples.corr_undefined Examples.read_table_TY
       Examples.load_triangle Examples.dowhy_accept Examples.identify_ok
       Examples.estimate_never (dispatch.bare_query (Some "not_a_real_type"))
       "dag.json" "data.csv" "not_a_real_type" eq_refl _))
    Examples.table_TY Examples.model_TY eq_refl _)).
  - apply (bool_decide_unpack _). vm_compute. exact I.
  - vm_compute. reflexivity.
Defined.

(** The claim of C9 fails when loading fails: with the data file missing
    and the tag ["not_a_real_type"], the error is the file system's message,
    which does not contain the tag. *)
Lemma unknown_query_type_counterexample :
  let r := dispatch.dispatch_query Examples.corr_undefined Examples.no_such_file
             Examples.no_such_file Examples.dowhy_accept Examples.identify_ok
             Examples.estimate_never (dispatch.bare_query (Some "not_a_real_type"))
             "dag.json" "data.csv" in
  ("not_a_real_type" ∉ dispatch.recognized) ∧
  dispatch.error r = Some "[Errno 2] No such file or directory: 'data.csv'" ∧
  contains "[Errno 2] No such file or directory: 'data.csv'" "not_a_real_type" = false.
Proof.
  split; [|split].
  - apply (bool_decide_unpack _). vm_compute. exact I.
  - vm_compute. reflexivity.
  - vm_compute. reflexivity.
Qed.


(** ** Anomaly attribution above the maximum *)

Lemma Qc_max_ge_l (a b : Qc) : (a ≤ Spec.Qc_max a b)%Qc.
Proof. unfold Spec.Qc_max. case_bool_decide; [done|]. apply Qcle_refl. Qed.

Lemma Qc_max_ge_r (a b : Qc) : (b ≤ Spec.Qc_max a b)%Qc.
Proof.
  unfold Spec.Qc_max. case_bool_decide as H; [apply Qcle_refl|].
  apply Qclt_le_weak. by apply Qclt_nge.
Qed.

Lemma foldl_max_ge (xs : list Qc) (x : Qc) :
  (x ≤ foldl Spec.Qc_max x xs)%Qc ∧ ∀ y, y ∈ xs → (y ≤ foldl Spec.Qc_max x xs)%Qc.
Proof.
  revert x. induction xs as [|a xs IH]; intros x; simpl.
  - split; [apply Qcle_refl|]. intros y Hy. by apply elem_of_nil in Hy.
  - destruct (IH (Spec.Qc_max x a)) as [H1 H2]. split.
    + eapply Qcle_trans; [apply Qc_max_ge_l|exact H1].
    + intros y [->|Hy]%elem_of_cons; [|by apply H2].
      eapply Qcle_trans; [apply Qc_max_ge_r|exact H1].
Qed.

Lemma elem_of_valid (s : Series) (y : Qc) : Some y ∈ s → y ∈ valid s.
Proof. intros H. unfold valid. apply list_elem_of_omap. by exists (Some y). Qed.

Lemma below_threshold (s : Series) (threshold : num) :
  Num.gt threshold (Spec.series_max s) = true →
  ∀ y, y ∈ s → Num.gt y threshold = false.
Proof.
  unfold Spec.series_max. intros H y Hy.
  destruct threshold as [t|]; [|by destruct y].
  destruct y as [y|]; [|done]. simpl.
  apply elem_of_valid in Hy.
  destruct (valid s) as [|x xs]; [by apply elem_of_nil in Hy|].
  simpl in H. apply bool_decide_eq_true_1 in H.
  apply bool_decide_eq_false_2. apply Qcle_not_lt.
  apply Qclt_le_weak. eapply Qcle_lt_trans; [|exact H].
  destruct (foldl_max_ge xs x) as [H1 H2].
  apply elem_of_cons in Hy as [->|Hy]; [done|by apply H2].
Qed.

Lemma any_false (mask : list bool) : (∀ b, b ∈ mask → b = false) → any mask = false.
Proof.
  induction mask as [|b mask IH]; intros H; [done|]. unfold any in *. simpl.
  rewrite (H b) by left. simpl. apply IH. intros ??. apply H. by right.
Qed.

Section NoAnomalies.

Context {dowhy : Type}.
Variable corr : Series → Series → num.

(** C10.  An anomaly_attribution query (its three required fields present)
    on a table that has the outcome column, with a threshold strictly
    greater than that column's maximum, is answered with [success = true],
    [anomalies_found = 0] and an empty [attribution_scores]. *)
Theorem no_anomalies_above_maximum (query_json : dispatch.Query)
    (causal_model : @CausalModel.t dowhy) (data : DataFrame)
    (outcome_var : string) (anomaly_threshold : num) (potential_causes : list string)
    (outcome_values : Series) :
  dispatch.outcome_variable query_json = Some outcome_var →
  dispatch.anomaly_threshold query_json = Some anomaly_threshold →
  dispatch.potential_causes query_json = Some potential_causes →
  CausalModel.data causal_model = Some data →
  getitem data outcome_var = Return outcome_values →
  Num.gt anomaly_threshold (Spec.series_max outcome_values) = true →
  let r := dispatch._handle_anomaly_attribution corr query_json causal_model in
  dispatch.success r = true ∧
  dispatch.get_anomalies_found r = Some 0%nat ∧
  dispatch.get_attribution_scores r = Some [].
Proof.
  intros Ho Ht Hc Hd Hcol Hmax r. subst r.
  unfold dispatch._handle_anomaly_attribution, dispatch.model_data.
  rewrite Ho, Ht, Hc, Hd. cbn [getkey mbind py_bind]. rewrite Hcol.
  cbn [mbind py_bind].
  rewrite any_false; [done|].
  intros b (y & -> & Hy)%list_elem_of_fmap.
  by eapply below_threshold.
Qed.

End NoAnomalies.

Lemma no_anomalies_above_maximum_witness :
  let r := dispatch._handle_anomaly_attribution Examples.corr_undefined
             (Examples.anomaly_query (of_Z 10) ["T"]) Examples.model_TY in
  dispatch.success r = true ∧
  dispatch.get_anomalies_found r = Some 0%nat ∧
  dispatch.get_attribution_scores r = Some [].
Proof.
  apply (no_anomalies_above_maximum Examples.corr_undefined
           (Examples.anomaly_query (of_Z 10) ["T"]) Examples.model_TY Examples.table_TY
           "Y" (of_Z 10) ["T"] (cell "Y" <$> rows Examples.table_TY));
    vm_compute; reflexivity.
Defined.

(** ** Attaching a table and constructing with one *)

Section Attach.

Context {dowhy : Type}.
Variable json_load : string → py Config.DagConfig.
Variable DoWhyCausalModel :
  DataFrame → string → string → option nx.DiGraph →
  option (list string) → option (list string) → py dowhy.

Local Abbreviation attach_data := (CausalModel.attach_data DoWhyCausalModel).
Local Abbreviation init := (CausalModel.init json_load DoWhyCausalModel).

Lemma create_dowhy_model_errors (self : CausalModel.t) (e : exn) :
  CausalModel._create_dowhy_model DoWhyCausalModel self = Raise e →
  ∃ msg, e = ValueError msg.
Proof.
  unfold CausalModel._create_dowhy_model. intros H.
  repeat (case_match; simplify_eq); eauto.
Qed.

Lemma missing_variables_spec (variables : list (string * Config.VarInfo))
    (data : DataFrame) (v : string) :
  v ∈ (list_to_set (keys variables) ∖ list_to_set (columns data) : gset string) ↔
  v ∈ keys variables ∧ v ∉ columns data.
Proof. by rewrite elem_of_difference, !elem_of_list_to_set. Qed.

Lemma attach_data_missing (self : CausalModel.t) (data : DataFrame)
    (variables : list (string * Config.VarInfo)) :
  Config.variables (CausalModel.dag_config self) = Some variables →
  (∃ v, v ∈ keys variables ∧ v ∉ columns data) →
  attach_data self data =
    Raise (MissingVariables (list_to_set (keys variables) ∖ list_to_set (columns data))).
Proof.
  intros Hvars (v & Hv).
  unfold CausalModel.attach_data, CausalModel._validate_data.
  cbn [CausalModel.data CausalModel.dag_config]. rewrite Hvars.
  cbn [getkey mbind py_bind].
  rewrite decide_False; [done|]. intros Hempty.
  apply (not_elem_of_empty (C := gset string) v). rewrite <- Hempty.
  by apply missing_variables_spec.
Qed.

(** C7.  Attaching a table to a model whose configuration declares
    [variables]: if some declared name has no column, [attach_data] raises
    the missing-variables error carrying exactly the declared names without
    a column; its message shows the [repr] of each of them, so a name of
    printable characters without backslash or single quote is read in it
    as it is; if every declared name has a column, it raises no such
    error. *)
Theorem attach_validates_columns (self : CausalModel.t) (data : DataFrame)
    (variables : list (string * Config.VarInfo)) :
  Config.variables (CausalModel.dag_config self) = Some variables →
  let missing : gset string :=
    list_to_set (keys variables) ∖ list_to_set (columns data) in
  ((∃ v, v ∈ keys variables ∧ v ∉ columns data) →
     attach_data self data = Raise (MissingVariables missing) ∧
     (∀ v, v ∈ missing ↔ v ∈ keys variables ∧ v ∉ columns data) ∧
     (∀ v, v ∈ missing →
        contains (str (MissingVariables missing)) (repr v) = true ∧
        (Spec.plain v = true → contains (str (MissingVariables missing)) v = true))) ∧
  ((∀ v, v ∈ keys variables → v ∈ columns data) →
     ∀ s, attach_data self data ≠ Raise (MissingVariables s)).
Proof.
  intros Hvars missing. split.
  - intros Hex. split; [by apply attach_data_missing|]. split.
    + intros v. apply missing_variables_spec.
    + intros v Hv. split.
      * apply (missing_variables_named _ v); [done|].
        apply contains_here, starts_with_refl.
      * intros Hplain. apply (missing_variables_named _ v); [done|].
        by apply contains_repr_plain.
  - intros Hall s.
    unfold CausalModel.attach_data, CausalModel._validate_data.
    cbn [CausalModel.data CausalModel.dag_config]. rewrite Hvars.
    cbn [getkey mbind py_bind]. rewrite decide_True.
    + cbn [mbind py_bind]. intros [msg [=]]%create_dowhy_model_errors.
    + apply set_eq. intros v. split; [|by intros ?%not_elem_of_empty].
      intros [H1 H2]%missing_variables_spec. destruct H2. auto.
Qed.

(** C8.  Constructing the model with a table runs no column check: once
    the configuration is loaded and its graph built, construction never
    raises the missing-variables error, and it succeeds whenever DoWhy
    accepts the table (treatment and outcome declared), whichever declared
    variables the table lacks; attaching that same table to the constructed
    model raises the missing-variables error. *)
Theorem init_skips_validation (source : CausalModel.dag_source)
    (config : Config.DagConfig) (graph : nx.DiGraph) (data : DataFrame) :
  CausalModel._load_dag_config json_load source = Return config →
  CausalModel._build_networkx_graph config = Return graph →
  (∀ s, init source (Some data) ≠ Raise (MissingVariables s)) ∧
  (∀ treatment outcome m,
     Config.treatment_variable config = Some treatment → treatment ≠ "" →
     Config.outcome_variable config = Some outcome → outcome ≠ "" →
     Spec.dowhy_accepts DoWhyCausalModel config graph data treatment outcome m →
     let self := {| CausalModel.dag_config := config; CausalModel.data := Some data;
                    CausalModel.dowhy_model := Some m; CausalModel.graph := graph |} in
     init source (Some data) = Return self ∧
     ∀ variables,
       Config.variables config = Some variables →
       (∃ v, v ∈ keys variables ∧ v ∉ columns data) →
       attach_data self data =
         Raise (MissingVariables
                  (list_to_set (keys variables) ∖ list_to_set (columns data)))).
Proof.
  intros Hload Hgraph. unfold CausalModel.init. rewrite Hload. cbn [mbind py_bind].
  rewrite Hgraph. cbn [mbind py_bind]. split.
  - intros s [msg [=]]%create_dowhy_model_errors.
  - intros t o m Ht Ht' Ho Ho' Hacc. split.
    + unfold CausalModel._create_dowhy_model.
      cbn [CausalModel.data CausalModel.dag_config CausalModel.graph].
      rewrite Ht, Ho. unfold CausalModel.falsy.
      rewrite !bool_decide_eq_false_2 by done. cbn [orb default from_option]. unfold id.
      destruct Hacc as [->|[[e ->] ->]]; done.
    + intros variables Hvars Hmiss. by apply attach_data_missing.
Qed.

End Attach.

Lemma attach_validates_columns_witness :
  CausalModel.attach_data Examples.dowhy_accept Examples.model_TY Examples.table_TY
  = Raise (MissingVariables (list_to_set ["X"; "T"; "Y"] ∖ list_to_set ["T"; "Y"])).
Proof.
  refine (proj1 (proj1
    (attach_validates_columns Examples.dowhy_accept Examples.model_TY Examples.table_TY
       [("X", Examples.continuous); ("T", Examples.continuous); ("Y", Examples.continuous)]
       eq_refl) _)).
  exists "X". split; apply (bool_decide_unpack _); vm_compute; exact I.
Defined.

Lemma init_skips_validation_witness :
  CausalModel.init Examples.load_triangle Examples.dowhy_accept
    (CausalModel.FromPath "dag.json") (Some Examples.table_TY)
  = Return Examples.model_TY.
Proof.
  refine (proj1 (proj2
    (init_skips_validation Examples.load_triangle Examples.dowhy_accept
       (CausalModel.FromPath "dag.json") Examples.triangle Examples.triangle_graph
       Examples.table_TY eq_refl _)
    "T" "Y" () eq_refl _ eq_refl _ (or_introl eq_refl))).
  - vm_compute. reflexivity.
  - discriminate.
  - discriminate.
Defined.


(** ** Effect estimation *)

Lemma find_first {A B} (p : B → bool) (f : A → B) (pre post : list A) (x : A) :
  (∀ y, y ∈ pre → p (f y) = false) → p (f x) = true →
  List.find p (f <$> (pre ++ x :: post)%list) = Some (f x).
Proof.
  intros Hpre Hx. induction pre as [|y pre IH]; simpl.
  - by rewrite Hx.
  - rewrite (Hpre y) by left. apply IH. intros ??. apply Hpre. by right.
Qed.

Lemma find_none {A B} (p : B → bool) (f : A → B) (l : list A) :
  (∀ y, y ∈ l → p (f y) = false) → List.find p (f <$> l) = None.
Proof.
  intros H. induction l as [|y l IH]; simpl; [done|].
  rewrite (H y) by left. apply IH. intros ??. apply H. by right.
Qed.

Section EffectEstimation.

Context {dowhy estimand : Type}.
Variable dowhy_identify_effect : dowhy → py estimand.
Variable dowhy_estimate_effect : dowhy → estimand → string → py dispatch.estimate.

Local Abbreviation handle :=
  (dispatch._handle_effect_estimation dowhy_identify_effect dowhy_estimate_effect).
Local Abbreviation try_method := (dispatch.try_method dowhy_estimate_effect).
Local Abbreviation succeeds_with := (Spec.succeeds_with dowhy_estimate_effect).
Local Abbreviation fails_with := (Spec.fails_with dowhy_estimate_effect).

Lemma try_method_estimated (cm : CausalModel.t) (m : dowhy) (est : estimand)
    (method : string) (v : num) :
  CausalModel.dowhy_model cm = Some m →
  succeeds_with m est method v →
  try_method cm est method = dispatch.Estimated method v (Spec.confidence_interval v).
Proof.
  unfold Spec.succeeds_with, dispatch.try_method, dispatch.estimate_effect.
  intros -> [-> | ->]; reflexivity.
Qed.

Lemma try_method_failed (cm : CausalModel.t) (m : dowhy) (est : estimand)
    (method error : string) :
  CausalModel.dowhy_model cm = Some m →
  fails_with m est method error →
  try_method cm est method = dispatch.MethodFailed method error.
Proof.
  unfold Spec.fails_with, dispatch.try_method, dispatch.estimate_effect.
  intros -> [(e & -> & ->) | [-> ->]]; reflexivity.
Qed.


End EffectEstimation.




(** ** Values that are not numbers *)

Section NaNRecovery.

Context {dowhy : Type}.
Variable corr : Series → Series → num.

(** C4 fails on the code.  (1) With one anomalous row and a potential cause
    that is not a column, the attribution map stays empty and the summary's
    [max] over its keys raises: the handler answers [success = false].
    (2) On a one-row table the baseline half is empty, its means are NaN,
    and the distribution-shift handler returns them unguarded. *)
Theorem nan_and_absent_not_recovered :
  dispatch._handle_anomaly_attribution corr
    (Examples.anomaly_query (of_Z 3) ["Z"]) Examples.model_TY
  = dispatch.Failure (Some "anomaly_attribution") "max() arg is an empty sequence" ∧
  ∃ comparison_mean contribution,
    dispatch._handle_distribution_shift_attribution corr
      (Examples.shift_query "Y" ["X"]) (Examples.model_of Examples.table_one_row)
    = dispatch.ShiftAttribution "Y" NaN comparison_mean NaN [("X", contribution)] "X" ∧
    dispatch.baseline_mean contribution = NaN ∧
    dispatch.shift contribution = NaN.
Proof.
  split; [vm_compute; reflexivity|].
  eexists _, _. split; [|split]; vm_compute; reflexivity.
Qed.

(** C6 fails on the code.  The outcome column [Y] holds no value, so its
    mean is NaN; the intervention variable [Z] is not a column, the
    intervened value is set to the original one, and the reported effect,
    their difference, is NaN rather than zero. *)
Theorem intervention_effect_nan :
  dispatch._handle_intervention corr
    (Examples.intervention_query "Z" (of_Z 5) ["Y"])
    (Examples.model_of Examples.table_XY_missing)
  = dispatch.Intervention "Z" (of_Z 5)
      [("Y", {| dispatch.original_value := NaN; dispatch.intervened_value := NaN;
                dispatch.effect := NaN |})].
Proof. vm_compute. reflexivity. Qed.

End NaNRecovery.


(** ** The factual filter of a counterfactual query *)

Lemma filter_factual_snoc data l item :
  dispatch.filter_factual data (l ++ [item])%list =
  if decide (item.1 ∈ columns data)
  then select (λ r, Spec.within_one_std (cell item.1 <$> rows (dispatch.filter_factual data l))
                      item.2 (cell item.1 r))
              (dispatch.filter_factual data l)
  else dispatch.filter_factual data l.
Proof.
  unfold dispatch.filter_factual. rewrite foldl_app. simpl. by destruct item.
Qed.

Lemma filter_filter_andb {A} (p q : A → bool) (l : list A) :
  List.filter q (List.filter p l) = List.filter (λ x, p x && q x) l.
Proof.
  induction l as [|x l IH]; simpl; [done|].
  destruct (p x); simpl; [|done]. destruct (q x); by rewrite IH.
Qed.

Lemma filter_ext_in {A} (p q : A → bool) (l : list A) :
  (∀ x, p x = q x) → List.filter p l = List.filter q l.
Proof. intros H. induction l as [|x l IH]; simpl; [done|]. by rewrite H, IH. Qed.

Lemma filter_true {A} (l : list A) : List.filter (λ _, true) l = l.
Proof. induction l as [|x l IH]; simpl; [done|]. by rewrite IH. Qed.

Lemma forallb_ext_elem {A} (p q : A → bool) (l : list A) :
  (∀ x, x ∈ l → p x = q x) → forallb p l = forallb q l.
Proof.
  induction l as [|x l IH]; intros H; simpl; [done|].
  rewrite (H x) by left. f_equal. apply IH. intros ??. apply H. by right.
Qed.

Lemma survives_snoc data l item r :
  Spec.survives data (l ++ [item])%list r = Spec.survives data l r && Spec.passes data l item r.
Proof.
  unfold Spec.survives. rewrite length_app. simpl.
  rewrite Nat.add_1_r, seq_S, forallb_app. simpl.
  rewrite lookup_app_r by lia. rewrite Nat.sub_diag. simpl.
  rewrite take_app_length. rewrite andb_true_r. f_equal.
  apply forallb_ext_elem. intros k Hk%list_elem_of_In%in_seq.
  rewrite lookup_app_l by lia. rewrite take_app_le by lia. done.
Qed.

Lemma filter_factual_survives data factual :
  rows (dispatch.filter_factual data factual) = List.filter (Spec.survives data factual) (rows data).
Proof.
  induction factual as [|item l IH] using rev_ind.
  - simpl. unfold Spec.survives. simpl. by rewrite filter_true.
  - rewrite filter_factual_snoc.
    rewrite (filter_ext_in _ _ _ (survives_snoc data l item)).
    rewrite <- filter_filter_andb, <- IH. unfold Spec.passes.
    case_decide; simpl; [done|]. by rewrite filter_true.
Qed.

Lemma filter_factual_columns data factual :
  columns (dispatch.filter_factual data factual) = columns data.
Proof.
  induction factual as [|item l IH] using rev_ind; [done|].
  rewrite filter_factual_snoc. by case_decide.
Qed.

Section Counterfactual.

Context {dowhy : Type}.
Variable corr : Series → Series → num.

(** C3, as amended.  For a counterfactual query (its three required fields
    present) on a table holding the outcome column, the handler keeps the
    rows that pass the factual variables one after the other, in the
    scenario's order: a variable that is a column keeps the rows within one
    standard deviation of its declared value, the deviation being that of
    its column over the rows kept so far; a variable that is no column is
    skipped.  When no row is kept it falls back to the whole table, and the
    factual outcome is the mean of the outcome column over the resulting
    rows. *)
Theorem counterfactual_factual_outcome (query_json : dispatch.Query)
    (causal_model : @CausalModel.t dowhy) (data : DataFrame)
    (factual_scenario counterfactual_scenario : list (string * num))
    (outcome_var : string) :
  dispatch.factual_scenario query_json = Some factual_scenario →
  dispatch.counterfactual_scenario query_json = Some counterfactual_scenario →
  dispatch.outcome_variable query_json = Some outcome_var →
  CausalModel.data causal_model = Some data →
  outcome_var ∈ columns data →
  let kept := List.filter (Spec.survives data factual_scenario) (rows data) in
  let r := dispatch._handle_counterfactual corr query_json causal_model in
  rows (dispatch.filter_factual data factual_scenario) = kept ∧
  dispatch.success r = true ∧
  dispatch.get_factual_outcome r =
    Some (mean (cell outcome_var <$> (if decide (kept = []) then rows data else kept))).
Proof.
  intros Hf Hc Ho Hd Hcol kept r. split; [apply filter_factual_survives|].
  subst r. unfold dispatch._handle_counterfactual.
  rewrite Hf, Hc, Ho, Hd. cbn [getkey mbind py_bind].
  unfold getitem, len.
  rewrite filter_factual_survives. fold kept.
  destruct (decide (length kept = 0%nat)) as [Hlen|Hlen].
  - rewrite decide_True by done. cbn [mbind py_bind]. split; [done|].
    simpl. rewrite decide_True; [done|]. by apply length_zero_iff_nil.
  - rewrite filter_factual_columns. rewrite decide_True by done.
    cbn [mbind py_bind]. split; [done|]. simpl.
    rewrite filter_factual_survives. fold kept.
    rewrite decide_False; [done|]. intros ->. done.
Qed.
End Counterfactual.

Lemma counterfactual_factual_outcome_witness :
  let kept := List.filter (Spec.survives Examples.table_ABY Examples.factual_AB)
                (rows Examples.table_ABY) in
  let r := dispatch._handle_counterfactual Examples.corr_undefined
             (Examples.counterfactual_query Examples.factual_AB [] "Y")
             (Examples.model_of Examples.table_ABY) in
  rows (dispatch.filter_factual Examples.table_ABY Examples.factual_AB) = kept ∧
  dispatch.success r = true ∧
  dispatch.get_factual_outcome r =
    Some (mean (cell "Y" <$> (if decide (kept = []) then rows Examples.table_ABY else kept))).
Proof.
  apply (counterfactual_factual_outcome Examples.corr_undefined
           (Examples.counterfactual_query Examples.factual_AB [] "Y")
           (Examples.model_of Examples.table_ABY) Examples.table_ABY
           Examples.factual_AB [] "Y" eq_refl eq_refl eq_refl eq_refl).
  apply (bool_decide_unpack _). vm_compute. exact I.
Defined.

(** The claim of C3 fails on [table_ABY] with the factual scenario
    [A = 0, B = 0].  Within one deviation of both values, deviations taken
    over the table, lie the first three rows, whose outcome has mean 1.  The
    code filters on [A] first, and the deviation of [B] over the three rows
    left is 1, not about 49.5: the third row goes too, and the factual
    outcome reported is 0.  Nor is the result an intersection of filters of
    any kind: with the same two variables listed in the other order the code
    keeps other rows. *)
Lemma counterfactual_filter_counterexample :
  rows (dispatch.filter_factual Examples.table_ABY Examples.factual_AB)
    ≠ rows (Spec.intersection_filter Examples.table_ABY Examples.factual_AB) ∧
  dispatch.get_factual_outcome
    (dispatch._handle_counterfactual Examples.corr_undefined
       (Examples.counterfactual_query Examples.factual_AB [] "Y")
       (Examples.model_of Examples.table_ABY)) = Some (of_Z 0) ∧
  mean (cell "Y" <$> rows (Spec.intersection_filter Examples.table_ABY Examples.factual_AB))
    = of_Z 1 ∧
  rows (dispatch.filter_factual Examples.table_ABY Examples.factual_AB)
    ≠ rows (dispatch.filter_factual Examples.table_ABY Examples.factual_BA).
Proof.
  split; [|split; [|split]]; apply (bool_decide_unpack _); vm_compute; exact I.
Qed.


(** ** Generation of a continuous variable *)

Lemma at_row_lookup (data : gmap string Series) (i : nat) (p : string)
    (column : Series) (x : num) :
  data !! p = Some column → column !! i = Some x → Spec.at_row data i p = x.
Proof. unfold Spec.at_row. intros -> H. simpl. by rewrite H. Qed.

Section Generation.

Context {rng : Type}.
Variable random_normal : num → num → nat → rng → Series * rng.

Import SyntheticDataGenerator.

Lemma code_coefficient (self : SyntheticDataGenerator.t) te cs parent child :
  (if _is_treatment_outcome_relationship self parent child then te
   else if _is_confounder_relationship self parent child then cs
   else of_Q (1 # 2))
  = Spec.coefficient (dag_config self) te cs parent child.
Proof.
  unfold _is_treatment_outcome_relationship, _is_confounder_relationship, Spec.coefficient.
  cbn zeta.
  repeat case_bool_decide; repeat case_decide; simpl; try done; tauto.
Qed.

Lemma accumulate_parents (self : SyntheticDataGenerator.t) (n : nat) (var_name : string)
    (data : gmap string Series) (te cs : num) (parents : list string) (values0 : Series) :
  length values0 = n →
  (∀ p, p ∈ parents → ∃ column : Series, data !! p = Some column ∧ length column = n) →
  ∃ values,
    foldl (λ acc parent,
             values ← acc;
             parent_values ← getkey parent (data !! parent);
             let coeff :=
               if _is_treatment_outcome_relationship self parent var_name then te
               else if _is_confounder_relationship self parent var_name then cs
               else of_Q (1 # 2) in
             iadd_scaled values coeff parent_values)
          (Return values0) parents = Return values ∧
    length values = n ∧
    ∀ i noise, values0 !! i = Some noise →
      values !! i = Some (Spec.linear_row (λ p, Spec.coefficient (dag_config self) te cs p var_name)
                            parents noise (Spec.at_row data i)).
Proof.
  revert values0. induction parents as [|p parents IH]; intros values0 Hlen Hcols.
  - exists values0. by repeat split.
  - destruct (Hcols p) as (column & Hp & Hcol); [left|].
    cbn [foldl mbind py_bind]. rewrite Hp. cbn [getkey mbind py_bind].
    unfold iadd_scaled at 2. rewrite decide_True by congruence.
    rewrite code_coefficient.
    set (c := Spec.coefficient (dag_config self) te cs p var_name).
    destruct (IH (zip_with (λ v x, Num.add v (Num.mul c x)) values0 column))
      as (values & Hfold & Hlen' & Hrow).
    { rewrite length_zip_with. lia. }
    { intros q Hq. apply Hcols. by right. }
    exists values. split; [exact Hfold|]. split; [done|].
    intros i noise Hi.
    assert (is_Some (column !! i)) as [x Hx].
    { apply lookup_lt_is_Some. apply lookup_lt_Some in Hi. lia. }
    rewrite (Hrow i (Num.add noise (Num.mul c x))).
    + unfold Spec.linear_row. cbn [foldl]. by rewrite (at_row_lookup _ _ _ _ _ Hp Hx).
    + rewrite lookup_zip_with, Hi. cbn [mbind option_bind]. by rewrite Hx.
Qed.

(** C2.  For a continuous variable with at least one parent, every parent
    holding a generated column of [n_samples] rows: the column returned is,
    row by row, the normal draw of deviation [noise_std] plus, parent after
    parent, [coeff * parent value], where [coeff] is [treatment_effect] on
    the declared treatment -> outcome edge, else [confounder_strength] when
    the parent is a declared confounder and the child is the treatment or
    the outcome, else 0.5. *)
Theorem generated_continuous_column (self : SyntheticDataGenerator.t) (n_samples : nat)
    (var_name : string) (parents : list string) (data : gmap string Series)
    (treatment_effect noise_std confounder_strength : num) (st : rng) :
  parents ≠ [] →
  (∀ p, p ∈ parents → ∃ column : Series, data !! p = Some column ∧ length column = n_samples) →
  length (random_normal (of_Z 0) noise_std n_samples st).1 = n_samples →
  let draw := random_normal (of_Z 0) noise_std n_samples st in
  ∃ values,
    _generate_continuous_variable random_normal self n_samples var_name parents data
      treatment_effect noise_std confounder_strength st = (Return values, draw.2) ∧
    length values = n_samples ∧
    ∀ i noise, draw.1 !! i = Some noise →
      values !! i =
        Some (Spec.linear_row
                (λ parent, Spec.coefficient (dag_config self) treatment_effect
                             confounder_strength parent var_name)
                parents noise (Spec.at_row data i)).
Proof.
  intros Hne Hcols Hlen draw. subst draw.
  unfold _generate_continuous_variable.
  destruct parents as [|p parents]; [done|].
  destruct (random_normal (of_Z 0) noise_std n_samples st) as [noise st'].
  cbn [fst snd] in *.
  destruct (accumulate_parents self n_samples var_name data treatment_effect
              confounder_strength (p :: parents) noise Hlen Hcols)
    as (values & Hfold & Hl & Hrow).
  exists values. split; [|done]. cbv zeta in Hfold. by rewrite Hfold.
Qed.
End Generation.

Lemma generated_continuous_column_witness :
  ∃ values,
    SyntheticDataGenerator._generate_continuous_variable Examples.counting_normal
      Examples.generator_triangle 2 "Y" ["X"; "T"] Examples.parents_of_Y
      (of_Q (3 # 2)) (of_Q (1 # 2)) (of_Z 1) 7%nat = (Return values, 9%nat) ∧
    length values = 2%nat ∧
    ∀ i noise, [of_Z 7; of_Z 8] !! i = Some noise →
      values !! i =
        Some (Spec.linear_row
                (λ parent, Spec.coefficient Examples.triangle (of_Q (3 # 2)) (of_Z 1)
                             parent "Y")
                ["X"; "T"] noise (Spec.at_row Examples.parents_of_Y i)).
Proof.
  apply (generated_continuous_column Examples.counting_normal
           Examples.generator_triangle 2 "Y" ["X"; "T"] Examples.parents_of_Y
           (of_Q (3 # 2)) (of_Q (1 # 2)) (of_Z 1) 7%nat).
  - discriminate.
  - intros p Hp. apply elem_of_cons in Hp as [->|Hp].
    + exists [of_Z 1; of_Z 2]. split; reflexivity.
    + apply list_elem_of_singleton in Hp as ->.
      exists [of_Z 0; of_Z 1]. split; reflexivity.
  - reflexivity.
Defined.


(** ** Graph construction and cycles *)

Lemma add_node_nodes v g x : x ∈ nx.nodes (nx.add_node v g) ↔ x = v ∨ x ∈ nx.nodes g.
Proof.
  unfold nx.add_node. case_decide; simpl.
  - split; [auto|]. intros [->|?]; done.
  - rewrite elem_of_app, list_elem_of_singleton. tauto.
Qed.

Lemma add_node_edges v g : nx.edges (nx.add_node v g) = nx.edges g.
Proof. unfold nx.add_node. by case_decide. Qed.

Lemma add_edge_nodes u v g x :
  x ∈ nx.nodes (nx.add_edge u v g) ↔ x = u ∨ x = v ∨ x ∈ nx.nodes g.
Proof.
  unfold nx.add_edge. cbv zeta.
  case_decide; cbn [nx.nodes nx.edges];
    rewrite (add_node_nodes v (nx.add_node u g) x), (add_node_nodes u g x); tauto.
Qed.

Lemma add_edge_edges u v g x :
  x ∈ nx.edges (nx.add_edge u v g) ↔ x = (u, v) ∨ x ∈ nx.edges g.
Proof.
  unfold nx.add_edge. cbv zeta.
  pose proof (add_node_edges v (nx.add_node u g)) as E1.
  pose proof (add_node_edges u g) as E2.
  case_decide as H; cbn [nx.nodes nx.edges]; rewrite E1, E2 in *.
  - split; [auto|]. intros [->|?]; done.
  - rewrite elem_of_app, list_elem_of_singleton. tauto.
Qed.

Lemma add_edges_spec (es : list Config.Edge) (g : nx.DiGraph) :
  let g' := foldl (λ G edge, nx.add_edge (Config.edge_from edge) (Config.edge_to edge) G) g es in
  (∀ x, x ∈ nx.edges g' ↔
        x ∈ nx.edges g ∨ ∃ e, e ∈ es ∧ x = (Config.edge_from e, Config.edge_to e)) ∧
  (∀ x, x ∈ nx.nodes g' ↔
        x ∈ nx.nodes g ∨ ∃ e, e ∈ es ∧ (x = Config.edge_from e ∨ x = Config.edge_to e)).
Proof.
  revert g. induction es as [|e es IH]; intros g; simpl.
  - split; intros x; split; [auto| |auto|]; intros [?|(e & []%elem_of_nil & _)]; done.
  - destruct (IH (nx.add_edge (Config.edge_from e) (Config.edge_to e) g)) as [IH1 IH2].
    split; intros x.
    + rewrite IH1, add_edge_edges. split.
      * intros [[->|?]|(e' & He' & ->)]; [right; exists e; split; [left|done]|by left|].
        right. exists e'. split; [by right|done].
      * intros [?|(e' & [->|He']%elem_of_cons & ->)]; [left; by right|left; by left|].
        right. by exists e'.
    + rewrite IH2, add_edge_nodes. split.
      * intros [[->|[->|?]]|(e' & He' & Hx)].
        -- right. exists e. split; [left|by left].
        -- right. exists e. split; [left|by right].
        -- by left.
        -- right. exists e'. split; [by right|done].
      * intros [?|(e' & [->|He']%elem_of_cons & Hx)].
        -- left. by right; right.
        -- left. destruct Hx as [->| ->]; [by left|by right; left].
        -- right. by exists e'.
Qed.

(** Kahn's rounds never remove a node that has a predecessor among the
    nodes that stay. *)
Lemma in_degree_within_pos g remaining u v :
  (u, v) ∈ nx.edges g → u ∈ remaining → nx.in_degree_within g remaining v ≠ 0%nat.
Proof.
  intros He Hu. unfold nx.in_degree_within.
  assert ((u, v) ∈ List.filter
            (λ e : string * string, bool_decide (e.2 = v) && bool_decide (e.1 ∈ remaining))
            (nx.edges g)) as Hin.
  { apply list_elem_of_In, filter_In. split; [by apply list_elem_of_In|].
    simpl. by rewrite !bool_decide_eq_true_2. }
  destruct (List.filter _ _); [by apply elem_of_nil in Hin|done].
Qed.

Lemma peel_keeps (closed : string → Prop) g :
  (∀ v, closed v → ∃ u, closed u ∧ (u, v) ∈ nx.edges g) →
  ∀ fuel remaining,
    (∀ v, closed v → v ∈ remaining) →
    ∀ v, closed v → v ∈ nx.peel fuel g remaining.
Proof.
  intros Hpred fuel. induction fuel as [|fuel IH]; intros remaining Hrem v Hv; simpl.
  - by apply Hrem.
  - destruct (List.filter _ remaining) as [|z zero] eqn:Hzero; [by apply Hrem|].
    apply IH; [|done]. intros w Hw.
    apply list_elem_of_In, filter_In. split; [by apply list_elem_of_In, Hrem|].
    apply bool_decide_eq_true_2. rewrite <- Hzero.
    intros [_ Hdeg]%list_elem_of_In%filter_In.
    apply bool_decide_eq_true_1 in Hdeg.
    destruct (Hpred w Hw) as (u & Hu & He).
    by apply (in_degree_within_pos g remaining u w He (Hrem u Hu)).
Qed.

Lemma tc_last {A} (R : relation A) x z : tc R x z → ∃ y, rtc R x y ∧ R y z.
Proof.
  induction 1 as [x y H|x y z H _ (w & Hw & Hz)].
  - exists x. split; [apply rtc_refl|done].
  - exists w. split; [by eapply rtc_l|done].
Qed.

Lemma on_cycle_pred {A} (R : relation A) v : tc R v v → ∃ u, tc R u u ∧ R u v.
Proof.
  intros (u & Hvu & Huv)%tc_last. exists u. split; [|done].
  eapply tc_rtc_r; [by apply tc_once|done].
Qed.

Lemma cyclic_not_dag (edges : list Config.Edge) (g0 : nx.DiGraph) :
  Spec.cyclic edges →
  nx.is_directed_acyclic_graph
    (foldl (λ G edge, nx.add_edge (Config.edge_from edge) (Config.edge_to edge) G) g0 edges)
  = false.
Proof.
  intros [v Hv]. set (g := foldl _ g0 edges).
  destruct (add_edges_spec edges g0) as [Hedges Hnodes]. fold g in Hedges, Hnodes.
  assert (Hkeep : v ∈ nx.peel (length (nx.nodes g)) g (nx.nodes g)).
  { apply (peel_keeps (λ v, tc (Spec.edge_rel edges) v v)); [| |done].
    - intros w (u & Hu & (e & He & <- & <-))%on_cycle_pred. exists (Config.edge_from e).
      split; [done|]. apply Hedges. right. by exists e.
    - intros w (u & _ & (e & He & <- & <-))%on_cycle_pred.
      apply Hnodes. right. exists e. auto. }
  unfold nx.is_directed_acyclic_graph. apply bool_decide_eq_false_2.
  intros Hnil. rewrite Hnil in Hkeep. by apply elem_of_nil in Hkeep.
Qed.

Lemma tc_flip {A} (R : relation A) x y : tc (flip R) x y → tc R y x.
Proof.
  induction 1 as [x y H|x y z H _ IH]; [by apply tc_once|].
  eapply tc_r; [exact IH|exact H].
Qed.

Lemma filter_length_lt {A} (p : A → bool) (l : list A) (x : A) :
  x ∈ l → p x = false → (length (List.filter p l) < length l)%nat.
Proof.
  intros Hx Hp. induction l as [|y l IH]; [by apply elem_of_nil in Hx|].
  simpl. pose proof (List.filter_length_le p l) as Hle.
  apply elem_of_cons in Hx as [->|Hx].
  - rewrite Hp. lia.
  - specialize (IH Hx). destruct (p y); simpl; lia.
Qed.

Lemma peel_stuck g : ∀ fuel remaining,
  (length remaining ≤ fuel)%nat →
  ∀ v, v ∈ nx.peel fuel g remaining →
    nx.in_degree_within g (nx.peel fuel g remaining) v ≠ 0%nat.
Proof.
  intros fuel. induction fuel as [|fuel IH]; intros remaining Hlen v Hv; simpl in *.
  - destruct remaining; [by apply elem_of_nil in Hv|simpl in Hlen; lia].
  - destruct (List.filter _ remaining) as [|z zero] eqn:Hzero.
    + intros Hdeg.
      assert (v ∈ List.filter
                (λ v, bool_decide (nx.in_degree_within g remaining v = 0%nat)) remaining) as Hin.
      { apply list_elem_of_In, filter_In. split; [by apply list_elem_of_In|].
        by apply bool_decide_eq_true_2. }
      rewrite Hzero in Hin. by apply elem_of_nil in Hin.
    + apply IH; [|done].
      assert (z ∈ z :: zero) as Hz by left. rewrite <- Hzero in Hz.
      apply list_elem_of_In, filter_In in Hz as [Hz%list_elem_of_In _].
      assert (bool_decide (z ∉ z :: zero) = false) as Hf.
      { apply bool_decide_eq_false_2. intros Hn. apply Hn. left. }
      pose proof (filter_length_lt
                    (λ v0, bool_decide (v0 ∉ z :: zero)) remaining z Hz Hf) as Hlt.
      lia.
Qed.

Lemma in_degree_within_pred g remaining v :
  nx.in_degree_within g remaining v ≠ 0%nat →
  ∃ u, u ∈ remaining ∧ (u, v) ∈ nx.edges g.
Proof.
  unfold nx.in_degree_within. intros Hdeg.
  destruct (List.filter _ (nx.edges g)) as [|[u w] l] eqn:Hf; [done|].
  assert ((u, w) ∈ (u, w) :: l) as Hin by left. rewrite <- Hf in Hin.
  apply list_elem_of_In, filter_In in Hin as [Hin%list_elem_of_In Hc].
  apply andb_true_iff in Hc as [Hw%bool_decide_eq_true_1 Hu%bool_decide_eq_true_1].
  simpl in *. subst w. by exists u.
Qed.

Lemma add_nodes_no_edges (names : list string) (g : nx.DiGraph) :
  nx.edges (foldl (λ G var_name, nx.add_node var_name G) g names) = nx.edges g.
Proof.
  revert g. induction names as [|x names IH]; intros g; simpl; [done|].
  by rewrite IH, add_node_edges.
Qed.

Lemma acyclic_is_dag (edges : list Config.Edge) (g0 : nx.DiGraph) :
  nx.edges g0 = [] →
  ¬ Spec.cyclic edges →
  nx.is_directed_acyclic_graph
    (foldl (λ G edge, nx.add_edge (Config.edge_from edge) (Config.edge_to edge) G) g0 edges)
  = true.
Proof.
  intros Hempty Hacyc. set (g := foldl _ g0 edges).
  destruct (add_edges_spec edges g0) as [Hedges _]. fold g in Hedges.
  unfold nx.is_directed_acyclic_graph. apply bool_decide_eq_true_2.
  set (S := nx.peel (length (nx.nodes g)) g (nx.nodes g)).
  destruct S as [|v S'] eqn:HS; [done|]. exfalso.
  assert (Hsn : ∀ x, sn (flip (Spec.edge_rel edges)) x).
  { intros x. apply tc_finite_sn.
    - intros y Hy%tc_flip. apply Hacyc. by exists y.
    - exists (Config.edge_from <$> edges). intros y Hy.
      assert (∃ w, Spec.edge_rel edges y w) as (w & e & He & <- & _).
      { clear -Hy. induction Hy as [x y H|x y z _ _ IH]; [by exists x|done]. }
      apply list_elem_of_fmap. by exists e. }
  assert (Hstuck : ∀ x, sn (flip (Spec.edge_rel edges)) x → x ∈ v :: S' → False).
  { intros x Hx. induction Hx as [x _ IH]. intros Hin.
    rewrite <- HS in Hin.
    pose proof (peel_stuck g (length (nx.nodes g)) (nx.nodes g) (le_n _) x Hin) as Hdeg.
    apply in_degree_within_pred in Hdeg as (u & Hu & He).
    apply (IH u).
    - apply Hedges in He as [He|(e & He & [= -> ->])].
      + rewrite Hempty in He. by apply elem_of_nil in He.
      + by exists e.
    - fold S in Hu. by rewrite HS in Hu. }
  apply (Hstuck v (Hsn v)). left.
Qed.

Lemma loop_is_cyclic : Spec.cyclic (default [] (Config.edges Examples.loop)).
Proof.
  exists "X". apply tc_l with "Y".
  - eexists. split; [left|done].
  - apply tc_once. eexists. split; [right; left|done].
Qed.

(** The generator accepts every configuration without a cycle: the check
    rejects the cyclic ones and only those. *)
Lemma acyclic_configuration_accepted (variables : list (string * Config.VarInfo))
    (edges : list Config.Edge) :
  ¬ Spec.cyclic edges →
  ∃ G, SyntheticDataGenerator._build_graph variables edges = Return G.
Proof.
  intros Hacyc. unfold SyntheticDataGenerator._build_graph.
  rewrite acyclic_is_dag; [by eexists|by rewrite add_nodes_no_edges|done].
Qed.

(** The dispatch path builds its graph without any check. *)
Lemma build_networkx_graph_total (config : Config.DagConfig)
    (variables : list (string * Config.VarInfo)) (edges : list Config.Edge) :
  Config.variables config = Some variables →
  Config.edges config = Some edges →
  ∃ graph, CausalModel._build_networkx_graph config = Return graph.
Proof.
  intros Hv He. unfold CausalModel._build_networkx_graph. rewrite Hv, He.
  by eexists.
Qed.

Section Construction.

Context {rng : Type}.
Variable random_seed : Z → py rng.
Variable topological_sort : nx.DiGraph → py (list string).

Local Abbreviation new := (SyntheticDataGenerator.new random_seed topological_sort).

(** C1, as amended.  For every configuration whose edges contain a cycle,
    the generator's graph construction raises the error "The provided graph
    is not a DAG" and returns no graph.  So the generator's constructor
    returns no generator, whatever the seed, and raises that error as soon
    as numpy has accepted the seed. *)
Theorem cyclic_configuration_rejected (config : Config.DagConfig) :
  Spec.cyclic (default [] (Config.edges config)) →
  SyntheticDataGenerator._build_graph (default [] (Config.variables config))
    (default [] (Config.edges config))
    = Raise (ValueError "The provided graph is not a DAG") ∧
  ∀ seed : Z,
    (∀ generator, new config seed ≠ Return generator) ∧
    (∀ st, random_seed seed = Return st →
       new config seed = Raise (ValueError "The provided graph is not a DAG")).
Proof.
  intros Hcyc.
  assert (SyntheticDataGenerator._build_graph (default [] (Config.variables config))
            (default [] (Config.edges config))
          = Raise (ValueError "The provided graph is not a DAG")) as Hb.
  { unfold SyntheticDataGenerator._build_graph. by rewrite cyclic_not_dag. }
  split; [done|]. intros seed.
  unfold SyntheticDataGenerator.new, SyntheticDataGenerator.init.
  destruct (random_seed seed) as [st|e]; cbn [mbind py_bind].
  - rewrite Hb. cbn [mbind py_bind]. split; [done|]. by intros st' _.
  - split; [done|]. by intros st' [=].
Qed.

End Construction.

Lemma cyclic_configuration_rejected_witness :
  SyntheticDataGenerator.new Examples.seed_state Examples.sort_XTY Examples.loop 42
  = Raise (ValueError "The provided graph is not a DAG").
Proof.
  apply (proj2 (proj2 (cyclic_configuration_rejected Examples.seed_state Examples.sort_XTY
                         Examples.loop loop_is_cyclic) 42%Z) 42%nat).
  reflexivity.
Defined.

(** The claim of C1 fails on the configuration [X -> Y, Y -> X], which is
    cyclic: the dispatch path's construction returns a graph for it, and the
    error the generator raises shows neither end point of any edge. *)
Lemma cyclic_graph_counterexample :
  Spec.cyclic (default [] (Config.edges Examples.loop)) ∧
  CausalModel._build_networkx_graph Examples.loop
    = Return {| nx.nodes := ["X"; "Y"]; nx.edges := [("X", "Y"); ("Y", "X")] |} ∧
  SyntheticDataGenerator._build_graph (default [] (Config.variables Examples.loop))
    (default [] (Config.edges Examples.loop))
    = Raise (ValueError "The provided graph is not a DAG") ∧
  ∀ edge, edge ∈ default [] (Config.edges Examples.loop) →
    Spec.names_edge (ValueError "The provided graph is not a DAG") edge = false.
Proof.
  split; [apply loop_is_cyclic|]. split; [vm_compute; reflexivity|].
  split; [vm_compute; reflexivity|].
  intros edge Hedge. simpl in Hedge.
  apply elem_of_cons in Hedge as [->|Hedge]; [vm_compute; reflexivity|].
  apply list_elem_of_singleton in Hedge as ->. vm_compute. reflexivity.
Qed.


(** ** The entries of an intervention *)

Lemma dict_get_set {V} (k k' : string) (v : V) (d : list (string * V)) :
  dict_get k (dict_set k' v d) = if decide (k' = k) then Some v else dict_get k d.
Proof.
  induction d as [|[k0 v0] d IH]; simpl.
  - by case_decide.
  - destruct (decide (k0 = k')) as [->|Hne]; simpl.
    + by case_decide.
    + destruct (decide (k0 = k)) as [->|Hne'].
      * by rewrite decide_False by done.
      * by rewrite IH.
Qed.

Section Intervention.

Context {dowhy : Type}.
Variable corr : Series → Series → num.

Local Abbreviation step := (dispatch.intervene_on corr).

Lemma step_get data iv value d1 d2 ov k :
  let r := step data iv value (d1, d2) ov in
  dict_get k r.1 =
    (if decide (ov = k ∧ k ∈ columns data) then Some (Spec.original_of data k)
     else dict_get k d1) ∧
  dict_get k r.2 =
    (if decide (ov = k ∧ k ∈ columns data) then Some (Spec.intervened_of corr data iv value k)
     else dict_get k d2).
Proof.
  unfold dispatch.intervene_on, Spec.intervened_of, Spec.original_of. cbv zeta.
  destruct (decide (ov = k ∧ k ∈ columns data)) as [[-> Hk]|Hn].
  - rewrite (decide_True (P := k ∈ columns data)) by done.
    destruct (decide (iv ∈ columns data)); [destruct (negb (isnan _))|];
      cbn [fst snd]; rewrite !dict_get_set, !(decide_True (P := k = k)) by done; done.
  - destruct (decide (ov ∈ columns data)) as [Hov|Hov]; [|done].
    assert (ov ≠ k) as Hne by (intros ->; tauto).
    destruct (decide (iv ∈ columns data)); [destruct (negb (isnan _))|];
      cbn [fst snd]; rewrite !dict_get_set, !(decide_False (P := ov = k)) by done; done.
Qed.

Lemma first_loop data iv value (ovs : list string) d1 d2 k :
  let r := foldl (step data iv value) (d1, d2) ovs in
  dict_get k r.1 =
    (if decide (k ∈ ovs ∧ k ∈ columns data) then Some (Spec.original_of data k)
     else dict_get k d1) ∧
  dict_get k r.2 =
    (if decide (k ∈ ovs ∧ k ∈ columns data) then Some (Spec.intervened_of corr data iv value k)
     else dict_get k d2).
Proof.
  revert d1 d2. induction ovs as [|ov ovs IH]; intros d1 d2; cbn [foldl].
  - cbv zeta. cbn [fst snd].
    rewrite !decide_False; [done|..]; intros [[]%elem_of_nil _].
  - destruct (step_get data iv value d1 d2 ov k) as [S1 S2].
    destruct (step data iv value (d1, d2) ov) as [d1' d2'].
    destruct (IH d1' d2') as [E1 E2]. cbv zeta in *. cbn [fst snd] in S1, S2.
    rewrite E1, E2, S1, S2.
    destruct (decide (k ∈ ovs ∧ k ∈ columns data)) as [[H1 H2]|Hn].
    + rewrite !decide_True; [done|..]; (split; [by right|done]).
    + destruct (decide (ov = k ∧ k ∈ columns data)) as [[-> H2]|Hn'].
      * rewrite !decide_True; [done|..]; (split; [by left|done]).
      * rewrite !decide_False; [done|..];
          intros [[->|?]%elem_of_cons ?]; tauto.
Qed.

Lemma second_loop (ovs : list string) (original intervened : list (string * num))
    (acc : list (string * dispatch.Effect)) :
  (∀ k, is_Some (dict_get k original) → is_Some (dict_get k intervened)) →
  ∃ effects,
    foldl (λ acc outcome_var,
             intervention_effects ← acc;
             match dict_get outcome_var original with
             | Some original =>
                 intervened ←
                   getkey outcome_var (dict_get outcome_var intervened);
                 mret (dict_set outcome_var
                         {| dispatch.original_value := original;
                            dispatch.intervened_value := intervened;
                            dispatch.effect := Num.sub intervened original |}
                         intervention_effects)
             | None => mret intervention_effects
             end)
          (Return acc) ovs = Return effects ∧
    ∀ k, dict_get k effects =
           if decide (k ∈ ovs ∧ is_Some (dict_get k original))
           then Spec.entry_of original intervened k else dict_get k acc.
Proof.
  intros Hboth. revert acc. induction ovs as [|ov ovs IH]; intros acc; cbn [foldl].
  - exists acc. split; [done|]. intros k.
    rewrite decide_False; [done|]. intros [[]%elem_of_nil _].
  - cbn [mbind py_bind].
    destruct (dict_get ov original) as [o|] eqn:Ho.
    + destruct (Hboth ov) as [i Hi]; [by rewrite Ho|]. rewrite Hi.
      cbn [getkey mbind py_bind mret py_ret].
      destruct (IH (dict_set ov {| dispatch.original_value := o;
                                   dispatch.intervened_value := i;
                                   dispatch.effect := Num.sub i o |} acc))
        as (effects & Hfold & Hget).
      exists effects. split; [done|]. intros k. rewrite Hget, dict_get_set.
      destruct (decide (k ∈ ovs ∧ is_Some (dict_get k original))) as [[H1 H2]|Hn].
      * rewrite decide_True; [done|]. split; [by right|done].
      * destruct (decide (ov = k)) as [->|Hne].
        -- rewrite decide_True.
           ++ unfold Spec.entry_of. rewrite Ho, Hi. done.
           ++ split; [left|by rewrite Ho].
        -- rewrite decide_False; [done|].
           intros [[->|?]%elem_of_cons ?]; tauto.
    + cbn [mret py_ret]. destruct (IH acc) as (effects & Hfold & Hget).
      exists effects. split; [done|]. intros k. rewrite Hget.
      destruct (decide (k ∈ ovs ∧ is_Some (dict_get k original))) as [[H1 H2]|Hn].
      * rewrite decide_True; [done|]. split; [by right|done].
      * rewrite decide_False; [done|].
        intros [[->|?]%elem_of_cons [? ?]]; [congruence|]. apply Hn. split; [done|eauto].
Qed.

(** For every requested outcome variable that is a column, the entry of an
    intervention result is fixed: its original value is the mean of the
    column; its intervened value is that mean plus
    [(intervention_value - mean(intervention_variable)) * correlation],
    computed in this order, when the intervention variable is a column and
    the correlation is not NaN, and that mean itself otherwise; its effect
    is the intervened value minus the original one. *)
Theorem intervention_entry_values (query_json : dispatch.Query)
    (causal_model : @CausalModel.t dowhy) (data : DataFrame)
    (intervention_var : string) (intervention_value : num) (outcome_vars : list string) :
  dispatch.intervention_variable query_json = Some intervention_var →
  dispatch.intervention_value query_json = Some intervention_value →
  dispatch.outcome_variables query_json = Some outcome_vars →
  CausalModel.data causal_model = Some data →
  ∃ effects,
    dispatch._handle_intervention corr query_json causal_model
      = dispatch.Intervention intervention_var intervention_value effects ∧
    ∀ outcome_var,
      outcome_var ∈ outcome_vars →
      outcome_var ∈ columns data →
      let original := mean (cell outcome_var <$> rows data) in
      let correlation :=
        corr (cell intervention_var <$> rows data) (cell outcome_var <$> rows data) in
      let intervened :=
        if bool_decide (intervention_var ∈ columns data) && negb (isnan correlation)
        then Num.add original
               (Num.mul (Num.sub intervention_value
                           (mean (cell intervention_var <$> rows data)))
                        correlation)
        else original in
      dict_get outcome_var effects =
        Some {| dispatch.original_value := original;
                dispatch.intervened_value := intervened;
                dispatch.effect := Num.sub intervened original |}.
Proof.
  intros Hiv Hval Hovs Hdata. unfold dispatch._handle_intervention.
  rewrite Hiv, Hval, Hovs, Hdata. cbn [getkey mbind py_bind].
  pose proof (first_loop data intervention_var intervention_value outcome_vars [] [])
    as Hfirst. cbv zeta in Hfirst.
  destruct (foldl _ ([], []) outcome_vars) as [original_outcomes intervened_outcomes].
  cbn [fst snd] in Hfirst.
  destruct (second_loop outcome_vars original_outcomes intervened_outcomes [])
    as (effects & Hfold & Hget).
  { intros k. destruct (Hfirst k) as [-> ->]. by case_decide. }
  rewrite Hfold. cbn [mbind py_bind mret py_ret dispatch.fail_soft].
  exists effects. split; [done|].
  intros ov Hin Hcol. cbv zeta. rewrite Hget.
  destruct (Hfirst ov) as [E1 E2].
  rewrite decide_True in E1, E2 by done.
  rewrite decide_True by (by rewrite E1).
  unfold Spec.entry_of. rewrite E1, E2. cbn [mbind option_bind].
  unfold Spec.intervened_of, Spec.original_of. cbv zeta.
  destruct (decide (intervention_var ∈ columns data)) as [Hi|Hi].
  - rewrite (bool_decide_eq_true_2 _ Hi). cbn [andb]. by destruct (negb (isnan _)).
  - by rewrite (bool_decide_eq_false_2 _ Hi).
Qed.
End Intervention.


(** * Further properties *)

(** ** Dicts and [max] *)

Lemma keys_dict_get {V} (k : string) (d : list (string * V)) :
  k ∈ keys d ↔ is_Some (dict_get k d).
Proof.
  unfold keys. induction d as [|[k0 v0] d IH]; simpl.
  - split; [by intros ?%elem_of_nil|by intros [? ?]].
  - rewrite elem_of_cons. case_decide as H.
    + subst. split; [eauto|auto].
    + rewrite IH. split; [intros [?|?]; [congruence|done]|auto].
Qed.

Lemma collect_get {V} (P : string → Prop) `{!∀ x, Decision (P x)} (f : string → V)
    (step : list (string * V) → string → list (string * V)) :
  (∀ acc x, step acc x = if decide (P x) then dict_set x (f x) acc else acc) →
  ∀ l d k,
    dict_get k (foldl step d l) =
      if decide (k ∈ l ∧ P k) then Some (f k) else dict_get k d.
Proof.
  intros Hstep l. induction l as [|x l IH]; intros d k; cbn [foldl].
  - rewrite decide_False; [done|]. intros [[]%elem_of_nil _].
  - rewrite IH, Hstep.
    destruct (decide (k ∈ l ∧ P k)) as [[H1 H2]|Hn].
    + rewrite decide_True; [done|]. split; [by right|done].
    + destruct (decide (x = k ∧ P k)) as [[-> Hk]|Hn'].
      * rewrite (decide_True (P := P k)) by done. rewrite dict_get_set.
        rewrite !decide_True; [done|split; [left|done]|done].
      * rewrite (decide_False (P := k ∈ x :: l ∧ P k)).
        2:{ intros [[->|?]%elem_of_cons ?]; tauto. }
        case_decide; [|done]. rewrite dict_get_set.
        rewrite decide_False; [done|]. intros ->. tauto.
Qed.

Lemma collect_keys_nil {V} (P : string → Prop) `{!∀ x, Decision (P x)} (f : string → V)
    (step : list (string * V) → string → list (string * V)) (l : list string) :
  (∀ acc x, step acc x = if decide (P x) then dict_set x (f x) acc else acc) →
  keys (foldl step [] l) = [] ↔ ∀ k, k ∈ l → ¬ P k.
Proof.
  intros Hstep. split.
  - intros Hnil k Hk HP.
    assert (k ∈ keys (foldl step [] l)) as Hin.
    { apply keys_dict_get. rewrite (collect_get P f step Hstep).
      rewrite decide_True by done. eauto. }
    rewrite Hnil in Hin. by apply elem_of_nil in Hin.
  - intros Hno. destruct (keys (foldl step [] l)) as [|k ks] eqn:Hk; [done|].
    assert (k ∈ keys (foldl step [] l)) as Hin by (rewrite Hk; left).
    apply keys_dict_get in Hin. rewrite (collect_get P f step Hstep) in Hin.
    destruct (decide (k ∈ l ∧ P k)) as [[H1 H2]|Hnk]; [by destruct (Hno k)|].
    simpl in Hin. by destruct Hin.
Qed.

Lemma gt_false_trans (a b c : num) :
  a ≠ NaN → b ≠ NaN → c ≠ NaN →
  Num.gt a b = false → Num.gt c b = true → Num.gt a c = false.
Proof.
  destruct a as [a|], b as [b|], c as [c|]; try done. simpl. intros _ _ _.
  intros H1%bool_decide_eq_false_1 H2%bool_decide_eq_true_1.
  apply bool_decide_eq_false_2. apply Qcle_not_lt.
  apply Qcnot_lt_le in H1. apply Qclt_le_weak. by eapply Qcle_lt_trans.
Qed.

Lemma max_by_spec {A} (key : A → num) (xs : list A) :
  xs ≠ [] →
  ∃ m, max_by key xs = Return m ∧ m ∈ xs ∧
       ((∀ y, y ∈ xs → key y ≠ NaN) → ∀ y, y ∈ xs → Num.gt (key y) (key m) = false).
Proof.
  destruct xs as [|x xs]; [done|]. intros _. simpl.
  eexists. split; [done|].
  assert (∀ seen best,
            best ∈ seen →
            let m := foldl (λ best y, if Num.gt (key y) (key best) then y else best) best xs in
            m ∈ (seen ++ xs)%list ∧
            ((∀ y, y ∈ (seen ++ xs)%list → key y ≠ NaN) →
             (∀ y, y ∈ seen → Num.gt (key y) (key best) = false) →
             ∀ y, y ∈ (seen ++ xs)%list → Num.gt (key y) (key m) = false)) as Hinv.
  { induction xs as [|z xs IH]; intros seen best Hbest; cbn [foldl].
    - rewrite app_nil_r. split; [done|]. auto.
    - cbv zeta. destruct (Num.gt (key z) (key best)) eqn:Hz.
      + destruct (IH (seen ++ [z])%list z) as [H1 H2]; [apply elem_of_app; right; left|].
        rewrite <- app_assoc in H1, H2. simpl in H1, H2. split; [done|].
        intros Hnan Hseen. apply H2; [done|].
        intros y [Hy|Hy%list_elem_of_singleton]%elem_of_app; [|subst y].
        * eapply (gt_false_trans _ (key best)); [| | |by apply Hseen|done];
            apply Hnan; [apply elem_of_app; by left|apply elem_of_app; by left|
                         apply elem_of_app; right; left].
        * destruct (key z) as [kz|] eqn:E; [|done]. simpl.
          apply bool_decide_eq_false_2. apply Qcle_not_lt, Qcle_refl.
      + destruct (IH (seen ++ [z])%list best) as [H1 H2]; [apply elem_of_app; by left|].
        rewrite <- app_assoc in H1, H2. simpl in H1, H2. split; [done|].
        intros Hnan Hseen. apply H2; [done|].
        intros y [Hy|Hy%list_elem_of_singleton]%elem_of_app; [by apply Hseen|by subst y]. }
  destruct (Hinv [x] x) as [H1 H2]; [left|]. simpl in H1, H2.
  split; [done|]. intros Hnan. apply H2; [done|].
  intros y Hy%list_elem_of_singleton. subst y. destruct (key x) as [kx|] eqn:E.
  - simpl. apply bool_decide_eq_false_2. apply Qcle_not_lt, Qcle_refl.
  - done.
Qed.

(** ** The attribution handlers *)

Lemma nan_to_zero_not_nan (x : num) : dispatch.nan_to_zero x ≠ NaN.
Proof. by destruct x. Qed.

Lemma any_true_count (mask : list bool) : any mask = true → (1 ≤ count mask)%nat.
Proof.
  unfold any, count. induction mask as [|b mask IH]; simpl; [done|].
  destruct b; simpl; [lia|]. auto.
Qed.

Section Anomaly.
Context {dowhy : Type}.
Variable corr : Series → Series → num.

Local Abbreviation handle := (dispatch._handle_anomaly_attribution (dowhy := dowhy) corr).

Lemma anomaly_unfold (query_json : dispatch.Query) (causal_model : CausalModel.t)
    (data : DataFrame) (outcome_var : string) (anomaly_threshold : num)
    (potential_causes : list string) (outcome_values : Series) :
  dispatch.outcome_variable query_json = Some outcome_var →
  dispatch.anomaly_threshold query_json = Some anomaly_threshold →
  dispatch.potential_causes query_json = Some potential_causes →
  CausalModel.data causal_model = Some data →
  getitem data outcome_var = Return outcome_values →
  let anomalies := (λ y, Num.gt y anomaly_threshold) <$> outcome_values in
  any anomalies = true →
  ∃ scores : list (string * dispatch.Attribution),
    (∀ k, dict_get k scores =
            if decide (k ∈ potential_causes ∧ k ∈ columns data)
            then Some {| dispatch.correlation :=
                           dispatch.nan_to_zero (corr (cell k <$> rows data) outcome_values);
                         dispatch.normal_mean :=
                           dispatch.nan_to_zero
                             (mean (mask_select (negb <$> anomalies) (cell k <$> rows data)));
                         dispatch.anomaly_mean :=
                           dispatch.nan_to_zero
                             (mean (mask_select anomalies (cell k <$> rows data)));
                         dispatch.difference :=
                           if negb (isnan (mean (mask_select anomalies (cell k <$> rows data)))
                                    || isnan (mean (mask_select (negb <$> anomalies)
                                                      (cell k <$> rows data))))
                           then Num.sub (mean (mask_select anomalies (cell k <$> rows data)))
                                  (mean (mask_select (negb <$> anomalies)
                                           (cell k <$> rows data)))
                           else of_Z 0 |}
            else None) ∧
    (keys scores = [] ↔ ∀ k, k ∈ potential_causes → k ∉ columns data) ∧
    handle query_json causal_model =
      dispatch.fail_soft (Some "anomaly_attribution")
        (top ← max_by (λ x, Num.abs (default NaN
                              (dispatch.correlation <$> dict_get x scores)))
                      (keys scores);
         mret (dispatch.AnomalyAttribution outcome_var anomaly_threshold
                 (count anomalies) scores top)).
Proof.
  intros Ho Ht Hc Hd Hcol anomalies Hany.
  unfold dispatch._handle_anomaly_attribution, dispatch.model_data.
  rewrite Ho, Ht, Hc, Hd. cbn [getkey mbind py_bind]. rewrite Hcol.
  cbn [mbind py_bind]. fold anomalies. rewrite Hany. cbn [negb].
  match goal with |- context [foldl ?step [] potential_causes] =>
    set (st := step); set (scores := foldl st [] potential_causes) end.
  exists scores. split; [|split; [|done]].
  - intros k. unfold scores.
    erewrite (collect_get (λ x, x ∈ columns data) _ st).
    2:{ intros acc x. reflexivity. }
    done.
  - unfold scores.
    eapply (collect_keys_nil (λ x, x ∈ columns data)). intros acc x. reflexivity.
Qed.

Lemma some_exceeds (outcome_values : Series) (anomaly_threshold : num) :
  (∃ y, y ∈ outcome_values ∧ Num.gt y anomaly_threshold = true) →
  any ((λ y, Num.gt y anomaly_threshold) <$> outcome_values) = true.
Proof.
  intros (y & Hy & Hgt). unfold any. apply existsb_exists.
  exists true. split; [|done]. apply list_elem_of_In, list_elem_of_fmap. by exists y.
Qed.

(** With at least one row above the threshold and no potential cause among
    the columns, the anomaly handler fails: the attribution map is empty and
    the summary's [max] over its keys raises. *)
Theorem anomaly_without_cause_column (query_json : dispatch.Query)
    (causal_model : CausalModel.t) (data : DataFrame) (outcome_var : string)
    (anomaly_threshold : num) (potential_causes : list string) (outcome_values : Series) :
  dispatch.outcome_variable query_json = Some outcome_var →
  dispatch.anomaly_threshold query_json = Some anomaly_threshold →
  dispatch.potential_causes query_json = Some potential_causes →
  CausalModel.data causal_model = Some data →
  getitem data outcome_var = Return outcome_values →
  (∃ y, y ∈ outcome_values ∧ Num.gt y anomaly_threshold = true) →
  (∀ cause, cause ∈ potential_causes → cause ∉ columns data) →
  handle query_json causal_model =
    dispatch.Failure (Some "anomaly_attribution") "max() arg is an empty sequence".
Proof.
  intros Ho Ht Hc Hd Hcol Hex Hnone.
  destruct (anomaly_unfold query_json causal_model data outcome_var anomaly_threshold
              potential_causes outcome_values Ho Ht Hc Hd Hcol (some_exceeds _ _ Hex))
    as (scores & _ & Hnil & ->).
  apply Hnil in Hnone. rewrite Hnone. done.
Qed.

(** With at least one row above the threshold and a potential cause among
    the columns, the anomaly handler succeeds: it counts the rows above the
    threshold and holds one entry for each potential cause that is a column;
    the correlation and the two means of an entry are never NaN, its
    difference is the mean over the rows above the threshold minus the mean
    over the others when neither is NaN, and zero otherwise; and the top
    contributor is an entry whose absolute correlation no other entry
    exceeds. *)
Theorem anomaly_attribution_scores (query_json : dispatch.Query)
    (causal_model : CausalModel.t) (data : DataFrame) (outcome_var : string)
    (anomaly_threshold : num) (potential_causes : list string) (outcome_values : Series) :
  dispatch.outcome_variable query_json = Some outcome_var →
  dispatch.anomaly_threshold query_json = Some anomaly_threshold →
  dispatch.potential_causes query_json = Some potential_causes →
  CausalModel.data causal_model = Some data →
  getitem data outcome_var = Return outcome_values →
  (∃ y, y ∈ outcome_values ∧ Num.gt y anomaly_threshold = true) →
  (∃ cause, cause ∈ potential_causes ∧ cause ∈ columns data) →
  let anomalies := (λ y, Num.gt y anomaly_threshold) <$> outcome_values in
  ∃ scores top,
    handle query_json causal_model =
      dispatch.AnomalyAttribution outcome_var anomaly_threshold
        (count anomalies) scores top ∧
    (1 ≤ count anomalies)%nat ∧
    (∀ k, k ∈ keys scores ↔ k ∈ potential_causes ∧ k ∈ columns data) ∧
    (∀ k a, dict_get k scores = Some a →
       let normal_mean := mean (mask_select (negb <$> anomalies) (cell k <$> rows data)) in
       let anomaly_mean := mean (mask_select anomalies (cell k <$> rows data)) in
       dispatch.correlation a ≠ NaN ∧ dispatch.normal_mean a ≠ NaN ∧
       dispatch.anomaly_mean a ≠ NaN ∧
       dispatch.difference a =
         if isnan anomaly_mean || isnan normal_mean then of_Z 0
         else Num.sub anomaly_mean normal_mean) ∧
    top ∈ keys scores ∧
    (∀ k a b, dict_get k scores = Some a → dict_get top scores = Some b →
       Num.gt (Num.abs (dispatch.correlation a)) (Num.abs (dispatch.correlation b)) = false).
Proof.
  intros Ho Ht Hc Hd Hcol Hex (cause & Hc1 & Hc2) anomalies.
  destruct (anomaly_unfold query_json causal_model data outcome_var anomaly_threshold
              potential_causes outcome_values Ho Ht Hc Hd Hcol (some_exceeds _ _ Hex))
    as (scores & Hget & Hnil & ->).
  assert (Hkeys : ∀ k, k ∈ keys scores ↔ k ∈ potential_causes ∧ k ∈ columns data).
  { intros k. rewrite keys_dict_get, Hget. case_decide; [by split; eauto|].
    split; [by intros [? ?]|tauto]. }
  assert (Hcorr : ∀ k a, dict_get k scores = Some a → dispatch.correlation a ≠ NaN).
  { intros k a. rewrite Hget. case_decide; [|done]. intros [= <-].
    apply nan_to_zero_not_nan. }
  destruct (max_by_spec
              (λ x, Num.abs (default NaN (dispatch.correlation <$> dict_get x scores)))
              (keys scores)) as (top & Hmax & Htop & Hbest).
  { intros Hk. by apply (proj1 Hnil Hk cause). }
  rewrite Hmax. cbn [mbind py_bind mret py_ret dispatch.fail_soft].
  exists scores, top. split; [done|]. split; [by apply any_true_count, some_exceeds|].
  split; [done|]. split; [|split; [done|]].
  - intros k a. rewrite Hget. case_decide; [|done]. intros [= <-].
    cbn [dispatch.correlation dispatch.normal_mean dispatch.anomaly_mean
         dispatch.difference].
    repeat split; try apply nan_to_zero_not_nan.
    fold anomalies. by destruct (isnan _ || isnan _).
  - intros k a b Ha Hb.
    assert (k ∈ keys scores) as Hk by (apply keys_dict_get; by rewrite Ha).
    assert (∀ y, y ∈ keys scores →
              Num.abs (default NaN (dispatch.correlation <$> dict_get y scores)) ≠ NaN)
      as Hall.
    { intros y [c Hy]%keys_dict_get. rewrite Hy. simpl.
      pose proof (Hcorr y c Hy) as Hcn. by destruct (dispatch.correlation c). }
    specialize (Hbest Hall k Hk). by rewrite Ha, Hb in Hbest.
Qed.
End Anomaly.

Section Shift.
Context {dowhy : Type}.
Variable corr : Series → Series → num.

Local Abbreviation handle :=
  (dispatch._handle_distribution_shift_attribution (dowhy := dowhy) corr).

Lemma shift_unfold (query_json : dispatch.Query) (causal_model : CausalModel.t)
    (data : DataFrame) (target_var baseline_period comparison_period : string)
    (potential_drivers : list string) :
  dispatch.target_variable query_json = Some target_var →
  dispatch.baseline_period query_json = Some baseline_period →
  dispatch.comparison_period query_json = Some comparison_period →
  dispatch.potential_drivers query_json = Some potential_drivers →
  CausalModel.data causal_model = Some data →
  target_var ∈ columns data →
  let before := take (len data / 2) (rows data) in
  let after := drop (len data / 2) (rows data) in
  ∃ contributions : list (string * dispatch.Contribution),
    (∀ k, dict_get k contributions =
            if decide (k ∈ potential_drivers ∧ k ∈ columns data)
            then
              let shift := Num.sub (mean (cell k <$> after)) (mean (cell k <$> before)) in
              let correlation :=
                corr (cell k <$> rows data) (cell target_var <$> rows data) in
              Some {| dispatch.baseline_mean := mean (cell k <$> before);
                      dispatch.comparison_mean := mean (cell k <$> after);
                      dispatch.shift := shift;
                      dispatch.correlation_with_target := dispatch.nan_to_zero correlation;
                      dispatch.estimated_contribution :=
                        if negb (isnan correlation) then Num.mul shift correlation
                        else of_Z 0 |}
            else None) ∧
    (keys contributions = [] ↔ ∀ k, k ∈ potential_drivers → k ∉ columns data) ∧
    handle query_json causal_model =
      dispatch.fail_soft (Some "distribution_shift_attribution")
        (main ← max_by (λ x, Num.abs (default NaN
                               (dispatch.estimated_contribution <$> dict_get x contributions)))
                       (keys contributions);
         mret (dispatch.ShiftAttribution target_var
                 (mean (cell target_var <$> before)) (mean (cell target_var <$> after))
                 (Num.sub (mean (cell target_var <$> after))
                          (mean (cell target_var <$> before)))
                 contributions main)).
Proof.
  intros Ht Hb Hc Hp Hd Hcol before after.
  unfold dispatch._handle_distribution_shift_attribution, dispatch.model_data.
  rewrite Ht, Hb, Hc, Hp, Hd. cbn [getkey mbind py_bind].
  unfold getitem. cbn [columns rows iloc_to iloc_from].
  rewrite !decide_True by done. cbn [mbind py_bind].
  fold before after.
  match goal with |- context [foldl ?step [] potential_drivers] =>
    set (st := step); set (contributions := foldl st [] potential_drivers) end.
  exists contributions. split; [|split; [|done]].
  - intros k. unfold contributions.
    erewrite (collect_get (λ x, x ∈ columns data) _ st).
    2:{ intros acc x. reflexivity. }
    done.
  - unfold contributions.
    eapply (collect_keys_nil (λ x, x ∈ columns data)). intros acc x. reflexivity.
Qed.

(** With no potential driver among the columns, the distribution-shift
    handler fails on the summary's [max], whatever the table holds. *)
Theorem shift_without_driver_column (query_json : dispatch.Query)
    (causal_model : CausalModel.t) (data : DataFrame)
    (target_var baseline_period comparison_period : string)
    (potential_drivers : list string) :
  dispatch.target_variable query_json = Some target_var →
  dispatch.baseline_period query_json = Some baseline_period →
  dispatch.comparison_period query_json = Some comparison_period →
  dispatch.potential_drivers query_json = Some potential_drivers →
  CausalModel.data causal_model = Some data →
  target_var ∈ columns data →
  (∀ driver, driver ∈ potential_drivers → driver ∉ columns data) →
  handle query_json causal_model =
    dispatch.Failure (Some "distribution_shift_attribution")
      "max() arg is an empty sequence".
Proof.
  intros Ht Hb Hc Hp Hd Hcol Hnone.
  destruct (shift_unfold query_json causal_model data target_var baseline_period
              comparison_period potential_drivers Ht Hb Hc Hp Hd Hcol)
    as (contributions & _ & Hnil & ->).
  apply Hnil in Hnone. rewrite Hnone. done.
Qed.

(** With the target and a potential driver among the columns, the
    distribution-shift handler succeeds: the baseline is the first half of
    the rows (rounded down), the comparison the rest, so the comparison
    window has the same number of rows or one more; every driver that is a
    column gets its two window means, their difference as shift and
    [shift * correlation] as contribution, or zero when the correlation is
    NaN. *)
Theorem shift_attribution_windows (query_json : dispatch.Query)
    (causal_model : CausalModel.t) (data : DataFrame)
    (target_var baseline_period comparison_period : string)
    (potential_drivers : list string) :
  dispatch.target_variable query_json = Some target_var →
  dispatch.baseline_period query_json = Some baseline_period →
  dispatch.comparison_period query_json = Some comparison_period →
  dispatch.potential_drivers query_json = Some potential_drivers →
  CausalModel.data causal_model = Some data →
  target_var ∈ columns data →
  (∃ driver, driver ∈ potential_drivers ∧ driver ∈ columns data) →
  let before := take (len data / 2) (rows data) in
  let after := drop (len data / 2) (rows data) in
  ∃ contributions main,
    handle query_json causal_model =
      dispatch.ShiftAttribution target_var
        (mean (cell target_var <$> before)) (mean (cell target_var <$> after))
        (Num.sub (mean (cell target_var <$> after)) (mean (cell target_var <$> before)))
        contributions main ∧
    rows data = (before ++ after)%list ∧
    length before = (len data / 2)%nat ∧
    (length before ≤ length after ≤ length before + 1)%nat ∧
    (∀ k, k ∈ keys contributions ↔ k ∈ potential_drivers ∧ k ∈ columns data) ∧
    main ∈ keys contributions ∧
    (∀ k c, dict_get k contributions = Some c →
       dispatch.baseline_mean c = mean (cell k <$> before) ∧
       dispatch.comparison_mean c = mean (cell k <$> after) ∧
       dispatch.shift c = Num.sub (dispatch.comparison_mean c) (dispatch.baseline_mean c) ∧
       dispatch.correlation_with_target c ≠ NaN ∧
       dispatch.estimated_contribution c =
         (if isnan (corr (cell k <$> rows data) (cell target_var <$> rows data))
          then of_Z 0
          else Num.mul (dispatch.shift c)
                 (corr (cell k <$> rows data) (cell target_var <$> rows data)))).
Proof.
  intros Ht Hb Hc Hp Hd Hcol (driver & Hd1 & Hd2) before after.
  destruct (shift_unfold query_json causal_model data target_var baseline_period
              comparison_period potential_drivers Ht Hb Hc Hp Hd Hcol)
    as (contributions & Hget & Hnil & ->).
  fold before after in Hget.
  destruct (max_by_spec
              (λ x, Num.abs (default NaN
                       (dispatch.estimated_contribution <$> dict_get x contributions)))
              (keys contributions)) as (main & Hmax & Hmain & _).
  { intros Hk. by apply (proj1 Hnil Hk driver). }
  rewrite Hmax. cbn [mbind py_bind mret py_ret dispatch.fail_soft].
  exists contributions, main. split; [done|].
  split; [by unfold before, after; rewrite take_drop|].
  assert (length before = (len data / 2)%nat) as Hlen.
  { unfold before, len. rewrite length_take.
    apply Nat.min_l. apply Nat.Div0.div_le_upper_bound. lia. }
  split; [done|]. split.
  { rewrite Hlen. unfold after. rewrite length_drop. unfold len.
    pose proof (Nat.div_mod_eq (length (rows data)) 2) as E.
    pose proof (Nat.mod_upper_bound (length (rows data)) 2). lia. }
  split.
  { intros k. rewrite keys_dict_get, Hget. case_decide; [by split; eauto|].
    split; [by intros [? ?]|tauto]. }
  split; [done|].
  intros k c. rewrite Hget. case_decide; [|done]. cbv zeta. intros [= <-].
  cbn [dispatch.baseline_mean dispatch.comparison_mean dispatch.shift
       dispatch.correlation_with_target dispatch.estimated_contribution].
  repeat split; [apply nan_to_zero_not_nan|]. by destruct (isnan _).
Qed.
End Shift.

(** ** The tag of a result *)

Section Echo.
Context {dowhy estimand : Type}.
Variable corr : Series → Series → num.
Variable read_csv : string → py DataFrame.
Variable json_load : string → py Config.DagConfig.
Variable DoWhyCausalModel :
  DataFrame → string → string → option nx.DiGraph →
  option (list string) → option (list string) → py dowhy.
Variable dowhy_identify_effect : dowhy → py estimand.
Variable dowhy_estimate_effect : dowhy → estimand → string → py dispatch.estimate.

Ltac handler_tag :=
  intros; unfold dispatch.fail_soft, mbind, py_bind, mret, py_ret, getkey,
    dispatch.model_data, getitem;
  repeat case_match; simplify_eq; try reflexivity.

Lemma effect_estimation_tag q (cm : @CausalModel.t dowhy) :
  dispatch.get_query_type (dispatch._handle_effect_estimation dowhy_identify_effect
                    dowhy_estimate_effect q cm) = Some "effect_estimation".
Proof. unfold dispatch._handle_effect_estimation. handler_tag. Qed.

Lemma anomaly_attribution_tag q (cm : @CausalModel.t dowhy) :
  dispatch.get_query_type (dispatch._handle_anomaly_attribution corr q cm)
  = Some "anomaly_attribution".
Proof.
  unfold dispatch._handle_anomaly_attribution. handler_tag.
Qed.

Lemma distribution_shift_tag q (cm : @CausalModel.t dowhy) :
  dispatch.get_query_type (dispatch._handle_distribution_shift_attribution corr q cm)
  = Some "distribution_shift_attribution".
Proof. unfold dispatch._handle_distribution_shift_attribution. handler_tag. Qed.

Lemma intervention_tag q (cm : @CausalModel.t dowhy) :
  dispatch.get_query_type (dispatch._handle_intervention corr q cm) = Some "intervention".
Proof. unfold dispatch._handle_intervention. handler_tag. Qed.

Lemma counterfactual_tag q (cm : @CausalModel.t dowhy) :
  dispatch.get_query_type (dispatch._handle_counterfactual corr q cm) = Some "counterfactual".
Proof. unfold dispatch._handle_counterfactual. handler_tag. Qed.

(** Whatever happens (loading fails, the tag is unknown, a handler fails or
    succeeds), the result's [query_type] is the tag of the query.  For a
    query without tag it is [None] when the table and the model load, and
    ["unknown"] exactly when loading raises. *)
Theorem dispatch_echoes_query_type (query_json : dispatch.Query)
    (dag_path data_path : string) :
  let r := dispatch.dispatch_query corr read_csv json_load DoWhyCausalModel
             dowhy_identify_effect dowhy_estimate_effect query_json dag_path data_path in
  let loaded :=
    data ← read_csv data_path;
    CausalModel.init json_load DoWhyCausalModel (CausalModel.FromPath dag_path)
      (Some data) in
  (∀ tag, dispatch.query_type query_json = Some tag → dispatch.get_query_type r = Some tag) ∧
  (dispatch.query_type query_json = None →
   (∀ causal_model, loaded = Return causal_model → dispatch.get_query_type r = None) ∧
   (∀ e, loaded = Raise e → dispatch.get_query_type r = Some "unknown")).
Proof.
  unfold dispatch.dispatch_query.
  destruct (read_csv data_path) as [data|e]; cbn [mbind py_bind];
    [destruct (CausalModel.init _ _ _ _) as [cm|e]; cbn [mbind py_bind]|..].
  - repeat case_decide; cbn [mret py_ret dispatch.fail_soft];
      rewrite ?effect_estimation_tag, ?anomaly_attribution_tag, ?distribution_shift_tag,
        ?intervention_tag, ?counterfactual_tag;
      (split; [intros tag Ht; simpl; congruence|intros Ht; simpl; try congruence]).
    split; [done|]. by intros e [=].
  - simpl. split; [by intros tag ->|intros ->]. split; [by intros cm [=]|done].
  - simpl. split; [by intros tag ->|intros ->]. split; [by intros cm [=]|done].
Qed.
End Echo.

(** ** Outcomes of an intervention, rows of the factual filter *)

Section InterventionOutcomes.
Context {dowhy : Type}.
Variable corr : Series → Series → num.

(** An intervention query with its three fields, on a model with data,
    never fails: the result holds one entry for each requested outcome that
    is a column and none for the others; each entry's original value is the
    column's mean and its effect is the intervened value minus the
    original one. *)
Theorem intervention_reports_present_outcomes (query_json : dispatch.Query)
    (causal_model : @CausalModel.t dowhy) (data : DataFrame)
    (intervention_var : string) (intervention_value : num) (outcome_vars : list string) :
  dispatch.intervention_variable query_json = Some intervention_var →
  dispatch.intervention_value query_json = Some intervention_value →
  dispatch.outcome_variables query_json = Some outcome_vars →
  CausalModel.data causal_model = Some data →
  ∃ effects,
    dispatch._handle_intervention corr query_json causal_model
      = dispatch.Intervention intervention_var intervention_value effects ∧
    (∀ k, k ∈ keys effects ↔ k ∈ outcome_vars ∧ k ∈ columns data) ∧
    (∀ k e, dict_get k effects = Some e →
       dispatch.original_value e = mean (cell k <$> rows data) ∧
       dispatch.effect e =
         Num.sub (dispatch.intervened_value e) (dispatch.original_value e)).
Proof.
  intros Hiv Hval Hovs Hdata. unfold dispatch._handle_intervention.
  rewrite Hiv, Hval, Hovs, Hdata. cbn [getkey mbind py_bind].
  pose proof (first_loop corr data intervention_var intervention_value outcome_vars [] [])
    as Hfirst. cbv zeta in Hfirst.
  destruct (foldl _ ([], []) outcome_vars) as [original_outcomes intervened_outcomes].
  cbn [fst snd] in Hfirst.
  destruct (second_loop outcome_vars original_outcomes intervened_outcomes [])
    as (effects & Hfold & Hget).
  { intros k. destruct (Hfirst k) as [-> ->]. by case_decide. }
  rewrite Hfold. cbn [mbind py_bind mret py_ret dispatch.fail_soft].
  exists effects. split; [done|].
  assert (Hentry : ∀ k, dict_get k effects =
            if decide (k ∈ outcome_vars ∧ k ∈ columns data)
            then Some {| dispatch.original_value := Spec.original_of data k;
                         dispatch.intervened_value :=
                           Spec.intervened_of corr data intervention_var
                             intervention_value k;
                         dispatch.effect :=
                           Num.sub (Spec.intervened_of corr data intervention_var
                                      intervention_value k) (Spec.original_of data k) |}
            else None).
  { intros k. rewrite Hget. destruct (Hfirst k) as [E1 E2].
    unfold Spec.entry_of. rewrite E1, E2.
    destruct (decide (k ∈ outcome_vars ∧ k ∈ columns data)) as [[H1 H2]|Hn].
    - rewrite decide_True; [done|]. split; [done|eauto].
    - rewrite decide_False; [done|]. simpl. intros [_ [? ?]]. done. }
  split.
  - intros k. rewrite keys_dict_get, Hentry. case_decide; [by split; eauto|].
    split; [by intros [? ?]|tauto].
  - intros k e. rewrite Hentry. case_decide; [|done]. by intros [= <-].
Qed.

Lemma select_rows_sublist (keep : gmap string num → bool) (l : list (gmap string num)) :
  sublist (List.filter keep l) l.
Proof.
  induction l as [|x l IH]; simpl; [constructor|].
  destruct (keep x); by constructor.
Qed.

Lemma filter_factual_present (data : DataFrame) (scenario : list (string * num)) :
  dispatch.filter_factual data scenario =
  dispatch.filter_factual data
    (List.filter (λ item, bool_decide (item.1 ∈ columns data)) scenario).
Proof.
  unfold dispatch.filter_factual.
  set (step := λ (filtered_data : DataFrame) (item : string * num),
         let '(var, value) := item in
         if decide (var ∈ columns data) then
           select (λ r, Num.le_root (Num.abs (Num.sub (cell var r) value))
                          (std (cell var <$> rows filtered_data)))
                  filtered_data
         else filtered_data).
  enough (∀ filtered,
            foldl step filtered scenario =
            foldl step filtered
              (List.filter (λ item, bool_decide (item.1 ∈ columns data)) scenario))
    as Hgen by apply Hgen.
  induction scenario as [|[var value] scenario IH]; intros filtered; [done|].
  cbn [foldl List.filter fst]. case_bool_decide as H.
  - cbn [foldl]. apply IH.
  - unfold step at 2. rewrite decide_False by done. apply IH.
Qed.

(** The factual filter keeps rows of the table in their order and all its
    columns; scenario variables that are no column do not change it; and for
    a scenario of one variable it is the filter within one standard
    deviation of the table's column. *)
Theorem counterfactual_filter_facts (data : DataFrame) (scenario : list (string * num)) :
  sublist (rows (dispatch.filter_factual data scenario)) (rows data) ∧
  columns (dispatch.filter_factual data scenario) = columns data ∧
  dispatch.filter_factual data scenario =
    dispatch.filter_factual data
      (List.filter (λ item, bool_decide (item.1 ∈ columns data)) scenario) ∧
  (∀ var value, var ∈ columns data →
     dispatch.filter_factual data [(var, value)]
     = Spec.intersection_filter data [(var, value)]).
Proof.
  split; [|split; [|split]].
  - rewrite filter_factual_survives. apply select_rows_sublist.
  - apply filter_factual_columns.
  - apply filter_factual_present.
  - intros var value Hvar. unfold dispatch.filter_factual, Spec.intersection_filter.
    cbn [foldl]. rewrite decide_True by done. unfold select. f_equal.
    apply filter_ext_in. intros r. unfold Spec.within_one_std. cbn [forallb fst snd].
    by rewrite andb_true_r.
Qed.
End InterventionOutcomes.

(** ** Instances on the example tables *)

Ltac by_computation := apply (bool_decide_unpack _); vm_compute; exact I.

Lemma anomaly_without_cause_column_witness :
  dispatch._handle_anomaly_attribution Examples.corr_undefined
    (Examples.anomaly_query (of_Z 3) ["Z"]) Examples.model_TY
  = dispatch.Failure (Some "anomaly_attribution") "max() arg is an empty sequence".
Proof.
  apply (anomaly_without_cause_column Examples.corr_undefined
           (Examples.anomaly_query (of_Z 3) ["Z"]) Examples.model_TY Examples.table_TY
           "Y" (of_Z 3) ["Z"] (cell "Y" <$> rows Examples.table_TY)
           eq_refl eq_refl eq_refl eq_refl eq_refl).
  - exists (of_Z 5). split; [by_computation|vm_compute; reflexivity].
  - intros cause Hc. apply list_elem_of_singleton in Hc as ->. by_computation.
Defined.

Lemma anomaly_attribution_scores_witness :
  dispatch.success
    (dispatch._handle_anomaly_attribution Examples.corr_undefined
       (Examples.anomaly_query (of_Z 3) ["T"; "Z"]) Examples.model_TY) = true.
Proof.
  destruct (anomaly_attribution_scores Examples.corr_undefined
              (Examples.anomaly_query (of_Z 3) ["T"; "Z"]) Examples.model_TY
              Examples.table_TY "Y" (of_Z 3) ["T"; "Z"]
              (cell "Y" <$> rows Examples.table_TY)
              eq_refl eq_refl eq_refl eq_refl eq_refl) as (scores & top & -> & _).
  - exists (of_Z 5). split; [by_computation|vm_compute; reflexivity].
  - exists "T". split; by_computation.
  - reflexivity.
Defined.

Lemma shift_without_driver_column_witness :
  dispatch._handle_distribution_shift_attribution Examples.corr_undefined
    (Examples.shift_query "Y" ["Z"]) (Examples.model_of Examples.table_ABY)
  = dispatch.Failure (Some "distribution_shift_attribution")
      "max() arg is an empty sequence".
Proof.
  apply (shift_without_driver_column Examples.corr_undefined
           (Examples.shift_query "Y" ["Z"]) (Examples.model_of Examples.table_ABY)
           Examples.table_ABY "Y" "first" "second" ["Z"]
           eq_refl eq_refl eq_refl eq_refl eq_refl).
  - by_computation.
  - intros driver Hd. apply list_elem_of_singleton in Hd as ->. by_computation.
Defined.

Lemma shift_attribution_windows_witness :
  dispatch.success
    (dispatch._handle_distribution_shift_attribution Examples.corr_undefined
       (Examples.shift_query "Y" ["A"; "Z"]) (Examples.model_of Examples.table_ABY)) = true.
Proof.
  destruct (shift_attribution_windows Examples.corr_undefined
              (Examples.shift_query "Y" ["A"; "Z"]) (Examples.model_of Examples.table_ABY)
              Examples.table_ABY "Y" "first" "second" ["A"; "Z"]
              eq_refl eq_refl eq_refl eq_refl eq_refl) as (contributions & main & -> & _).
  - by_computation.
  - exists "A". split; by_computation.
  - reflexivity.
Defined.

Lemma intervention_reports_present_outcomes_witness :
  dispatch.success
    (dispatch._handle_intervention Examples.corr_undefined
       (Examples.intervention_query "T" (of_Z 5) ["Y"; "Z"]) Examples.model_TY) = true.
Proof.
  destruct (intervention_reports_present_outcomes Examples.corr_undefined
              (Examples.intervention_query "T" (of_Z 5) ["Y"; "Z"]) Examples.model_TY
              Examples.table_TY "T" (of_Z 5) ["Y"; "Z"]
              eq_refl eq_refl eq_refl eq_refl) as (effects & -> & _).
  reflexivity.
Defined.

Lemma intervention_entry_values_witness :
  ∃ effects,
    dispatch._handle_intervention Examples.corr_undefined
      (Examples.intervention_query "T" (of_Z 5) ["Y"]) Examples.model_TY
      = dispatch.Intervention "T" (of_Z 5) effects ∧
    dict_get "Y" effects =
      Some {| dispatch.original_value := mean (cell "Y" <$> rows Examples.table_TY);
              dispatch.intervened_value := mean (cell "Y" <$> rows Examples.table_TY);
              dispatch.effect :=
                Num.sub (mean (cell "Y" <$> rows Examples.table_TY))
                  (mean (cell "Y" <$> rows Examples.table_TY)) |}.
Proof.
  destruct (intervention_entry_values Examples.corr_undefined
              (Examples.intervention_query "T" (of_Z 5) ["Y"]) Examples.model_TY
              Examples.table_TY "T" (of_Z 5) ["Y"]
              eq_refl eq_refl eq_refl eq_refl) as (effects & Hr & Hget).
  exists effects. split; [exact Hr|].
  apply (Hget "Y"); by_computation.
Defined.

Lemma acyclic_configuration_accepted_witness :
  ∃ G, SyntheticDataGenerator._build_graph
         (default [] (Config.variables Examples.triangle))
         (default [] (Config.edges Examples.triangle)) = Return G.
Proof.
  apply (acyclic_configuration_accepted
           (default [] (Config.variables Examples.triangle))
           (default [] (Config.edges Examples.triangle))).
  intros Hcyc. apply (cyclic_not_dag _ nx.empty) in Hcyc. vm_compute in Hcyc. discriminate.
Defined.

(** ** Parents and children of a constructed model *)

Lemma elem_of_List_filter {A} (p : A → bool) (l : list A) (x : A) :
  x ∈ List.filter p l ↔ x ∈ l ∧ p x = true.
Proof. by rewrite !list_elem_of_In, filter_In. Qed.

Lemma NoDup_List_filter {A} (p : A → bool) (l : list A) :
  NoDup l → NoDup (List.filter p l).
Proof.
  induction 1 as [|x l Hx Hl IH]; simpl; [constructor|].
  destruct (p x); [|done]. constructor; [|done].
  rewrite elem_of_List_filter. tauto.
Qed.

Lemma add_edge_NoDup u v g : NoDup (nx.edges g) → NoDup (nx.edges (nx.add_edge u v g)).
Proof.
  intros Hg. unfold nx.add_edge. cbv zeta.
  pose proof (add_node_edges v (nx.add_node u g)) as E1.
  pose proof (add_node_edges u g) as E2.
  case_decide as H; cbn [nx.edges]; rewrite E1, E2 in *; [done|].
  apply NoDup_app. split; [done|]. split; [|apply NoDup_singleton].
  intros x Hx ->%list_elem_of_singleton. done.
Qed.

Lemma add_edges_NoDup (es : list Config.Edge) (g : nx.DiGraph) :
  NoDup (nx.edges g) →
  NoDup (nx.edges (foldl (λ G edge, nx.add_edge (Config.edge_from edge)
                                      (Config.edge_to edge) G) g es)).
Proof.
  revert g. induction es as [|e es IH]; intros g Hg; simpl; [done|].
  by apply IH, add_edge_NoDup.
Qed.

Lemma add_nodes_spec (names : list string) (g : nx.DiGraph) (x : string) :
  x ∈ nx.nodes (foldl (λ G var_name, nx.add_node var_name G) g names) ↔
  x ∈ nx.nodes g ∨ x ∈ names.
Proof.
  revert g. induction names as [|n names IH]; intros g; simpl.
  - rewrite elem_of_nil. tauto.
  - rewrite IH, add_node_nodes, elem_of_cons. tauto.
Qed.

Lemma built_graph (config : Config.DagConfig) (g : nx.DiGraph) :
  CausalModel._build_networkx_graph config = Return g →
  ∃ vs es,
    Config.variables config = Some vs ∧ Config.edges config = Some es ∧
    (∀ x, x ∈ nx.nodes g ↔ Spec.mentions vs es x) ∧
    (∀ u v, (u, v) ∈ nx.edges g ↔ {| Config.edge_from := u; Config.edge_to := v |} ∈ es) ∧
    NoDup (nx.edges g).
Proof.
  unfold CausalModel._build_networkx_graph.
  destruct (Config.variables config) as [vs|]; [|done].
  destruct (Config.edges config) as [es|]; [|done].
  cbn [getkey mbind py_bind mret py_ret]. intros [= <-].
  exists vs, es. split; [done|]. split; [done|].
  set (g0 := foldl (λ graph var, nx.add_node var.1 graph) nx.empty vs).
  assert (g0 = foldl (λ G var_name, nx.add_node var_name G) nx.empty (keys vs)) as Hg0.
  { unfold g0, keys. by rewrite foldl_fmap. }
  destruct (add_edges_spec es g0) as [He Hn]. cbv zeta in He, Hn.
  split; [|split].
  - intros x. rewrite Hn, Hg0, add_nodes_spec. unfold Spec.mentions. simpl.
    rewrite elem_of_nil. tauto.
  - intros u v. rewrite He, Hg0, add_nodes_no_edges. simpl. rewrite elem_of_nil.
    split.
    + intros [[]|([a b] & Hin & [= -> ->])]. done.
    + intros Hin. right. by eexists.
  - apply add_edges_NoDup. rewrite Hg0, add_nodes_no_edges. constructor.
Qed.

Section Family.

Context {dowhy : Type}.
Variable json_load : string → py Config.DagConfig.
Variable DoWhyCausalModel :
  DataFrame → string → string → option nx.DiGraph →
  option (list string) → option (list string) → py dowhy.

Local Abbreviation init := (CausalModel.init json_load DoWhyCausalModel).
Local Abbreviation attach_data := (CausalModel.attach_data DoWhyCausalModel).

Lemma create_dowhy_model_keeps (self cm : CausalModel.t) :
  CausalModel._create_dowhy_model DoWhyCausalModel self = Return cm →
  CausalModel.dag_config cm = CausalModel.dag_config self ∧
  CausalModel.graph cm = CausalModel.graph self ∧
  CausalModel.data cm = CausalModel.data self ∧
  is_Some (CausalModel.dowhy_model cm).
Proof.
  unfold CausalModel._create_dowhy_model. intros H.
  repeat (case_match; simplify_eq); cbn; eauto.
Qed.

Lemma init_built (source : CausalModel.dag_source) (data : option DataFrame)
    (cm : CausalModel.t) :
  init source data = Return cm →
  CausalModel._load_dag_config json_load source = Return (CausalModel.dag_config cm) ∧
  CausalModel._build_networkx_graph (CausalModel.dag_config cm)
    = Return (CausalModel.graph cm) ∧
  CausalModel.data cm = data ∧
  (data = None → CausalModel.dowhy_model cm = None).
Proof.
  unfold CausalModel.init.
  destruct (CausalModel._load_dag_config json_load source) as [config|]; [|done].
  cbn [mbind py_bind].
  destruct (CausalModel._build_networkx_graph config) as [g|] eqn:Hg; [|done].
  cbn [mbind py_bind]. destruct data as [data|].
  - intros (Hc & Hgr & Hd & _)%create_dowhy_model_keeps.
    cbn in Hc, Hgr, Hd. rewrite Hc, Hgr. done.
  - intros [= <-]. done.
Qed.

(** The parents of a variable in a constructed model are the sources of the
    configured edges into it, each once; a name that is neither declared
    nor an end point of an edge raises networkx's error. *)
Theorem get_parents_edge_sources (source : CausalModel.dag_source)
    (data : option DataFrame) (cm : CausalModel.t) :
  init source data = Return cm →
  ∃ vs es,
    Config.variables (CausalModel.dag_config cm) = Some vs ∧
    Config.edges (CausalModel.dag_config cm) = Some es ∧
    ∀ variable,
      (Spec.mentions vs es variable →
       ∃ parents, CausalModel.get_parents cm variable = Return parents ∧
         NoDup parents ∧
         ∀ u, u ∈ parents ↔
              {| Config.edge_from := u; Config.edge_to := variable |} ∈ es) ∧
      (¬ Spec.mentions vs es variable →
       CausalModel.get_parents cm variable =
         Raise (LibraryError ("The node " ++ variable ++ " is not in the digraph."))).
Proof.
  intros (_ & Hg & _)%init_built.
  destruct (built_graph _ _ Hg) as (vs & es & Hvs & Hes & Hn & He & Hnd).
  exists vs, es. split; [done|]. split; [done|]. intros v.
  unfold CausalModel.get_parents, nx.predecessors. split; intros Hv.
  - rewrite decide_True by (by apply Hn). eexists. split; [done|]. split.
    + apply NoDup_fmap_2_strong; [|by apply NoDup_List_filter].
      intros [a b] [c d] [_ Hb%bool_decide_eq_true]%elem_of_List_filter
        [_ Hd%bool_decide_eq_true]%elem_of_List_filter. simpl in *. congruence.
    + intros u. rewrite list_elem_of_fmap. split.
      * intros ([a b] & -> & [Hin Hb%bool_decide_eq_true]%elem_of_List_filter).
        simpl in *. subst. by apply He.
      * intros Hin. exists (u, v). split; [done|]. apply elem_of_List_filter.
        split; [by apply He|by apply bool_decide_eq_true].
  - rewrite decide_False; [done|]. by rewrite Hn.
Qed.

(** The children of a variable are the targets of the configured edges out
    of it, each once. *)
Theorem get_children_edge_targets (source : CausalModel.dag_source)
    (data : option DataFrame) (cm : CausalModel.t) :
  init source data = Return cm →
  ∃ vs es,
    Config.variables (CausalModel.dag_config cm) = Some vs ∧
    Config.edges (CausalModel.dag_config cm) = Some es ∧
    ∀ variable,
      (Spec.mentions vs es variable →
       ∃ children, CausalModel.get_children cm variable = Return children ∧
         NoDup children ∧
         ∀ v, v ∈ children ↔
              {| Config.edge_from := variable; Config.edge_to := v |} ∈ es) ∧
      (¬ Spec.mentions vs es variable →
       CausalModel.get_children cm variable =
         Raise (LibraryError ("The node " ++ variable ++ " is not in the digraph."))).
Proof.
  intros (_ & Hg & _)%init_built.
  destruct (built_graph _ _ Hg) as (vs & es & Hvs & Hes & Hn & He & Hnd).
  exists vs, es. split; [done|]. split; [done|]. intros u.
  unfold CausalModel.get_children, nx.successors. split; intros Hu.
  - rewrite decide_True by (by apply Hn). eexists. split; [done|]. split.
    + apply NoDup_fmap_2_strong; [|by apply NoDup_List_filter].
      intros [a b] [c d] [_ Hb%bool_decide_eq_true]%elem_of_List_filter
        [_ Hd%bool_decide_eq_true]%elem_of_List_filter. simpl in *. congruence.
    + intros v. rewrite list_elem_of_fmap. split.
      * intros ([a b] & -> & [Hin Hb%bool_decide_eq_true]%elem_of_List_filter).
        simpl in *. subst. by apply He.
      * intros Hin. exists (u, v). split; [done|]. apply elem_of_List_filter.
        split; [by apply He|by apply bool_decide_eq_true].
  - rewrite decide_False; [done|]. by rewrite Hn.
Qed.

(** In a constructed model, [u] is among the parents of [v] exactly when
    [v] is among the children of [u]. *)
Theorem parents_children_dual (source : CausalModel.dag_source)
    (data : option DataFrame) (cm : CausalModel.t) (u v : string) :
  init source data = Return cm →
  (∃ parents, CausalModel.get_parents cm v = Return parents ∧ u ∈ parents) ↔
  (∃ children, CausalModel.get_children cm u = Return children ∧ v ∈ children).
Proof.
  intros (_ & Hg & _)%init_built.
  destruct (built_graph _ _ Hg) as (vs & es & Hvs & Hes & Hn & He & Hnd).
  assert (Hends : ∀ a b, (a, b) ∈ nx.edges (CausalModel.graph cm) →
            a ∈ nx.nodes (CausalModel.graph cm) ∧ b ∈ nx.nodes (CausalModel.graph cm)).
  { intros a b Hab%He. split; apply Hn; right; eexists; (split; [done|]); simpl; auto. }
  assert (Hp : (∃ parents, CausalModel.get_parents cm v = Return parents ∧ u ∈ parents)
               ↔ (u, v) ∈ nx.edges (CausalModel.graph cm)).
  { unfold CausalModel.get_parents, nx.predecessors. split.
    - intros (ps & Hps & Hu). case_decide; [|done]. injection Hps as <-.
      apply list_elem_of_fmap in Hu as ([a b] & -> & [Hin Hb%bool_decide_eq_true]%elem_of_List_filter).
      simpl in *. by subst.
    - intros Hin. rewrite decide_True by (by apply (Hends u v)).
      eexists. split; [done|]. apply list_elem_of_fmap. exists (u, v). split; [done|].
      apply elem_of_List_filter. split; [done|by apply bool_decide_eq_true]. }
  assert (Hc : (∃ children, CausalModel.get_children cm u = Return children ∧ v ∈ children)
               ↔ (u, v) ∈ nx.edges (CausalModel.graph cm)).
  { unfold CausalModel.get_children, nx.successors. split.
    - intros (cs & Hcs & Hv). case_decide; [|done]. injection Hcs as <-.
      apply list_elem_of_fmap in Hv as ([a b] & -> & [Hin Hb%bool_decide_eq_true]%elem_of_List_filter).
      simpl in *. by subst.
    - intros Hin. rewrite decide_True by (by apply (Hends u v)).
      eexists. split; [done|]. apply list_elem_of_fmap. exists (u, v). split; [done|].
      apply elem_of_List_filter. split; [done|by apply bool_decide_eq_true]. }
  by rewrite Hp, Hc.
Qed.

(** Constructing a model without a table and attaching one afterwards gives
    what constructing it with the table gives, provided the table has a
    column for every declared variable. *)
Theorem attach_after_init (source : CausalModel.dag_source) (cm : CausalModel.t)
    (data : DataFrame) :
  init source None = Return cm →
  (∀ v, v ∈ keys (default [] (Config.variables (CausalModel.dag_config cm))) →
        v ∈ columns data) →
  attach_data cm data = init source (Some data).
Proof.
  intros Hinit Hall. pose proof Hinit as (Hload & Hg & Hd & Hm)%init_built.
  specialize (Hm eq_refl).
  destruct (built_graph _ _ Hg) as (vs & es & Hvs & Hes & _).
  rewrite Hvs in Hall. simpl in Hall.
  unfold CausalModel.init. rewrite Hload. cbn [mbind py_bind]. rewrite Hg.
  cbn [mbind py_bind].
  unfold CausalModel.attach_data, CausalModel._validate_data.
  cbn [CausalModel.data CausalModel.dag_config]. rewrite Hvs.
  cbn [getkey mbind py_bind]. rewrite decide_True.
  - cbn [mbind py_bind]. by rewrite Hm.
  - apply set_eq. intros v. split; [|by intros ?%not_elem_of_empty].
    intros [H1 H2]%missing_variables_spec. destruct H2. auto.
Qed.

End Family.

Section WithoutData.

Context {dowhy estimand : Type}.
Variable corr : Series → Series → num.
Variable json_load : string → py Config.DagConfig.
Variable DoWhyCausalModel :
  DataFrame → string → string → option nx.DiGraph →
  option (list string) → option (list string) → py dowhy.
Variable dowhy_identify_effect : dowhy → py estimand.
Variable dowhy_estimate_effect : dowhy → estimand → string → py dispatch.estimate.

Local Abbreviation init := (CausalModel.init json_load DoWhyCausalModel).

(** A model constructed without a table answers no query: each of the five
    handlers returns a failure, whatever the query holds. *)
Theorem handlers_need_data (source : CausalModel.dag_source) (cm : CausalModel.t)
    (query_json : dispatch.Query) :
  init source None = Return cm →
  dispatch.success (dispatch._handle_effect_estimation dowhy_identify_effect
                      dowhy_estimate_effect query_json cm) = false ∧
  dispatch.success (dispatch._handle_anomaly_attribution corr query_json cm) = false ∧
  dispatch.success (dispatch._handle_distribution_shift_attribution corr query_json cm)
    = false ∧
  dispatch.success (dispatch._handle_intervention corr query_json cm) = false ∧
  dispatch.success (dispatch._handle_counterfactual corr query_json cm) = false.
Proof.
  intros (_ & _ & Hd & Hm)%init_built. specialize (Hm eq_refl).
  unfold dispatch._handle_effect_estimation, dispatch._handle_anomaly_attribution,
    dispatch._handle_distribution_shift_attribution, dispatch._handle_intervention,
    dispatch._handle_counterfactual, dispatch.identify_effect, dispatch.model_data.
  rewrite Hd, Hm.
  repeat split;
    repeat (match goal with
            | |- context [getkey _ ?x] => destruct x; cbn [getkey mbind py_bind]
            end); reflexivity.
Qed.

(** The order in which construction from a dict fails: a configuration
    without [variables], then one without [edges], raises [KeyError]
    whether or not a table is given; without a table nothing else is
    checked; with a table, a missing or empty treatment or outcome raises
    before DoWhy is called, and when both of DoWhy's constructions fail the
    error shows the second failure. *)
Theorem init_error_order (config : Config.DagConfig) (data : option DataFrame) :
  let r := init (CausalModel.FromDict config) data in
  (Config.variables config = None → r = Raise (KeyError "variables")) ∧
  (is_Some (Config.variables config) → Config.edges config = None →
   r = Raise (KeyError "edges")) ∧
  (is_Some (Config.variables config) → is_Some (Config.edges config) →
   (data = None →
    ∃ cm, r = Return cm ∧ CausalModel.dag_config cm = config ∧
          CausalModel.data cm = None ∧ CausalModel.dowhy_model cm = None) ∧
   (∀ table, data = Some table →
      (CausalModel.falsy (Config.treatment_variable config)
       || CausalModel.falsy (Config.outcome_variable config) = true →
       r = Raise (ValueError
             "DAG configuration must specify treatment_variable and outcome_variable")) ∧
      (∀ treatment outcome graph e1 e2,
         Config.treatment_variable config = Some treatment → treatment ≠ "" →
         Config.outcome_variable config = Some outcome → outcome ≠ "" →
         CausalModel._build_networkx_graph config = Return graph →
         DoWhyCausalModel table treatment outcome (Some graph)
           (Config.instruments config) (Config.confounders config) = Raise e1 →
         DoWhyCausalModel table treatment outcome None None
           (Config.confounders config) = Raise e2 →
         r = Raise (ValueError ("DoWhy model creation failed: " ++ str e2))))).
Proof.
  cbv zeta. unfold CausalModel.init, CausalModel._load_dag_config,
    CausalModel._build_networkx_graph. cbn [mbind py_bind].
  split; [by intros ->|]. split; [by intros [vs ->] ->|].
  intros [vs ->] [es ->]. cbn [getkey mbind py_bind mret py_ret]. split.
  - intros ->. eexists. split; [done|]. done.
  - intros table ->. unfold CausalModel._create_dowhy_model.
    cbn [CausalModel.data CausalModel.dag_config CausalModel.graph]. split.
    + by intros ->.
    + intros t o g e1 e2 Ht Ht' Ho Ho' [= <-] H1 H2. rewrite Ht, Ho.
      unfold CausalModel.falsy. rewrite !bool_decide_eq_false_2 by done.
      cbn [orb default from_option]. unfold id. by rewrite H1, H2.
Qed.

End WithoutData.

(** ** The configurations of [data/utils.py] *)

Lemma ranked_acyclic (rank : string → nat) (es : list Config.Edge) :
  (∀ e, e ∈ es → (rank (Config.edge_from e) < rank (Config.edge_to e))%nat) →
  ¬ Spec.cyclic es.
Proof.
  intros Hrank [v Hv].
  assert (∀ a b, tc (Spec.edge_rel es) a b → (rank a < rank b)%nat) as Hlt.
  { induction 1 as [a b (e & He & <- & <-)|a b c (e & He & <- & <-) _ IH].
    - by apply Hrank.
    - specialize (Hrank e He). lia. }
  specialize (Hlt v v Hv). lia.
Qed.

Lemma self_loop_cyclic (es : list Config.Edge) (v : string) :
  {| Config.edge_from := v; Config.edge_to := v |} ∈ es → Spec.cyclic es.
Proof. intros Hin. exists v. apply tc_once. by eexists. Qed.

Lemma simple_edges (t y : string) (cs : list string) (e : Config.Edge) :
  e ∈ default [] (Config.edges (utils.create_simple_treatment_outcome_dag t y cs)) ↔
  (∃ c, c ∈ cs ∧ (e = {| Config.edge_from := c; Config.edge_to := t |} ∨
                  e = {| Config.edge_from := c; Config.edge_to := y |})) ∨
  e = {| Config.edge_from := t; Config.edge_to := y |}.
Proof.
  unfold utils.create_simple_treatment_outcome_dag. cbn [Config.edges default from_option].
  unfold id. rewrite elem_of_app, list_elem_of_singleton.
  enough (∀ acc, e ∈ foldl (λ edges conf_name,
                    (edges ++ [{| Config.edge_from := conf_name; Config.edge_to := t |}])
                      ++ [{| Config.edge_from := conf_name; Config.edge_to := y |}])%list
                   acc cs ↔
            e ∈ acc ∨ ∃ c, c ∈ cs ∧
              (e = {| Config.edge_from := c; Config.edge_to := t |} ∨
               e = {| Config.edge_from := c; Config.edge_to := y |})) as H.
  { rewrite H, elem_of_nil. tauto. }
  induction cs as [|c cs IH]; intros acc; cbn [foldl].
  - split; [auto|]. intros [?|(c & []%elem_of_nil & _)]. done.
  - rewrite IH, !elem_of_app, !list_elem_of_singleton. split.
    + intros [[[?| ->]| ->]|(c' & Hc' & Hd)]; [by left|right; exists c..|right; exists c'].
      * split; [left|by left].
      * split; [left|by right].
      * split; [by right|done].
    + intros [?|(c' & [->|Hc']%elem_of_cons & Hd)]; [tauto|destruct Hd as [->| ->]; tauto|].
      right. by exists c'.
Qed.

Lemma mediation_edges (t m y : string) (cs : list string) (e : Config.Edge) :
  e ∈ default [] (Config.edges (utils.create_mediation_dag t m y cs)) ↔
  (∃ c, c ∈ cs ∧ (e = {| Config.edge_from := c; Config.edge_to := t |} ∨
                  e = {| Config.edge_from := c; Config.edge_to := m |} ∨
                  e = {| Config.edge_from := c; Config.edge_to := y |})) ∨
  e = {| Config.edge_from := t; Config.edge_to := m |} ∨
  e = {| Config.edge_from := m; Config.edge_to := y |} ∨
  e = {| Config.edge_from := t; Config.edge_to := y |}.
Proof.
  unfold utils.create_mediation_dag. cbn [Config.edges default from_option].
  unfold id. rewrite elem_of_app, !elem_of_cons, elem_of_nil.
  enough (∀ acc, e ∈ foldl (λ edges conf_name,
                    edges ++ [ {| Config.edge_from := conf_name; Config.edge_to := t |};
                               {| Config.edge_from := conf_name; Config.edge_to := m |};
                               {| Config.edge_from := conf_name; Config.edge_to := y |} ])%list
                   acc cs ↔
            e ∈ acc ∨ ∃ c, c ∈ cs ∧
              (e = {| Config.edge_from := c; Config.edge_to := t |} ∨
               e = {| Config.edge_from := c; Config.edge_to := m |} ∨
               e = {| Config.edge_from := c; Config.edge_to := y |})) as H.
  { rewrite H, elem_of_nil. tauto. }
  induction cs as [|c cs IH]; intros acc; cbn [foldl].
  - split; [auto|]. intros [?|(c & []%elem_of_nil & _)]. done.
  - rewrite IH, !elem_of_app, !elem_of_cons, elem_of_nil. split.
    + intros [[?|[->|[->|[->|[]]]]]|(c' & Hc' & Hd)];
        [by left|right; exists c..|right; exists c'].
      * split; [left|by left].
      * split; [left|by right; left].
      * split; [left|by right; right].
      * split; [by right|done].
    + intros [?|(c' & [->|Hc']%elem_of_cons & Hd)];
        [tauto|destruct Hd as [->|[->| ->]]; tauto|].
      right. by exists c'.
Qed.

Lemma generator_init_acyclic (config : Config.DagConfig) (seed : option Z) :
  ¬ Spec.cyclic (default [] (Config.edges config)) →
  ∃ graph,
    SyntheticDataGenerator._build_graph (default [] (Config.variables config))
      (default [] (Config.edges config)) = Return graph ∧
    SyntheticDataGenerator.init config seed =
      Return {| SyntheticDataGenerator.seed := seed;
                SyntheticDataGenerator.dag_config := config;
                SyntheticDataGenerator.variables := default [] (Config.variables config);
                SyntheticDataGenerator.edges := default [] (Config.edges config);
                SyntheticDataGenerator.graph := graph |}.
Proof.
  intros Hacyc. unfold SyntheticDataGenerator.init, SyntheticDataGenerator._build_graph.
  rewrite acyclic_is_dag; [|by rewrite add_nodes_no_edges|done].
  cbn [negb mbind py_bind mret py_ret]. by eexists.
Qed.

Lemma generator_init_cyclic (config : Config.DagConfig) (seed : option Z) :
  Spec.cyclic (default [] (Config.edges config)) →
  SyntheticDataGenerator.init config seed
    = Raise (ValueError "The provided graph is not a DAG").
Proof.
  intros Hcyc. unfold SyntheticDataGenerator.init, SyntheticDataGenerator._build_graph.
  by rewrite cyclic_not_dag.
Qed.

Lemma simple_acyclic (t y : string) (cs : list string) :
  t ≠ y ∧ (t ∉ cs) ∧ (y ∉ cs) →
  ¬ Spec.cyclic (default [] (Config.edges (utils.create_simple_treatment_outcome_dag t y cs))).
Proof.
  intros (Hty & Ht & Hy).
  apply (ranked_acyclic
           (λ x, if decide (x = y) then 2 else if decide (x = t) then 1 else 0)%nat).
  intros e [(c & Hc & [->| ->])| ->]%simple_edges; cbn [Config.edge_from Config.edge_to];
    repeat case_decide; subst; try done; lia.
Qed.

Lemma mediation_acyclic (t m y : string) (cs : list string) :
  t ≠ m ∧ m ≠ y ∧ t ≠ y ∧ (t ∉ cs) ∧ (m ∉ cs) ∧ (y ∉ cs) →
  ¬ Spec.cyclic (default [] (Config.edges (utils.create_mediation_dag t m y cs))).
Proof.
  intros (Htm & Hmy & Hty & Ht & Hm & Hy).
  apply (ranked_acyclic
           (λ x, if decide (x = y) then 3 else if decide (x = m) then 2
                 else if decide (x = t) then 1 else 0)%nat).
  intros e [(c & Hc & [->|[->| ->]])|[->|[->| ->]]]%mediation_edges;
    cbn [Config.edge_from Config.edge_to];
    repeat case_decide; subst; try done; lia.
Qed.

Section UtilsConfigurations.

Context {rng : Type}.
Variable random_seed : Z → py rng.
Variable topological_sort : nx.DiGraph → py (list string).

Local Abbreviation new := (SyntheticDataGenerator.new random_seed topological_sort).

Lemma new_acyclic (config : Config.DagConfig) (seed : Z) (st : rng) :
  random_seed seed = Return st →
  ¬ Spec.cyclic (default [] (Config.edges config)) →
  ∃ graph,
    SyntheticDataGenerator._build_graph (default [] (Config.variables config))
      (default [] (Config.edges config)) = Return graph ∧
    (∀ order, topological_sort graph = Return order →
       ∃ generator,
         new config seed = Return (generator, order, st) ∧
         SyntheticDataGenerator.dag_config generator = config ∧
         SyntheticDataGenerator.graph generator = graph) ∧
    (∀ e, topological_sort graph = Raise e → new config seed = Raise e).
Proof.
  intros Hseed Hacyc.
  destruct (generator_init_acyclic config (Some seed) Hacyc) as (graph & Hgraph & Hinit).
  exists graph. split; [done|]. unfold SyntheticDataGenerator.new.
  rewrite Hseed, Hinit. cbn [mbind py_bind SyntheticDataGenerator.graph]. split.
  - intros order ->. cbn [mbind py_bind mret py_ret]. by eexists.
  - by intros e ->.
Qed.

Lemma new_cyclic (config : Config.DagConfig) (seed : Z) (st : rng) :
  random_seed seed = Return st →
  Spec.cyclic (default [] (Config.edges config)) →
  new config seed = Raise (ValueError "The provided graph is not a DAG").
Proof.
  intros Hseed Hcyc. unfold SyntheticDataGenerator.new.
  rewrite Hseed. cbn [mbind py_bind]. by rewrite generator_init_cyclic.
Qed.

(** Once numpy has accepted the seed, the generator's constructor gets
    through the graph construction for the treatment-outcome configuration
    exactly when treatment and outcome differ and neither is listed as a
    confounder: it then returns the generator with whatever order the
    topological sort of the built graph returns.  Otherwise an edge runs
    from a name to itself and the constructor raises. *)
Theorem simple_dag_generator (treatment_name outcome_name : string)
    (confounder_names : list string) (seed : Z) (st : rng) :
  let config :=
    utils.create_simple_treatment_outcome_dag treatment_name outcome_name
      confounder_names in
  let distinct := treatment_name ≠ outcome_name ∧ (treatment_name ∉ confounder_names) ∧
                  (outcome_name ∉ confounder_names) in
  random_seed seed = Return st →
  (distinct →
   ∃ graph,
     SyntheticDataGenerator._build_graph (default [] (Config.variables config))
       (default [] (Config.edges config)) = Return graph ∧
     (∀ order, topological_sort graph = Return order →
        ∃ generator,
          new config seed = Return (generator, order, st) ∧
          SyntheticDataGenerator.dag_config generator = config ∧
          SyntheticDataGenerator.graph generator = graph) ∧
     (∀ e, topological_sort graph = Raise e → new config seed = Raise e)) ∧
  (¬ distinct →
   new config seed = Raise (ValueError "The provided graph is not a DAG")).
Proof.
  intros config distinct Hseed. subst config distinct. split.
  - intros Hd%simple_acyclic. by apply new_acyclic.
  - intros Hnot. apply (new_cyclic _ _ st Hseed).
    destruct (decide (treatment_name = outcome_name)) as [->|Hty].
    { apply (self_loop_cyclic _ outcome_name), simple_edges. by right. }
    destruct (decide (treatment_name ∈ confounder_names)) as [Ht|Ht].
    { apply (self_loop_cyclic _ treatment_name), simple_edges. left.
      exists treatment_name. split; [done|by left]. }
    destruct (decide (outcome_name ∈ confounder_names)) as [Hy|Hy]; [|tauto].
    apply (self_loop_cyclic _ outcome_name), simple_edges. left.
    exists outcome_name. split; [done|by right].
Qed.

(** Likewise for the mediation configuration: the constructor gets through
    exactly when treatment, mediator and outcome are pairwise different and
    none of them is listed as a confounder. *)
Theorem mediation_dag_generator (treatment_name mediator_name outcome_name : string)
    (confounder_names : list string) (seed : Z) (st : rng) :
  let config :=
    utils.create_mediation_dag treatment_name mediator_name outcome_name
      confounder_names in
  let distinct :=
    treatment_name ≠ mediator_name ∧ mediator_name ≠ outcome_name ∧
    treatment_name ≠ outcome_name ∧ (treatment_name ∉ confounder_names) ∧
    (mediator_name ∉ confounder_names) ∧ (outcome_name ∉ confounder_names) in
  random_seed seed = Return st →
  (distinct →
   ∃ graph,
     SyntheticDataGenerator._build_graph (default [] (Config.variables config))
       (default [] (Config.edges config)) = Return graph ∧
     (∀ order, topological_sort graph = Return order →
        ∃ generator,
          new config seed = Return (generator, order, st) ∧
          SyntheticDataGenerator.dag_config generator = config ∧
          SyntheticDataGenerator.graph generator = graph) ∧
     (∀ e, topological_sort graph = Raise e → new config seed = Raise e)) ∧
  (¬ distinct →
   new config seed = Raise (ValueError "The provided graph is not a DAG")).
Proof.
  intros config distinct Hseed. subst config distinct. split.
  - intros Hd%mediation_acyclic. by apply new_acyclic.
  - intros Hnot. apply (new_cyclic _ _ st Hseed).
    destruct (decide (treatment_name = mediator_name)) as [->|Htm].
    { apply (self_loop_cyclic _ mediator_name), mediation_edges. tauto. }
    destruct (decide (mediator_name = outcome_name)) as [->|Hmy].
    { apply (self_loop_cyclic _ outcome_name), mediation_edges. tauto. }
    destruct (decide (treatment_name = outcome_name)) as [->|Hty].
    { apply (self_loop_cyclic _ outcome_name), mediation_edges. tauto. }
    destruct (decide (treatment_name ∈ confounder_names)) as [Ht|Ht].
    { apply (self_loop_cyclic _ treatment_name), mediation_edges. left.
      exists treatment_name. split; [done|tauto]. }
    destruct (decide (mediator_name ∈ confounder_names)) as [Hm|Hm].
    { apply (self_loop_cyclic _ mediator_name), mediation_edges. left.
      exists mediator_name. split; [done|tauto]. }
    destruct (decide (outcome_name ∈ confounder_names)) as [Hy|Hy]; [|tauto].
    apply (self_loop_cyclic _ outcome_name), mediation_edges. left.
    exists outcome_name. split; [done|tauto].
Qed.

End UtilsConfigurations.

Lemma edge_coefficient (self : SyntheticDataGenerator.t) (te cs : num)
    (parent child : string) :
  (if SyntheticDataGenerator._is_treatment_outcome_relationship self parent child then te
   else if SyntheticDataGenerator._is_confounder_relationship self parent child then cs
   else of_Q (1 # 2))
  = Spec.coefficient (SyntheticDataGenerator.dag_config self) te cs parent child.
Proof.
  unfold SyntheticDataGenerator._is_treatment_outcome_relationship,
    SyntheticDataGenerator._is_confounder_relationship, Spec.coefficient.
  cbn zeta.
  repeat case_bool_decide; repeat case_decide; simpl; try done; tauto.
Qed.

(** In a treatment-outcome configuration with distinct names every edge has
    a declared role: the generator uses the treatment effect on the edge
    from treatment to outcome and the confounder strength on every other
    edge, never the default 0.5.  In a mediation configuration the edges
    into and out of the mediator have no role and get 0.5. *)
Theorem utils_edge_coefficients (self : SyntheticDataGenerator.t)
    (treatment_name mediator_name outcome_name : string)
    (confounder_names : list string) (treatment_effect confounder_strength : num) :
  let coeff parent child :=
    if SyntheticDataGenerator._is_treatment_outcome_relationship self parent child
    then treatment_effect
    else if SyntheticDataGenerator._is_confounder_relationship self parent child
    then confounder_strength
    else of_Q (1 # 2) in
  treatment_name ≠ outcome_name →
  treatment_name ∉ confounder_names →
  outcome_name ∉ confounder_names →
  (SyntheticDataGenerator.dag_config self =
     utils.create_simple_treatment_outcome_dag treatment_name outcome_name
       confounder_names →
   ∀ e, e ∈ default [] (Config.edges (SyntheticDataGenerator.dag_config self)) →
     coeff (Config.edge_from e) (Config.edge_to e)
     = if decide (Config.edge_from e = treatment_name) then treatment_effect
       else confounder_strength) ∧
  (SyntheticDataGenerator.dag_config self =
     utils.create_mediation_dag treatment_name mediator_name outcome_name
       confounder_names →
   mediator_name ≠ treatment_name → mediator_name ≠ outcome_name →
   mediator_name ∉ confounder_names →
   ∀ e, e ∈ default [] (Config.edges (SyntheticDataGenerator.dag_config self)) →
     coeff (Config.edge_from e) (Config.edge_to e)
     = if decide (Config.edge_from e = mediator_name ∨ Config.edge_to e = mediator_name)
       then of_Q (1 # 2)
       else if decide (Config.edge_from e = treatment_name) then treatment_effect
       else confounder_strength).
Proof.
  intros coeff Hty Ht Hy. subst coeff. cbv beta. split.
  - intros Hconfig e. rewrite edge_coefficient, Hconfig.
    intros [(c & Hc & [->| ->])| ->]%simple_edges;
      unfold Spec.coefficient, utils.create_simple_treatment_outcome_dag;
      cbn [Config.edge_from Config.edge_to Config.treatment_variable
           Config.outcome_variable Config.confounders default from_option]; unfold id;
      repeat case_decide; subst; try done; tauto.
  - intros Hconfig Hmt Hmy Hm e. rewrite edge_coefficient, Hconfig.
    intros [(c & Hc & [->|[->| ->]])|[->|[->| ->]]]%mediation_edges;
      unfold Spec.coefficient, utils.create_mediation_dag;
      cbn [Config.edge_from Config.edge_to Config.treatment_variable
           Config.outcome_variable Config.confounders default from_option]; unfold id;
      repeat case_decide; subst; try done; try tauto;
      match goal with H : _ ∨ _ |- _ => by destruct H; subst end.
Qed.

(** ** Validation of a dataset *)

Lemma List_filter_nil {A} (p : A → bool) (l : list A) :
  List.filter p l = [] ↔ ∀ x, x ∈ l → p x = false.
Proof.
  induction l as [|a l IH]; simpl.
  - split; [|done]. by intros _ x ?%elem_of_nil.
  - destruct (p a) eqn:Ha.
    + split; [done|]. intros H. specialize (H a (list_elem_of_here _ _)). congruence.
    + rewrite IH. split.
      * intros H x [->|?]%elem_of_cons; auto.
      * intros H x Hx. apply H. by right.
Qed.

Lemma remove_dups_length `{EqDecision A} (l : list A) :
  (length (remove_dups l) ≤ length l)%nat.
Proof. induction l as [|x l IH]; simpl; [done|]. case_decide; simpl; lia. Qed.

Lemma nunique_le (s : Series) : (utils.nunique s ≤ length s)%nat.
Proof.
  unfold utils.nunique. etrans; [apply remove_dups_length|].
  unfold valid. induction s as [|[x|] s IH]; cbn in *; lia.
Qed.

Section Validated.

Variables (data : DataFrame) (treatment_var outcome_var : string)
  (confounders : list string).

Local Abbreviation result :=
  (utils.validate_dataset_for_causal_analysis data treatment_var outcome_var confounders).
Local Abbreviation required := (treatment_var :: outcome_var :: confounders).
Local Abbreviation missing_cols :=
  (List.filter (λ col, bool_decide (col ∉ columns data)) required).

Lemma validation_errors :
  utils.errors result =
    (match missing_cols with [] => [] | _ => [utils.MissingColumns missing_cols] end
     ++ if decide (treatment_var ∈ columns data ∧
                   utils.nunique (cell treatment_var <$> rows data) < 2)%nat
        then [utils.InsufficientVariation] else [])%list ∧
  utils.valid result = bool_decide (utils.errors result = []).
Proof.
  unfold utils.validate_dataset_for_causal_analysis. cbv zeta.
  set (m := missing_cols).
  destruct m as [|c m]; repeat (case_decide || case_match);
    cbn [utils.errors utils.valid app]; try (split; reflexivity); try lia; tauto.
Qed.

(** The verdict of the validation: [valid] is true exactly when [errors] is
    empty, which is when treatment, outcome and every confounder have a
    column and the treatment column holds two different values or more;
    no warning changes it, and a table it accepts has at least two rows. *)
Theorem validation_verdict :
  (utils.valid result = true ↔ utils.errors result = []) ∧
  (utils.valid result = true ↔
     (∀ col, col ∈ required → col ∈ columns data) ∧
     (2 ≤ utils.nunique (cell treatment_var <$> rows data))%nat) ∧
  (utils.valid result = true → (2 ≤ len data)%nat).
Proof.
  destruct validation_errors as [He Hv].
  assert (utils.valid result = true ↔ utils.errors result = []) as H1.
  { rewrite Hv. apply bool_decide_eq_true. }
  assert (utils.valid result = true ↔
            (∀ col, col ∈ required → col ∈ columns data) ∧
            (2 ≤ utils.nunique (cell treatment_var <$> rows data))%nat) as H2.
  { rewrite H1, He. split.
    - intros [Hm Hu]%app_eq_nil.
      assert (missing_cols = []) as Hnil by (by destruct missing_cols).
      assert (∀ col, col ∈ required → col ∈ columns data) as Hall.
      { intros col Hcol. pose proof (proj1 (List_filter_nil _ _) Hnil col Hcol) as Hf.
        apply bool_decide_eq_false in Hf. by apply dec_stable. }
      split; [done|]. case_decide as Hd; [done|].
      destruct (decide (2 ≤ utils.nunique (cell treatment_var <$> rows data))%nat);
        [done|]. destruct Hd. split; [apply Hall; left|lia].
    - intros [Hall Hu].
      assert (missing_cols = []) as ->.
      { apply List_filter_nil. intros col Hcol. apply bool_decide_eq_false.
        intros Hn. by apply Hn, Hall. }
      rewrite decide_False by lia. done. }
  split; [done|]. split; [done|].
  intros [_ Hu]%H2. pose proof (nunique_le (cell treatment_var <$> rows data)) as Hle.
  rewrite length_fmap in Hle. unfold len. lia.
Qed.

End Validated.

(** ** Validation and attaching *)

Lemma keys_dict_set {V} (k k' : string) (v : V) (d : list (string * V)) :
  k ∈ keys (dict_set k' v d) ↔ k = k' ∨ k ∈ keys d.
Proof.
  rewrite !keys_dict_get, dict_get_set. case_decide; subst.
  - split; [auto|]. by intros _.
  - split; [auto|]. intros [->|?]; done.
Qed.

Lemma simple_variables (t y : string) (cs : list string) :
  ∃ vs, Config.variables (utils.create_simple_treatment_outcome_dag t y cs) = Some vs ∧
        ∀ k, k ∈ keys vs ↔ k ∈ t :: y :: cs.
Proof.
  unfold utils.create_simple_treatment_outcome_dag. cbn [Config.variables].
  eexists. split; [done|]. intros k.
  enough (∀ acc : list (string * Config.VarInfo),
            k ∈ keys (foldl (λ variables conf_name,
                               dict_set conf_name utils.continuous variables) acc cs)
            ↔ k ∈ keys acc ∨ k ∈ cs) as H.
  { rewrite H, !keys_dict_set, !elem_of_cons. unfold keys. simpl.
    rewrite elem_of_nil. tauto. }
  induction cs as [|c cs IH]; intros acc; cbn [foldl].
  - rewrite elem_of_nil. tauto.
  - rewrite IH, keys_dict_set, elem_of_cons. tauto.
Qed.

Section Attaching.

Context {dowhy : Type}.
Variable DoWhyCausalModel :
  DataFrame → string → string → option nx.DiGraph →
  option (list string) → option (list string) → py dowhy.

(** On a model of the treatment-outcome configuration, the validation and
    [attach_data] agree on the columns: when the validation reports missing
    columns, attaching the table raises the missing-variables error for the
    same names; when it reports none, attaching never raises that error. *)
Theorem validation_agrees_with_attach (cm : CausalModel.t) (data : DataFrame)
    (treatment_var outcome_var : string) (confounders : list string) :
  CausalModel.dag_config cm =
    utils.create_simple_treatment_outcome_dag treatment_var outcome_var confounders →
  let result :=
    utils.validate_dataset_for_causal_analysis data treatment_var outcome_var
      confounders in
  (∀ missing_cols, utils.MissingColumns missing_cols ∈ utils.errors result →
     missing_cols ≠ [] ∧
     CausalModel.attach_data DoWhyCausalModel cm data
       = Raise (MissingVariables (list_to_set missing_cols))) ∧
  ((∀ missing_cols, utils.MissingColumns missing_cols ∉ utils.errors result) →
   ∀ s, CausalModel.attach_data DoWhyCausalModel cm data ≠ Raise (MissingVariables s)).
Proof.
  intros Hconfig result. subst result.
  destruct (validation_errors data treatment_var outcome_var confounders) as [He _].
  destruct (simple_variables treatment_var outcome_var confounders) as (vs & Hvs & Hkeys).
  rewrite <- Hconfig in Hvs.
  set (required := treatment_var :: outcome_var :: confounders) in *.
  set (m := List.filter (λ col, bool_decide (col ∉ columns data)) required) in *.
  assert (Hm : ∀ v, v ∈ m ↔ v ∈ keys vs ∧ v ∉ columns data).
  { intros v. unfold m. rewrite elem_of_List_filter, bool_decide_eq_true, Hkeys. done. }
  split.
  - intros mc Hin. rewrite He in Hin.
    apply elem_of_app in Hin as [Hin|Hin];
      [|case_decide; [by apply list_elem_of_singleton in Hin|by apply elem_of_nil in Hin]].
    destruct m as [|c m'] eqn:Em; [by apply elem_of_nil in Hin|].
    apply list_elem_of_singleton in Hin as [= ->]. split; [done|].
    rewrite (attach_data_missing DoWhyCausalModel cm data vs Hvs).
    + do 2 f_equal. apply set_eq. intros v.
      rewrite missing_variables_spec, elem_of_list_to_set. symmetry. apply Hm.
    + exists c. apply Hm. left.
  - intros Hnone s.
    assert (m = []) as Hnil.
    { destruct m as [|c m'] eqn:Em; [done|]. destruct (Hnone (c :: m')).
      rewrite He. apply elem_of_app. left. left. }
    unfold CausalModel.attach_data, CausalModel._validate_data.
    cbn [CausalModel.data CausalModel.dag_config]. rewrite Hvs.
    cbn [getkey mbind py_bind]. rewrite decide_True.
    + cbn [mbind py_bind]. intros [msg [=]]%create_dowhy_model_errors.
    + apply set_eq. intros v. split; [|by intros ?%not_elem_of_empty].
      intros Hv%missing_variables_spec%Hm. rewrite Hnil in Hv. by apply elem_of_nil in Hv.
Qed.

End Attaching.

(** ** Generation of a data set *)

Lemma inverse_unit_interval (x : Qc) : (1 ≤ x)%Qc → (0 ≤ / x)%Qc ∧ (/ x ≤ 1)%Qc.
Proof.
  intros Hx.
  assert (0 < x)%Qc as Hpos by (eapply Qclt_le_trans; [|exact Hx]; done).
  pose proof (Qcinv_pos x Hpos) as Hinv. split; [by apply Qclt_le_weak|].
  apply (Qcmult_le_mono_pos_r _ _ x Hpos).
  rewrite Qcmult_inv_l, Qcmult_1_l; [done|].
  intros ->. by apply Qclt_not_le in Hpos.
Qed.

Lemma lookup_list_to_map_dict_get {V} (d : list (string * V)) (k : string) :
  (list_to_map d : gmap string V) !! k = dict_get k d.
Proof.
  induction d as [|[k' v] d IH]; simpl; [done|].
  case_decide as Hk; subst.
  - by rewrite lookup_insert_eq.
  - by rewrite lookup_insert_ne.
Qed.

Lemma dict_set_new {V} (k : string) (v : V) (d : list (string * V)) :
  k ∉ keys d → dict_set k v d = (d ++ [(k, v)])%list.
Proof.
  unfold keys. induction d as [|[k' v'] d IH]; simpl; [done|].
  intros Hk. apply not_elem_of_cons in Hk as [Hne Hk].
  rewrite decide_False by done. by rewrite IH.
Qed.

Lemma keys_dict_set_new {V} (k : string) (v : V) (d : list (string * V)) :
  k ∉ keys d → keys (dict_set k v d) = (keys d ++ [k])%list.
Proof. intros Hk. rewrite dict_set_new by done. unfold keys. by rewrite fmap_app. Qed.

Section Logistic.

Variable np_exp : num → num.

Lemma logistic_probability (q : Qc) :
  (∀ q, ∃ e, np_exp (Some q) = Some e ∧ (0 < e)%Qc) →
  ∃ p, SyntheticDataGenerator.logistic np_exp (Some q) = Some p ∧ (0 ≤ p)%Qc ∧ (p ≤ 1)%Qc.
Proof.
  intros Hexp. unfold SyntheticDataGenerator.logistic. cbn [fmap option_fmap option_map].
  destruct (Hexp (- q)%Qc) as (e & -> & He). cbn [of_Z Num.add Num.lift2].
  eexists. split; [done|].
  replace (Qc_of_Z 1 / (Qc_of_Z 1 + e))%Qc with (/ (1 + e))%Qc.
  - apply inverse_unit_interval.
    rewrite <- (Qcplus_0_r 1) at 1. apply Qcplus_le_mono_l. by apply Qclt_le_weak.
  - unfold Qcdiv. replace (Qc_of_Z 1) with 1%Qc by (by apply Qc_is_canon).
    by rewrite Qcmult_1_l.
Qed.

End Logistic.

Section GenerateData.

Context {rng : Type}.
Variable random_normal : num → num → nat → rng → Series * rng.
Variable random_binomial : num → nat → rng → Series * rng.
Variable random_binomial_each : Series → nat → rng → py Series * rng.
Variable random_choice : list num → option (list num) → nat → rng → Series * rng.
Variable np_exp : num → num.

Local Abbreviation generate_data :=
  (SyntheticDataGenerator.generate_data random_normal random_binomial
     random_binomial_each random_choice np_exp).
Local Abbreviation step :=
  (SyntheticDataGenerator.generate_variable random_normal random_binomial
     random_binomial_each random_choice np_exp).

Lemma generate_data_unfold self order n te noise cs st :
  generate_data self order n te noise cs st =
    let '(data, st') := foldl (step self n te noise cs) (Return [], st) order in
    (data ≫= from_dict, st').
Proof. reflexivity. Qed.

End GenerateData.

Section Outcome.

Context {rng : Type}.
Variable random_normal : num → num → nat → rng → Series * rng.
Variable random_binomial : num → nat → rng → Series * rng.
Variable random_binomial_each : Series → nat → rng → py Series * rng.
Variable random_choice : list num → option (list num) → nat → rng → Series * rng.
Variable np_exp : num → num.

Local Abbreviation generate_data :=
  (SyntheticDataGenerator.generate_data random_normal random_binomial
     random_binomial_each random_choice np_exp).

Local Abbreviation accumulate self var_name data te cs :=
  (λ (acc : py Series) (parent : string),
     values ← acc;
     parent_values ← getkey parent (data !! parent);
     let coeff :=
       if SyntheticDataGenerator._is_treatment_outcome_relationship self parent
            var_name then te
       else if SyntheticDataGenerator._is_confounder_relationship self parent
                 var_name then cs
       else of_Q (1 # 2) in
     SyntheticDataGenerator.iadd_scaled values coeff parent_values).

Lemma accumulate_raise (self : SyntheticDataGenerator.t) (var_name : string)
    (data : gmap string Series) (te cs : num) (parents : list string) (e : exn) :
  foldl (accumulate self var_name data te cs) (Raise e) parents = Raise e.
Proof. induction parents as [|p parents IH]; [done|]. exact IH. Qed.

Lemma accumulate_returns (self : SyntheticDataGenerator.t) (var_name : string)
    (data : gmap string Series) (te cs : num) (parents : list string)
    (values0 values : Series) :
  foldl (accumulate self var_name data te cs) (Return values0) parents = Return values →
  ∀ p, p ∈ parents → is_Some (data !! p).
Proof.
  revert values0. induction parents as [|p parents IH]; intros values0 Hfold q Hq.
  { by apply elem_of_nil in Hq. }
  cbn [foldl] in Hfold.
  destruct (data !! p) as [column|] eqn:Hp.
  - apply elem_of_cons in Hq as [->|Hq]; [by rewrite Hp|].
    cbn [mbind py_bind getkey] in Hfold.
    destruct (SyntheticDataGenerator.iadd_scaled values0 _ column) as [values1|e].
    + by apply (IH values1).
    + by rewrite accumulate_raise in Hfold.
  - cbn [mbind py_bind getkey] in Hfold. by rewrite accumulate_raise in Hfold.
Qed.

Lemma continuous_returns self n var_name parents data te noise cs st values :
  (SyntheticDataGenerator._generate_continuous_variable random_normal self n var_name
     parents data te noise cs st).1 = Return values →
  ∀ p, p ∈ parents → is_Some (data !! p).
Proof.
  unfold SyntheticDataGenerator._generate_continuous_variable.
  destruct parents as [|p0 parents]; [by intros _ p ?%elem_of_nil|].
  destruct (random_normal (of_Z 0) noise n st) as [values0 st1]. cbn [fst].
  apply accumulate_returns.
Qed.

Lemma binary_returns self n var_name parents data te noise cs st values :
  (SyntheticDataGenerator._generate_binary_variable random_binomial random_binomial_each
     np_exp self n var_name parents data te noise cs st).1 = Return values →
  ∀ p, p ∈ parents → is_Some (data !! p).
Proof.
  unfold SyntheticDataGenerator._generate_binary_variable.
  destruct parents as [|p0 parents]; [by intros _ p ?%elem_of_nil|].
  cbv zeta.
  destruct (foldl _ (Return (replicate n (of_Z 0))) (p0 :: parents)) as [lc|e] eqn:Hfold;
    [|done].
  intros _. by eapply accumulate_returns.
Qed.

Lemma categorical_returns self n var_name parents data te noise cs st values :
  (SyntheticDataGenerator._generate_categorical_variable random_binomial
     random_binomial_each random_choice np_exp self n var_name parents data te noise cs
     st).1 = Return values →
  ∀ p, p ∈ parents → is_Some (data !! p).
Proof.
  unfold SyntheticDataGenerator._generate_categorical_variable.
  destruct parents as [|p0 parents]; [by intros _ p ?%elem_of_nil|].
  destruct (SyntheticDataGenerator._generate_binary_variable _ _ _ _ _ _ _ _ _ _ _ _)
    as [[binary_version|e] st1] eqn:Hb; [|done].
  intros _. eapply binary_returns. by rewrite Hb.
Qed.

Local Abbreviation step :=
  (SyntheticDataGenerator.generate_variable random_normal random_binomial
     random_binomial_each random_choice np_exp).

Lemma step_raise self n te noise cs order e st :
  foldl (step self n te noise cs) (Raise e, st) order = (Raise e, st).
Proof. induction order as [|v order IH]; [done|]. exact IH. Qed.

Lemma step_returns self n te noise cs data st v data1 st1 :
  step self n te noise cs (Return data, st) v = (Return data1, st1) →
  v ∈ nx.nodes (SyntheticDataGenerator.graph self) ∧
  is_Some (dict_get v (SyntheticDataGenerator.variables self)) ∧
  ((Spec.typed (SyntheticDataGenerator.variables self) v ∧
    (∀ p, (p, v) ∈ nx.edges (SyntheticDataGenerator.graph self) → p ∈ keys data) ∧
    ∃ values, data1 = dict_set v values data) ∨
   (¬ Spec.typed (SyntheticDataGenerator.variables self) v ∧ data1 = data)).
Proof.
  unfold SyntheticDataGenerator.generate_variable. cbv beta zeta.
  destruct (dict_get v (SyntheticDataGenerator.variables self)) as [info|] eqn:Hinfo;
    [|done]. cbn [getkey].
  unfold nx.predecessors. case_decide as Hnode; [|done].
  set (parents := (List.filter _ _).*1).
  assert (Hparent : ∀ p, (p, v) ∈ nx.edges (SyntheticDataGenerator.graph self) →
            p ∈ parents).
  { intros p Hp. apply list_elem_of_fmap. exists (p, v). split; [done|].
    apply elem_of_List_filter. split; [done|by apply bool_decide_eq_true]. }
  assert (Hpresent : (∀ p, p ∈ parents →
                        is_Some ((list_to_map data : gmap string Series) !! p)) →
            ∀ p, (p, v) ∈ nx.edges (SyntheticDataGenerator.graph self) → p ∈ keys data).
  { intros H p Hp%Hparent%H. rewrite lookup_list_to_map_dict_get in Hp.
    by apply keys_dict_get. }
  assert (Htyped : default "continuous" (Config.type info)
                     ∈ ["binary"; "continuous"; "categorical"] →
            Spec.typed (SyntheticDataGenerator.variables self) v).
  { intros Ht. by exists info. }
  repeat case_decide.
  - destruct (SyntheticDataGenerator._generate_binary_variable _ _ _ _ _ _ _ _ _ _ _ _)
      as [[values|e] st2] eqn:Hgen; cbn [fst snd mbind py_bind mret py_ret]; [|done].
    intros [= <- <-]. split; [done|]. split; [done|]. left.
    split; [apply Htyped; rewrite H; left|]. split; [|by eexists].
    apply Hpresent. eapply binary_returns. by rewrite Hgen.
  - destruct (SyntheticDataGenerator._generate_continuous_variable _ _ _ _ _ _ _ _ _ _)
      as [[values|e] st2] eqn:Hgen; cbn [fst snd mbind py_bind mret py_ret]; [|done].
    intros [= <- <-]. split; [done|]. split; [done|]. left.
    split; [apply Htyped; rewrite H0; right; left|]. split; [|by eexists].
    apply Hpresent. eapply continuous_returns. by rewrite Hgen.
  - destruct (SyntheticDataGenerator._generate_categorical_variable _ _ _ _ _ _ _ _ _ _ _ _ _)
      as [[values|e] st2] eqn:Hgen; cbn [fst snd mbind py_bind mret py_ret]; [|done].
    intros [= <- <-]. split; [done|]. split; [done|]. left.
    split; [apply Htyped; rewrite H1; right; right; left|]. split; [|by eexists].
    apply Hpresent. eapply categorical_returns. by rewrite Hgen.
  - intros [= <- <-]. split; [done|]. split; [done|]. right. split; [|done].
    intros (info' & Hinfo' & Ht). simplify_eq.
    repeat apply elem_of_cons in Ht as [Ht|Ht]; [done..|by apply elem_of_nil in Ht].
Qed.

Lemma fold_returns self n te noise cs order :
  ∀ data st data' st',
    foldl (step self n te noise cs) (Return data, st) order = (Return data', st') →
    (∀ k, k ∈ keys data → Spec.typed (SyntheticDataGenerator.variables self) k) →
    (∀ k, k ∈ keys data' ↔
          k ∈ keys data ∨
          (k ∈ order ∧ Spec.typed (SyntheticDataGenerator.variables self) k)) ∧
    (∀ v, v ∈ order →
       v ∈ nx.nodes (SyntheticDataGenerator.graph self) ∧
       is_Some (dict_get v (SyntheticDataGenerator.variables self))) ∧
    (∀ v p, v ∈ order → Spec.typed (SyntheticDataGenerator.variables self) v →
       (p, v) ∈ nx.edges (SyntheticDataGenerator.graph self) →
       Spec.typed (SyntheticDataGenerator.variables self) p).
Proof.
  induction order as [|v order IH]; intros data st data' st' Hfold Hkeys.
  { injection Hfold as <- <-. split; [|split].
    - intros k. rewrite elem_of_nil. tauto.
    - by intros v ?%elem_of_nil.
    - by intros v p ?%elem_of_nil. }
  cbn [foldl] in Hfold.
  destruct (step self n te noise cs (Return data, st) v) as [[data1|e] st1] eqn:Hstep.
  2:{ by rewrite step_raise in Hfold. }
  destruct (step_returns _ _ _ _ _ _ _ _ _ _ Hstep) as (Hnode & Hdecl & Hcase).
  assert (Hkeys1 : ∀ k, k ∈ keys data1 ↔
            k ∈ keys data ∨ (k = v ∧ Spec.typed (SyntheticDataGenerator.variables self) k)).
  { intros k. destruct Hcase as [(Ht & _ & values & ->)|[Hnt ->]].
    - rewrite keys_dict_set. split; [intros [->|?]; [right|left]; done|].
      intros [?|[-> _]]; auto.
    - split; [auto|]. intros [?|[-> ?]]; done. }
  destruct (IH data1 st1 data' st' Hfold) as (IH1 & IH2 & IH3).
  { intros k [?|[_ ?]]%Hkeys1; auto. }
  split; [|split].
  - intros k. rewrite IH1, Hkeys1, elem_of_cons. split.
    + intros [[?|[-> ?]]|[? ?]]; auto.
    + intros [?|[[->|?] ?]]; auto.
  - intros w [->|Hw]%elem_of_cons; [done|by apply IH2].
  - intros w p [->|Hw]%elem_of_cons Ht Hedge; [|by eapply IH3].
    destruct Hcase as [(_ & Hp & _)|[Hnt _]]; [|done]. by apply Hkeys, Hp.
Qed.

(** Whenever [generate_data] returns a frame: every variable of the
    topological order is a node of the graph and declared; the frame's
    columns are the variables declared with one of the three types, a
    variable of another type getting none; and every parent of such a
    variable has such a type too.  So an undeclared variable, or a parent
    of an unknown type, makes [generate_data] raise. *)
Theorem generate_data_outcome (self : SyntheticDataGenerator.t)
    (topological_order : list string) (n_samples : nat)
    (treatment_effect noise_std confounder_strength : num) (st st' : rng)
    (df : DataFrame) :
  generate_data self topological_order n_samples treatment_effect noise_std
    confounder_strength st = (Return df, st') →
  (∀ v, v ∈ topological_order →
     v ∈ nx.nodes (SyntheticDataGenerator.graph self) ∧
     is_Some (dict_get v (SyntheticDataGenerator.variables self))) ∧
  (∀ c, c ∈ columns df ↔
     c ∈ topological_order ∧ Spec.typed (SyntheticDataGenerator.variables self) c) ∧
  (∀ v p, v ∈ topological_order →
     Spec.typed (SyntheticDataGenerator.variables self) v →
     (p, v) ∈ nx.edges (SyntheticDataGenerator.graph self) →
     Spec.typed (SyntheticDataGenerator.variables self) p).
Proof.
  rewrite generate_data_unfold. cbv zeta.
  set (r := foldl _ (Return [], st) topological_order).
  assert (foldl (step self n_samples treatment_effect noise_std confounder_strength)
            (Return [], st) topological_order = r) as Hfold by reflexivity.
  destruct r as [[data|e] st1]; cbn [mbind py_bind]; [|by intros [=]].
  intros [= Hdf <-].
  destruct (fold_returns _ _ _ _ _ _ _ _ _ _ Hfold) as (H1 & H2 & H3).
  { by intros k ?%elem_of_nil. }
  split; [done|]. split; [|done].
  intros c. assert (columns df = keys data) as ->.
  { unfold from_dict in Hdf. destruct data as [|[k first] data'].
    - by injection Hdf as <-.
    - case_decide; [|done]. by injection Hdf as <-. }
  rewrite H1. unfold keys at 1. simpl. rewrite elem_of_nil. tauto.
Qed.

End Outcome.

(** ** The shape of a generated frame *)

Lemma iadd_scaled_length (values : Series) (coeff : num) (parent_values result : Series) :
  SyntheticDataGenerator.iadd_scaled values coeff parent_values = Return result →
  length result = length values.
Proof.
  unfold SyntheticDataGenerator.iadd_scaled. case_decide as Hlen.
  - intros [= <-]. rewrite length_zip_with. lia.
  - destruct parent_values as [|x [|]]; [done| |done].
    intros [= <-]. by rewrite length_fmap.
Qed.

Lemma np_where_length (condition : list bool) (x : Series) (y : num) (result : Series) :
  length x = length condition →
  SyntheticDataGenerator.np_where condition x y = Return result →
  length result = length condition.
Proof.
  intros Hlen. unfold SyntheticDataGenerator.np_where. rewrite decide_True by done.
  intros [= <-]. rewrite length_zip_with. lia.
Qed.

Section Shape.

Context {rng : Type}.
Variable random_normal : num → num → nat → rng → Series * rng.
Variable random_binomial : num → nat → rng → Series * rng.
Variable random_binomial_each : Series → nat → rng → py Series * rng.
Variable random_choice : list num → option (list num) → nat → rng → Series * rng.
Variable np_exp : num → num.

Local Abbreviation generate_data :=
  (SyntheticDataGenerator.generate_data random_normal random_binomial
     random_binomial_each random_choice np_exp).
Local Abbreviation sized n :=
  (Spec.draws_sized n random_normal random_binomial random_binomial_each random_choice).
Local Abbreviation step :=
  (SyntheticDataGenerator.generate_variable random_normal random_binomial
     random_binomial_each random_choice np_exp).

Local Abbreviation accumulate self var_name data te cs :=
  (λ (acc : py Series) (parent : string),
     values ← acc;
     parent_values ← getkey parent (data !! parent);
     let coeff :=
       if SyntheticDataGenerator._is_treatment_outcome_relationship self parent
            var_name then te
       else if SyntheticDataGenerator._is_confounder_relationship self parent
                 var_name then cs
       else of_Q (1 # 2) in
     SyntheticDataGenerator.iadd_scaled values coeff parent_values).

Lemma accumulate_length (self : SyntheticDataGenerator.t) (var_name : string)
    (data : gmap string Series) (te cs : num) (parents : list string)
    (values0 values : Series) :
  foldl (accumulate self var_name data te cs) (Return values0) parents = Return values →
  length values = length values0.
Proof.
  revert values0. induction parents as [|p parents IH]; intros values0 Hfold.
  { by injection Hfold as <-. }
  cbn [foldl] in Hfold.
  destruct (data !! p) as [column|]; cbn [mbind py_bind getkey] in Hfold.
  - destruct (SyntheticDataGenerator.iadd_scaled values0 _ column) as [values1|e] eqn:Hadd.
    + rewrite (IH values1 Hfold). by eapply iadd_scaled_length.
    + by rewrite accumulate_raise in Hfold.
  - by rewrite accumulate_raise in Hfold.
Qed.

Lemma continuous_length self n var_name parents data te noise cs st values :
  sized n →
  (SyntheticDataGenerator._generate_continuous_variable random_normal self n var_name
     parents data te noise cs st).1 = Return values →
  length values = n.
Proof.
  intros Hd. unfold SyntheticDataGenerator._generate_continuous_variable.
  destruct parents as [|p0 parents].
  - pose proof (Spec.normal_size _ _ _ _ _ Hd (of_Z 0) (of_Z 1) st) as Hn.
    destruct (random_normal (of_Z 0) (of_Z 1) n st) as [values0 st1]. cbn [fst] in *.
    by intros [= <-].
  - pose proof (Spec.normal_size _ _ _ _ _ Hd (of_Z 0) noise st) as Hn.
    destruct (random_normal (of_Z 0) noise n st) as [values0 st1]. cbn [fst] in *.
    intros Hfold%accumulate_length. congruence.
Qed.

Lemma binary_length self n var_name parents data te noise cs st values :
  sized n →
  (SyntheticDataGenerator._generate_binary_variable random_binomial random_binomial_each
     np_exp self n var_name parents data te noise cs st).1 = Return values →
  length values = n.
Proof.
  intros Hd. unfold SyntheticDataGenerator._generate_binary_variable.
  destruct parents as [|p0 parents].
  - pose proof (Spec.binomial_size _ _ _ _ _ Hd (of_Q (1 # 2)) st) as Hn.
    destruct (random_binomial (of_Q (1 # 2)) n st) as [values0 st1]. cbn [fst] in *.
    by intros [= <-].
  - cbv zeta.
    destruct (foldl _ (Return (replicate n (of_Z 0))) (p0 :: parents)) as [lc|e]; [|done].
    apply (Spec.binomial_each_size _ _ _ _ _ Hd).
Qed.

Lemma categorical_length self n var_name parents data te noise cs st values :
  sized n →
  (SyntheticDataGenerator._generate_categorical_variable random_binomial
     random_binomial_each random_choice np_exp self n var_name parents data te noise cs
     st).1 = Return values →
  length values = n.
Proof.
  intros Hd. unfold SyntheticDataGenerator._generate_categorical_variable.
  destruct parents as [|p0 parents].
  - pose proof (Spec.choice_size _ _ _ _ _ Hd [of_Z 0; of_Z 1; of_Z 2] None st) as Hn.
    destruct (random_choice _ None n st) as [values0 st1]. cbn [fst] in *.
    by intros [= <-].
  - destruct (SyntheticDataGenerator._generate_binary_variable _ _ _ _ _ _ _ _ _ _ _ _)
      as [[binary_version|e] st1] eqn:Hb; [|done].
    assert (length binary_version = n) as Hbn.
    { eapply binary_length; [done|]. by rewrite Hb. }
    pose proof (Spec.choice_size _ _ _ _ _ Hd [of_Z 1; of_Z 2]
                  (Some [of_Q (7 # 10); of_Q (3 # 10)]) st1) as Hn.
    destruct (random_choice _ (Some _) n st1) as [choice st2]. cbn [fst] in *.
    intros Hw%np_where_length; rewrite length_fmap in *; congruence.
Qed.

Lemma step_sized self n te noise cs data st v data1 st1 :
  sized n →
  Spec.typed (SyntheticDataGenerator.variables self) v →
  step self n te noise cs (Return data, st) v = (Return data1, st1) →
  ∃ values, data1 = dict_set v values data ∧ length values = n.
Proof.
  intros Hd (info & Hinfo & Htype).
  unfold SyntheticDataGenerator.generate_variable. cbv beta zeta.
  rewrite Hinfo. cbn [getkey].
  destruct (nx.predecessors _ v) as [parents|e]; [|done].
  repeat case_decide.
  - destruct (SyntheticDataGenerator._generate_binary_variable _ _ _ _ _ _ _ _ _ _ _ _)
      as [[values|e] st2] eqn:Hgen; cbn [fst snd mbind py_bind mret py_ret]; [|done].
    intros [= <- <-]. exists values. split; [done|].
    eapply binary_length; [done|]. by rewrite Hgen.
  - destruct (SyntheticDataGenerator._generate_continuous_variable _ _ _ _ _ _ _ _ _ _)
      as [[values|e] st2] eqn:Hgen; cbn [fst snd mbind py_bind mret py_ret]; [|done].
    intros [= <- <-]. exists values. split; [done|].
    eapply continuous_length; [done|]. by rewrite Hgen.
  - destruct (SyntheticDataGenerator._generate_categorical_variable _ _ _ _ _ _ _ _ _ _ _ _ _)
      as [[values|e] st2] eqn:Hgen; cbn [fst snd mbind py_bind mret py_ret]; [|done].
    intros [= <- <-]. exists values. split; [done|].
    eapply categorical_length; [done|]. by rewrite Hgen.
  - intros _. exfalso.
    repeat apply elem_of_cons in Htype as [Htype|Htype]; [done..|by apply elem_of_nil in Htype].
Qed.

Lemma fold_sized self n te noise cs :
  sized n →
  ∀ order processed data st data' st',
    keys data = processed →
    Forall (λ item : string * Series, length item.2 = n) data →
    NoDup (processed ++ order) →
    (∀ v, v ∈ order → Spec.typed (SyntheticDataGenerator.variables self) v) →
    foldl (step self n te noise cs) (Return data, st) order = (Return data', st') →
    keys data' = (processed ++ order)%list ∧
    Forall (λ item : string * Series, length item.2 = n) data'.
Proof.
  intros Hd. induction order as [|v order IH];
    intros processed data st data' st' Hkeys Hall Hnd Htyped Hfold.
  { injection Hfold as <- <-. by rewrite app_nil_r. }
  cbn [foldl] in Hfold.
  destruct (step self n te noise cs (Return data, st) v) as [[data1|e] st1] eqn:Hstep.
  2:{ by rewrite step_raise in Hfold. }
  destruct (step_sized _ _ _ _ _ _ _ _ _ _ Hd (Htyped v (list_elem_of_here _ _)) Hstep)
    as (values & -> & Hlen).
  assert (v ∉ keys data) as Hfresh.
  { rewrite Hkeys. apply NoDup_app in Hnd as (_ & Hdis & _). intros Hin.
    apply (Hdis v Hin). left. }
  destruct (IH (processed ++ [v])%list (dict_set v values data) st1 data' st')
    as [Hkeys' Hall']; [| | | |done|].
  - rewrite keys_dict_set_new by done. by rewrite Hkeys.
  - rewrite dict_set_new by done. apply Forall_app. split; [done|].
    by apply Forall_singleton.
  - by rewrite <- app_assoc.
  - intros w Hw. apply Htyped. by right.
  - split; [|done]. by rewrite Hkeys', <- app_assoc.
Qed.

(** Whenever [generate_data] returns a frame for a topological order
    without repetition whose variables are all declared with one of the
    three types, and numpy's draws have the size asked for: the columns of
    the frame are the variables in topological order and the frame has
    [n_samples] rows (none when there is no variable). *)
Theorem generate_data_frame (self : SyntheticDataGenerator.t)
    (topological_order : list string) (n_samples : nat)
    (treatment_effect noise_std confounder_strength : num) (st st' : rng)
    (df : DataFrame) :
  sized n_samples →
  NoDup topological_order →
  (∀ v, v ∈ topological_order → Spec.typed (SyntheticDataGenerator.variables self) v) →
  generate_data self topological_order n_samples treatment_effect noise_std
    confounder_strength st = (Return df, st') →
  columns df = topological_order ∧
  len df = match topological_order with [] => 0%nat | _ => n_samples end.
Proof.
  intros Hd Hnd Htyped. rewrite generate_data_unfold. cbv zeta.
  destruct (foldl _ (Return [], st) topological_order) as [[data|e] st1] eqn:Hfold;
    cbn [mbind py_bind]; [|by intros [=]].
  intros [= Hdf <-].
  destruct (fold_sized self n_samples treatment_effect noise_std confounder_strength Hd
              topological_order [] [] st data st1) as [Hkeys Hall]; [done|constructor|done..|].
  cbn [app] in Hkeys.
  unfold from_dict in Hdf. destruct data as [|[k first] data'] eqn:Edata.
  - injection Hdf as <-. by rewrite <- Hkeys.
  - case_decide; [|done]. injection Hdf as <-. cbn [columns]. split; [done|].
    unfold len. cbn [rows]. rewrite length_fmap, length_seq.
    apply Forall_cons in Hall as [Hfirst _]. cbn [snd] in Hfirst.
    rewrite <- Hkeys. done.
Qed.

End Shape.

Lemma foldl_ext_elem {A B} (f g : A → B → A) (l : list B) (a : A) :
  (∀ x b, b ∈ l → f x b = g x b) → foldl f a l = foldl g a l.
Proof.
  revert a. induction l as [|b l IH]; intros a H; simpl; [done|].
  rewrite (H a b) by left. apply IH. intros x c Hc. apply H. by right.
Qed.

Section Reach.

Context {rng : Type}.
Variable random_normal : num → num → nat → rng → Series * rng.
Variable random_binomial : num → nat → rng → Series * rng.
Variable random_binomial_each : Series → nat → rng → py Series * rng.
Variable random_choice : list num → option (list num) → nat → rng → Series * rng.
Variable np_exp : num → num.

Local Abbreviation continuous_variable :=
  (SyntheticDataGenerator._generate_continuous_variable random_normal).
Local Abbreviation binary_variable :=
  (SyntheticDataGenerator._generate_binary_variable random_binomial
     random_binomial_each np_exp).
Local Abbreviation categorical_variable :=
  (SyntheticDataGenerator._generate_categorical_variable random_binomial
     random_binomial_each random_choice np_exp).

Lemma same_columns (self : SyntheticDataGenerator.t) (n : nat) (var_name : string)
    (parents : list string) (data : gmap string Series) (te te' noise cs cs' : num)
    (st : rng) :
  (∀ p, p ∈ parents →
     (if SyntheticDataGenerator._is_treatment_outcome_relationship self p var_name then te
      else if SyntheticDataGenerator._is_confounder_relationship self p var_name then cs
      else of_Q (1 # 2)) =
     (if SyntheticDataGenerator._is_treatment_outcome_relationship self p var_name then te'
      else if SyntheticDataGenerator._is_confounder_relationship self p var_name then cs'
      else of_Q (1 # 2))) →
  continuous_variable self n var_name parents data te noise cs st
    = continuous_variable self n var_name parents data te' noise cs' st ∧
  binary_variable self n var_name parents data te noise cs st
    = binary_variable self n var_name parents data te' noise cs' st ∧
  categorical_variable self n var_name parents data te noise cs st
    = categorical_variable self n var_name parents data te' noise cs' st.
Proof.
  intros Hco.
  assert (Hfold : ∀ values0,
    foldl (λ acc parent,
             values ← acc;
             parent_values ← getkey parent (data !! parent);
             let coeff :=
               if SyntheticDataGenerator._is_treatment_outcome_relationship self parent
                    var_name then te
               else if SyntheticDataGenerator._is_confounder_relationship self parent
                         var_name then cs
               else of_Q (1 # 2) in
             SyntheticDataGenerator.iadd_scaled values coeff parent_values)
          (Return values0) parents =
    foldl (λ acc parent,
             values ← acc;
             parent_values ← getkey parent (data !! parent);
             let coeff :=
               if SyntheticDataGenerator._is_treatment_outcome_relationship self parent
                    var_name then te'
               else if SyntheticDataGenerator._is_confounder_relationship self parent
                         var_name then cs'
               else of_Q (1 # 2) in
             SyntheticDataGenerator.iadd_scaled values coeff parent_values)
          (Return values0) parents).
  { intros values0. apply foldl_ext_elem. intros x p Hp. cbv zeta.
    by rewrite (Hco p Hp). }
  assert (Hb : binary_variable self n var_name parents data te noise cs st
               = binary_variable self n var_name parents data te' noise cs' st).
  { unfold SyntheticDataGenerator._generate_binary_variable.
    destruct parents as [|p parents]; [done|]. cbv zeta. by rewrite Hfold. }
  split; [|split; [done|]].
  - unfold SyntheticDataGenerator._generate_continuous_variable.
    destruct parents as [|p parents]; [done|].
    destruct (random_normal (of_Z 0) noise n st) as [values st1]. by rewrite Hfold.
  - unfold SyntheticDataGenerator._generate_categorical_variable.
    destruct parents as [|p parents]; [done|]. by rewrite Hb.
Qed.

(** The treatment effect reaches a generated column only for the declared
    outcome with the declared treatment among its parents, and the
    confounder strength only for the declared treatment or outcome with a
    declared confounder among its parents: for any other variable the
    three generators return the same column and state whatever the two
    values are. *)
Theorem effect_reaches_outcome_only (self : SyntheticDataGenerator.t) (n_samples : nat)
    (var_name : string) (parents : list string) (data : gmap string Series)
    (treatment_effect treatment_effect' noise_std confounder_strength
       confounder_strength' : num) (st : rng) :
  let config := SyntheticDataGenerator.dag_config self in
  let treatment := default "" (Config.treatment_variable config) in
  let outcome := default "" (Config.outcome_variable config) in
  (var_name ≠ outcome ∨ treatment ∉ parents →
   continuous_variable self n_samples var_name parents data treatment_effect noise_std
     confounder_strength st
   = continuous_variable self n_samples var_name parents data treatment_effect' noise_std
       confounder_strength st ∧
   binary_variable self n_samples var_name parents data treatment_effect noise_std
     confounder_strength st
   = binary_variable self n_samples var_name parents data treatment_effect' noise_std
       confounder_strength st ∧
   categorical_variable self n_samples var_name parents data treatment_effect noise_std
     confounder_strength st
   = categorical_variable self n_samples var_name parents data treatment_effect' noise_std
       confounder_strength st) ∧
  ((var_name ≠ treatment ∧ var_name ≠ outcome) ∨
   (∀ p, p ∈ parents → p ∉ default [] (Config.confounders config)) →
   continuous_variable self n_samples var_name parents data treatment_effect noise_std
     confounder_strength st
   = continuous_variable self n_samples var_name parents data treatment_effect noise_std
       confounder_strength' st ∧
   binary_variable self n_samples var_name parents data treatment_effect noise_std
     confounder_strength st
   = binary_variable self n_samples var_name parents data treatment_effect noise_std
       confounder_strength' st ∧
   categorical_variable self n_samples var_name parents data treatment_effect noise_std
     confounder_strength st
   = categorical_variable self n_samples var_name parents data treatment_effect noise_std
       confounder_strength' st).
Proof.
  intros config treatment outcome. subst config treatment outcome. split.
  - intros Hcond. apply same_columns. intros p Hp.
    unfold SyntheticDataGenerator._is_treatment_outcome_relationship. cbv zeta.
    destruct Hcond as [Hne|Hnp].
    + rewrite (bool_decide_eq_false_2 (var_name = _)) by done.
      by rewrite andb_false_r.
    + rewrite (bool_decide_eq_false_2 (p = _)) by (by intros ->). done.
  - intros Hcond. apply same_columns. intros p Hp.
    unfold SyntheticDataGenerator._is_confounder_relationship. cbv zeta.
    destruct Hcond as [[Hnt Hny]|Hnp].
    + rewrite (bool_decide_eq_false_2 (var_name = default "" (Config.treatment_variable _)))
        by done.
      rewrite (bool_decide_eq_false_2 (var_name = default "" (Config.outcome_variable _)))
        by done.
      by rewrite andb_false_r.
    + rewrite (bool_decide_eq_false_2 (p ∈ _)) by (by apply Hnp). done.
Qed.

End Reach.

Lemma Qc_of_nat_pos (n : nat) : (0 < n)%nat → Qc_of_nat n ≠ 0%Qc.
Proof.
  intros Hn Heq. unfold Qc_of_nat, Qc_of_Z in Heq.
  apply (f_equal this) in Heq. simpl in Heq.
  apply (f_equal Qnum) in Heq. simpl in Heq. lia.
Qed.

Lemma linspace_spec (start stop : Qc) (n : nat) :
  length (SyntheticDataGenerator.linspace start stop n) = n ∧
  ((1 ≤ n)%nat → SyntheticDataGenerator.linspace start stop n !! 0%nat = Some (Some start)) ∧
  ((2 ≤ n)%nat →
   SyntheticDataGenerator.linspace start stop n !! (n - 1)%nat = Some (Some stop)).
Proof.
  unfold SyntheticDataGenerator.linspace.
  destruct n as [|[|n]]; [by repeat split; try lia..|].
  split; [by rewrite length_fmap, length_seq|]. split.
  - intros _. cbn [seq fmap list_fmap lookup list_lookup]. do 2 f_equal.
    replace (Qc_of_nat 0) with 0%Qc by (by apply Qc_is_canon). ring.
  - intros _. rewrite list_lookup_fmap, lookup_seq_lt by lia.
    cbn [fmap option_fmap option_map]. do 2 f_equal.
    replace (0 + (S (S n) - 1))%nat with (S n) by lia.
    replace (S (S n) - 1)%nat with (S n) by lia.
    pose proof (Qc_of_nat_pos (S n) ltac:(lia)) as Hne.
    field. done.
Qed.

Section Multiple.

Context {rng : Type}.
Variable random_normal : num → num → nat → rng → Series * rng.
Variable random_binomial : num → nat → rng → Series * rng.
Variable random_binomial_each : Series → nat → rng → py Series * rng.
Variable random_choice : list num → option (list num) → nat → rng → Series * rng.
Variable np_exp : num → num.
Variable random_seed : Z → py rng.

Local Abbreviation generate_data :=
  (SyntheticDataGenerator.generate_data random_normal random_binomial
     random_binomial_each random_choice np_exp).
Local Abbreviation generate_multiple_datasets :=
  (SyntheticDataGenerator.generate_multiple_datasets random_normal random_binomial
     random_binomial_each random_choice np_exp random_seed).

(** The body of the loop of [generate_multiple_datasets] *)
Local Abbreviation one self topological_order n_samples noise_std confounder_strength :=
  (λ (acc : py (list (DataFrame * num)) * rng) (item : nat * num),
     let '(i, effect) := item in
     match acc with
     | (Raise e, st) => (Raise e, st)
     | (Return datasets, st) =>
         match SyntheticDataGenerator.seed self with
         | None =>
             (Raise (TypeError
                "unsupported operand type(s) for +: 'NoneType' and 'int'"), st)
         | Some seed =>
             match random_seed (seed + Z.of_nat i) with
             | Raise e => (Raise e, st)
             | Return st =>
                 match generate_data self topological_order n_samples effect
                         noise_std confounder_strength st with
                 | (Raise e, st') => (Raise e, st')
                 | (Return df, st') => (Return (datasets ++ [(df, effect)])%list, st')
                 end
             end
         end
     end).

Lemma one_raise self order n noise cs (items : list (nat * num)) e st :
  foldl (one self order n noise cs) (Raise e, st) items = (Raise e, st).
Proof.
  induction items as [|[i x] items IH]; [done|]. exact IH.
Qed.

Lemma datasets_fold self order n noise cs st (effects : list num) :
  ∀ datasets st',
    foldl (one self order n noise cs) (Return [], st) (imap pair effects)
      = (Return datasets, st') →
    length datasets = length effects ∧
    ∀ i effect, effects !! i = Some effect →
      ∃ seed st_i df st_i',
        SyntheticDataGenerator.seed self = Some seed ∧
        random_seed (seed + Z.of_nat i) = Return st_i ∧
        generate_data self order n effect noise cs st_i = (Return df, st_i') ∧
        datasets !! i = Some (df, effect).
Proof.
  induction effects as [|x effects IH] using rev_ind; intros datasets st' Hfold.
  { injection Hfold as <- <-. split; [done|]. by intros i effect ?. }
  rewrite imap_app, foldl_app in Hfold. cbn [imap foldl] in Hfold.
  destruct (foldl (one self order n noise cs) (Return [], st) (imap pair effects))
    as [[ds0|e] st0] eqn:Hl; [|done].
  destruct (IH ds0 st0 eq_refl) as [Hlen Hall]. cbv beta iota in Hfold.
  destruct (SyntheticDataGenerator.seed self) as [seed|] eqn:Hseed; [|done].
  destruct (random_seed (seed + Z.of_nat (length effects + 0))) as [st_i|e] eqn:Hst;
    [|done].
  destruct (generate_data self order n x noise cs st_i) as [[df|e] st_i'] eqn:Hgen;
    [|done].
  injection Hfold as <- <-. split.
  { rewrite !length_app. simpl. lia. }
  intros i effect Hi.
  destruct (decide (i < length effects)%nat) as [Hlt|Hge].
  - rewrite lookup_app_l in Hi by done.
    destruct (Hall i effect Hi) as (s & a & b & c & Hs & H1 & H2 & H3).
    exists s, a, b, c. split; [done|]. split; [done|]. split; [done|].
    rewrite lookup_app_l by lia. done.
  - assert (i = length effects) as ->.
    { apply lookup_lt_Some in Hi. rewrite length_app in Hi. simpl in Hi. lia. }
    rewrite list_lookup_middle in Hi by done. injection Hi as <-.
    exists seed, st_i, df, st_i'. rewrite Nat.add_0_r in Hst.
    split; [done|]. split; [done|]. split; [done|].
    by rewrite list_lookup_middle.
Qed.

(** [generate_multiple_datasets]: without a list of effects it takes
    [n_datasets] effects from 0.5 to 3.0; with no effect at all it returns
    the empty list; a generator without seed raises on the first data set;
    and when it returns, there is one data set per effect, in order, the
    [i]-th generated with its effect right after seeding numpy with
    [seed + i]. *)
Theorem multiple_datasets (self : SyntheticDataGenerator.t)
    (topological_order : list string) (n_datasets n_samples : nat)
    (treatment_effects : option (list num)) (noise_std confounder_strength : num)
    (st : rng) :
  let effects :=
    match treatment_effects with
    | None => SyntheticDataGenerator.linspace (Q2Qc (1 # 2)) (Qc_of_Z 3) n_datasets
    | Some treatment_effects => treatment_effects
    end in
  let run :=
    generate_multiple_datasets self topological_order n_datasets n_samples
      treatment_effects noise_std confounder_strength st in
  (treatment_effects = None →
   length effects = n_datasets ∧
   ((2 ≤ n_datasets)%nat →
    effects !! 0%nat = Some (of_Q (1 # 2)) ∧
    effects !! (n_datasets - 1)%nat = Some (of_Z 3))) ∧
  (effects = [] → run = (Return [], st)) ∧
  (effects ≠ [] → SyntheticDataGenerator.seed self = None →
   run = (Raise (TypeError "unsupported operand type(s) for +: 'NoneType' and 'int'"),
          st)) ∧
  (∀ datasets st', run = (Return datasets, st') →
     length datasets = length effects ∧
     ∀ i effect, effects !! i = Some effect →
       ∃ seed st_i df st_i',
         SyntheticDataGenerator.seed self = Some seed ∧
         random_seed (seed + Z.of_nat i) = Return st_i ∧
         generate_data self topological_order n_samples effect noise_std
           confounder_strength st_i = (Return df, st_i') ∧
         datasets !! i = Some (df, effect)).
Proof.
  intros effects run.
  assert (run = foldl (one self topological_order n_samples noise_std confounder_strength)
                  (Return [], st) (imap pair effects)) as Hrun by reflexivity.
  split; [|split; [|split]].
  - intros ->. subst effects.
    destruct (linspace_spec (Q2Qc (1 # 2)) (Qc_of_Z 3) n_datasets) as (Hl & H0 & Hn).
    split; [done|]. intros Hn2. split; [apply H0; lia|by apply Hn].
  - intros Heff. by rewrite Hrun, Heff.
  - intros Hne Hseed. rewrite Hrun. destruct effects as [|x effects']; [done|].
    assert (one self topological_order n_samples noise_std confounder_strength
              (Return [], st) (0%nat, x)
            = (Raise (TypeError "unsupported operand type(s) for +: 'NoneType' and 'int'"),
               st)) as Hfirst.
    { cbv beta iota. by rewrite Hseed. }
    cbn [imap foldl].
    match goal with
    | |- foldl ?f ?a ?l = _ =>
        replace a with
          (@Raise (list (DataFrame * num))
             (TypeError "unsupported operand type(s) for +: 'NoneType' and 'int'"), st)
          by (symmetry; exact Hfirst)
    end.
    apply one_raise.
  - intros datasets st' Hret. rewrite Hrun in Hret. by eapply datasets_fold.
Qed.

End Multiple.

Lemma three_in_order (order : list string) (a b c : string) :
  NoDup order →
  (∀ v, v ∈ order ↔ v ∈ [b; c; a]) →
  (∃ i j, order !! i = Some a ∧ order !! j = Some b ∧ (i < j)%nat) →
  (∃ i j, order !! i = Some b ∧ order !! j = Some c ∧ (i < j)%nat) →
  a ≠ b → b ≠ c → a ≠ c →
  order = [a; b; c].
Proof.
  intros Hnd Hmem (ia & ib & Ha & Hb & Hab) (ib' & ic & Hb' & Hc & Hbc) Hne1 Hne2 Hne3.
  assert (ib' = ib) as -> by (eapply NoDup_lookup; done).
  assert (length order = 3%nat) as Hlen.
  { assert (order ≡ₚ [b; c; a]) as ->; [|done].
    apply NoDup_Permutation; [done| |done].
    repeat constructor; rewrite ?elem_of_cons, ?elem_of_nil; intuition congruence. }
  assert (ic < 3)%nat as Hic by (rewrite <- Hlen; by eapply lookup_lt_Some).
  assert (ia = 0 ∧ ib = 1 ∧ ic = 2)%nat as (-> & -> & ->) by lia.
  destruct order as [|x [|y [|z [|w order]]]]; simplify_eq/=. done.
Qed.

Lemma iadd_scaled_same (values : Series) (coeff : num) (parent_values : Series) :
  length parent_values = length values →
  SyntheticDataGenerator.iadd_scaled values coeff parent_values
  = Return (zip_with (λ v x, Num.add v (Num.mul coeff x)) values parent_values).
Proof. intros H. unfold SyntheticDataGenerator.iadd_scaled. by rewrite decide_True. Qed.

Section Sample.

Context {rng : Type}.
Variable random_normal : num → num → nat → rng → Series * rng.
Variable random_binomial : num → nat → rng → Series * rng.
Variable random_binomial_each : Series → nat → rng → py Series * rng.
Variable random_choice : list num → option (list num) → nat → rng → Series * rng.
Variable np_exp : num → num.
Variable random_seed : Z → py rng.
Variable topological_sort : nx.DiGraph → py (list string).

Local Abbreviation generate_data :=
  (SyntheticDataGenerator.generate_data random_normal random_binomial
     random_binomial_each random_choice np_exp).
Local Abbreviation generate_sample_dataset :=
  (utils.generate_sample_dataset random_normal random_binomial random_binomial_each
     random_choice np_exp random_seed topological_sort).
Local Abbreviation logistic := (SyntheticDataGenerator.logistic np_exp).

Local Abbreviation step :=
  (SyntheticDataGenerator.generate_variable random_normal random_binomial
     random_binomial_each random_choice np_exp).

Lemma default_generate (seed : Z) (n : nat) (te : num) (st st1 st2 st3 : rng)
    (x t e : Series) :
  random_normal (of_Z 0) (of_Z 1) n st = (x, st1) →
  random_binomial_each
    (logistic <$> ((λ x, Num.add (of_Z 0) (Num.mul (of_Z 1) x)) <$> x)) n st1
    = (Return t, st2) →
  random_normal (of_Z 0) (of_Q (1 # 2)) n st2 = (e, st3) →
  length x = n → length t = n → length e = n →
  generate_data (Examples.default_generator seed) ["X"; "T"; "Y"] n te (of_Q (1 # 2)) (of_Z 1) st
  = (from_dict
       [("X", x); ("T", t);
        ("Y", zip_with (λ v p, Num.add v (Num.mul te p))
                (zip_with (λ v p, Num.add v (Num.mul (of_Z 1) p)) e x) t)],
     st3).
Proof.
  intros Hx Ht He Lx Lt Le.
  set (g := Examples.default_generator seed).
  set (y := zip_with (λ v p, Num.add v (Num.mul te p))
              (zip_with (λ v p, Num.add v (Num.mul (of_Z 1) p)) e x) t).
  assert (Hs1 : step g n te (of_Q (1 # 2)) (of_Z 1) (Return [], st) "X"
                = (Return [("X", x)], st1)).
  { unfold SyntheticDataGenerator.generate_variable. cbv beta zeta.
    rewrite (eq_refl : dict_get "X" (SyntheticDataGenerator.variables g)
                       = Some utils.continuous).
    cbn [getkey].
    rewrite (eq_refl : nx.predecessors (SyntheticDataGenerator.graph g) "X" = Return []).
    rewrite (eq_refl : default "continuous" (Config.type utils.continuous) = "continuous").
    rewrite decide_False by done. rewrite decide_True by done.
    unfold SyntheticDataGenerator._generate_continuous_variable. rewrite Hx. done. }
  assert (Hs2 : step g n te (of_Q (1 # 2)) (of_Z 1) (Return [("X", x)], st1) "T"
                = (Return [("X", x); ("T", t)], st2)).
  { unfold SyntheticDataGenerator.generate_variable. cbv beta zeta.
    rewrite (eq_refl : dict_get "T" (SyntheticDataGenerator.variables g)
                       = Some utils.binary).
    cbn [getkey].
    rewrite (eq_refl : nx.predecessors (SyntheticDataGenerator.graph g) "T" = Return ["X"]).
    rewrite (eq_refl : default "continuous" (Config.type utils.binary) = "binary").
    rewrite decide_True by done.
    unfold SyntheticDataGenerator._generate_binary_variable. cbv zeta. cbn [foldl].
    cbn [mbind py_bind]. rewrite lookup_list_to_map_dict_get.
    rewrite (eq_refl : dict_get "X" [("X", x)] = Some x). cbn [getkey mbind py_bind].
    rewrite (eq_refl : SyntheticDataGenerator._is_treatment_outcome_relationship g "X" "T"
                       = false).
    rewrite (eq_refl : SyntheticDataGenerator._is_confounder_relationship g "X" "T" = true).
    rewrite iadd_scaled_same by (by rewrite length_replicate).
    rewrite zip_with_replicate_l by lia. rewrite Ht. done. }
  assert (Hs3 : step g n te (of_Q (1 # 2)) (of_Z 1) (Return [("X", x); ("T", t)], st2) "Y"
                = (Return [("X", x); ("T", t); ("Y", y)], st3)).
  { unfold SyntheticDataGenerator.generate_variable. cbv beta zeta.
    rewrite (eq_refl : dict_get "Y" (SyntheticDataGenerator.variables g)
                       = Some utils.continuous).
    cbn [getkey].
    rewrite (eq_refl : nx.predecessors (SyntheticDataGenerator.graph g) "Y"
                       = Return ["X"; "T"]).
    rewrite (eq_refl : default "continuous" (Config.type utils.continuous) = "continuous").
    rewrite decide_False by done. rewrite decide_True by done.
    unfold SyntheticDataGenerator._generate_continuous_variable. rewrite He.
    cbn [foldl mbind py_bind]. rewrite !lookup_list_to_map_dict_get.
    rewrite (eq_refl : dict_get "X" [("X", x); ("T", t)] = Some x).
    rewrite (eq_refl : dict_get "T" [("X", x); ("T", t)] = Some t).
    cbn [getkey mbind py_bind].
    rewrite (eq_refl : SyntheticDataGenerator._is_treatment_outcome_relationship g "X" "Y"
                       = false).
    rewrite (eq_refl : SyntheticDataGenerator._is_confounder_relationship g "X" "Y" = true).
    rewrite (eq_refl : SyntheticDataGenerator._is_treatment_outcome_relationship g "T" "Y"
                       = true).
    rewrite iadd_scaled_same by congruence. cbn [mbind py_bind].
    rewrite iadd_scaled_same by (rewrite length_zip_with; lia). done. }
  rewrite generate_data_unfold.
  assert (foldl (step g n te (of_Q (1 # 2)) (of_Z 1)) (Return [], st) ["X"; "T"; "Y"]
          = (Return [("X", x); ("T", t); ("Y", y)], st3)) as ->; [|done].
  exact (eq_trans
           (f_equal (λ a, step g n te (of_Q (1 # 2)) (of_Z 1)
                            (step g n te (of_Q (1 # 2)) (of_Z 1) a "T") "Y") Hs1)
           (eq_trans (f_equal (λ a, step g n te (of_Q (1 # 2)) (of_Z 1) a "Y") Hs2) Hs3)).
Qed.

Theorem sample_dataset_ground_truth (n_samples : nat) (treatment_effect : num)
    (seed : Z) (st : rng) :
  let dag_config := utils.create_simple_treatment_outcome_dag "T" "Y" ["X"] in
  Spec.numpy_draws n_samples (of_Q (1 # 2)) random_normal random_binomial
    random_binomial_each random_choice np_exp →
  treatment_effect ≠ NaN →
  random_seed seed = Return st →
  (∀ generator, SyntheticDataGenerator.init dag_config (Some seed) = Return generator →
     ∃ order, topological_sort (SyntheticDataGenerator.graph generator) = Return order ∧
              Spec.topological (SyntheticDataGenerator.graph generator) order) →
  let X := random_normal (of_Z 0) (of_Z 1) n_samples st in
  let T := random_binomial_each
             (logistic <$> ((λ x, Num.add (of_Z 0) (Num.mul (of_Z 1) x)) <$> X.1))
             n_samples X.2 in
  let noise := random_normal (of_Z 0) (of_Q (1 # 2)) n_samples T.2 in
  ∃ t df,
    T.1 = Return t ∧
    generate_sample_dataset n_samples treatment_effect None seed = Return df ∧
    columns df = ["X"; "T"; "Y"] ∧
    len df = n_samples ∧
    ∀ i r, rows df !! i = Some r →
      ∃ x_i t_i noise_i,
        X.1 !! i = Some x_i ∧ t !! i = Some t_i ∧ noise.1 !! i = Some noise_i ∧
        cell "X" r = x_i ∧ cell "T" r = t_i ∧
        cell "Y" r = Num.add (Num.add noise_i (Num.mul (of_Z 1) x_i))
                       (Num.mul treatment_effect t_i).
Proof.
  intros dag_config Hd Hte Hseed Htopo.
  assert (SyntheticDataGenerator.init dag_config (Some seed)
          = Return (Examples.default_generator seed)) as Hinit.
  { vm_compute. reflexivity. }
  destruct (Htopo _ Hinit) as (order & Hsort & Hnd & Hmem & Hedges).
  assert (order = ["X"; "T"; "Y"]) as ->.
  { cbn [Examples.default_generator SyntheticDataGenerator.graph nx.nodes nx.edges] in Hmem, Hedges.
    apply three_in_order; [done|done|..|done|done|done].
    - apply Hedges. left.
    - apply Hedges. right; right; left. }
  unfold utils.generate_sample_dataset, SyntheticDataGenerator.new. fold dag_config.
  rewrite Hseed. cbn [mbind py_bind]. rewrite Hinit. cbn [mbind py_bind].
  rewrite Hsort. cbn [mbind py_bind mret py_ret].
  pose proof (Spec.normal_root _ _ _ _ _ _ _ Hd st) as [Lx Nx].
  destruct (random_normal (of_Z 0) (of_Z 1) n_samples st) as [x st1] eqn:HX.
  cbn [fst snd] in *.
  destruct (Spec.binomial_each _ _ _ _ _ _ _ Hd
              (logistic <$> ((λ x, Num.add (of_Z 0) (Num.mul (of_Z 1) x)) <$> x)) st1)
    as (t & Ht & Lt & Nt).
  { rewrite !length_fmap. exact Lx. }
  { rewrite <- list_fmap_compose. apply Forall_fmap.
    eapply Forall_impl; [exact Nx|]. intros [q|] Hq; [|by destruct Hq].
    unfold compose. cbn [Num.add Num.mul Num.lift2 of_Z].
    apply logistic_probability, (Spec.exp_positive _ _ _ _ _ _ _ Hd). }
  destruct (random_binomial_each _ n_samples st1) as [r st2] eqn:HT.
  cbn [fst] in Ht. subst r. cbn [fst snd].
  pose proof (Spec.normal_noise _ _ _ _ _ _ _ Hd st2) as [Le Ne].
  destruct (random_normal (of_Z 0) (of_Q (1 # 2)) n_samples st2) as [e st3] eqn:HE.
  cbn [fst snd] in *.
  rewrite (default_generate seed n_samples treatment_effect st st1 st2 st3 x t e
             HX HT HE Lx Lt Le).
  cbn [fst]. unfold from_dict. rewrite decide_True.
  2:{ repeat constructor; cbn [snd]; rewrite ?length_zip_with; lia. }
  exists t. eexists. split; [done|]. split; [done|]. cbn [columns rows len].
  split; [done|]. split; [unfold len; cbn [rows]; by rewrite length_fmap, length_seq|].
  intros i r Hr. rewrite list_lookup_fmap in Hr.
  destruct (seq 0 (length x) !! i) as [k|] eqn:Hk; [|done].
  apply lookup_seq in Hk as [-> Hi]. cbn [fmap option_fmap option_map] in Hr.
  injection Hr as <-.
  destruct (lookup_lt_is_Some_2 x i) as [x_i Hx]; [lia|].
  destruct (lookup_lt_is_Some_2 t i) as [t_i Hti]; [lia|].
  destruct (lookup_lt_is_Some_2 e i) as [noise_i Hn]; [lia|].
  exists x_i, t_i, noise_i. split; [done|]. split; [done|]. split; [done|].
  unfold cell.
  rewrite lookup_insert_eq.
  rewrite (lookup_insert_ne _ "X" "T") by done. rewrite lookup_insert_eq.
  rewrite (lookup_insert_ne _ "X" "Y"), (lookup_insert_ne _ "T" "Y") by done.
  rewrite lookup_insert_eq.
  rewrite Hx, Hti, !lookup_zip_with, Hn, Hx, Hti.
  cbn [default from_option mbind option_bind]. unfold id.
  split; [reflexivity|]. split; [reflexivity|].
  destruct x_i; cbn [Num.mul Num.lift2 of_Z]; reflexivity.
Qed.

End Sample.

(** ** The legacy endpoint *)

Section Legacy.

Context {dowhy estimand : Type}.
Variable corr : Series → Series → num.
Variable read_csv : string → py DataFrame.
Variable json_load : string → py Config.DagConfig.
Variable DoWhyCausalModel :
  DataFrame → string → string → option nx.DiGraph →
  option (list string) → option (list string) → py dowhy.
Variable dowhy_identify_effect : dowhy → py estimand.
Variable dowhy_estimate_effect : dowhy → estimand → string → py dispatch.estimate.
Variable str_http : nat → string → string.
Variable get_summary : dispatch.Result → option string.

Local Abbreviation analyze_causal_effect :=
  (api.analyze_causal_effect corr read_csv json_load DoWhyCausalModel
     dowhy_identify_effect dowhy_estimate_effect str_http get_summary).

Lemma effect_estimation_result (q : dispatch.Query) (cm : @CausalModel.t dowhy) :
  let r := dispatch._handle_effect_estimation dowhy_identify_effect
             dowhy_estimate_effect q cm in
  dispatch.get_query_type r = Some "effect_estimation" ∧
  (dispatch.success r = true → is_Some (api.get_estimate r) ∧
                               is_Some (api.get_confidence_interval r)) ∧
  (dispatch.success r = false → is_Some (dispatch.error r)).
Proof.
  cbv zeta. unfold dispatch._handle_effect_estimation, dispatch.fail_soft,
    mbind, py_bind, mret, py_ret, getkey.
  repeat case_match; simplify_eq; cbn; repeat split; eauto; done.
Qed.

(** The legacy endpoint never answers 400: a query without data file, or
    with an empty one, gets status 500, the 400 raised for it being caught
    by the endpoint's own handler.  Any other query gets a body: its
    [query_type] is [effect_estimation]; on success it holds the estimate,
    its interval and the full result and no error; on failure it holds the
    error, repeated as summary, and neither estimate nor result. *)
Theorem legacy_analyze_response (query : api.LegacyCausalQuery) :
  (CausalModel.falsy (api.data_file query) = true →
   analyze_causal_effect query
     = api.HTTPException 500 (str_http 400 "data_file is required")) ∧
  (CausalModel.falsy (api.data_file query) = false →
   ∃ r, analyze_causal_effect query = api.Respond r ∧
     api.query_type r = Some "effect_estimation" ∧
     (api.success r = true →
      is_Some (api.estimate r) ∧ is_Some (api.confidence_interval r) ∧
      is_Some (api.results r) ∧ api.error r = None) ∧
     (api.success r = false →
      api.estimate r = None ∧ api.confidence_interval r = None ∧
      api.results r = None ∧
      ∃ e, api.error r = Some e ∧ api.summary r = e)).
Proof.
  unfold api.analyze_causal_effect. cbv zeta. split; intros Hfile; rewrite Hfile; [done|].
  set (q := {| dispatch.query_type := Some "effect_estimation";
               dispatch.treatment_variable := _ |}).
  set (dag_path := if CausalModel.falsy (api.dag_file query) then _ else _).
  set (result := dispatch.dispatch_query _ _ _ _ _ _ q dag_path _).
  assert (dispatch.get_query_type result = Some "effect_estimation" ∧
          (dispatch.success result = true →
           is_Some (api.get_estimate result) ∧
           is_Some (api.get_confidence_interval result)) ∧
          (dispatch.success result = false → is_Some (dispatch.error result)))
    as (Htag & Hok & Hfail).
  { subst result. unfold dispatch.dispatch_query.
    destruct (read_csv _) as [data|e]; cbn [mbind py_bind];
      [destruct (CausalModel.init _ _ _ _) as [cm|e]; cbn [mbind py_bind]|..].
    - rewrite decide_True by done. cbn [mret py_ret dispatch.fail_soft].
      apply effect_estimation_result.
    - cbn. repeat split; eauto; done.
    - cbn. repeat split; eauto; done. }
  destruct (dispatch.success result) eqn:Hs.
  - eexists. split; [done|]. cbn. split; [done|]. split; [|done].
    intros _. destruct (Hok eq_refl) as [H1 H2]. repeat split; eauto.
  - eexists. split; [done|]. cbn. split; [done|]. split; [done|].
    intros _. destruct (Hfail eq_refl) as [e He]. rewrite He. repeat split. by exists e.
Qed.

End Legacy.

(** ** Further instances *)

Lemma example_draws (n : nat) (noise_std : num) :
  Spec.numpy_draws n noise_std Examples.counting_normal Examples.always_one
    Examples.always_one_each Examples.first_choice Examples.exp_one.
Proof.
  assert (∀ x : num, x ≠ NaN → Spec.column_of n (replicate n x)) as Hrep.
  { intros x Hx. split; [apply length_replicate|]. apply Forall_forall.
    by intros y [-> _]%elem_of_replicate. }
  assert (∀ loc scale st, Spec.column_of n (Examples.counting_normal loc scale n st).1)
    as Hnormal.
  { intros loc scale st. split; cbn [Examples.counting_normal fst].
    - by rewrite length_fmap, length_seq.
    - apply Forall_fmap, Forall_forall. by intros k _. }
  split.
  - intros st. apply Hnormal.
  - intros st. apply Hnormal.
  - intros st. by apply Hrep.
  - intros p st _ _. eexists. split; [reflexivity|]. by apply Hrep.
  - intros st. by apply Hrep.
  - intros st. by apply Hrep.
  - intros q. exists (Qc_of_Z 1). split; [reflexivity|]. by vm_compute.
Qed.

Lemma default_order_topological (seed : Z) :
  Spec.topological (SyntheticDataGenerator.graph (Examples.default_generator seed))
    ["X"; "T"; "Y"].
Proof.
  split; [|split].
  - by_computation.
  - intros v. cbn [Examples.default_generator SyntheticDataGenerator.graph nx.nodes].
    rewrite !elem_of_cons, !elem_of_nil. tauto.
  - intros u v. cbn [Examples.default_generator SyntheticDataGenerator.graph nx.edges].
    rewrite !elem_of_cons, elem_of_nil.
    intros [[= -> ->]|[[= -> ->]|[[= -> ->]|[]]]].
    + exists 0%nat, 1%nat. repeat split. lia.
    + exists 0%nat, 2%nat. repeat split. lia.
    + exists 1%nat, 2%nat. repeat split. lia.
Qed.

Lemma default_variables_typed (seed : Z) (v : string) :
  v ∈ ["X"; "T"; "Y"] →
  Spec.typed (SyntheticDataGenerator.variables (Examples.default_generator seed)) v.
Proof.
  rewrite !elem_of_cons, elem_of_nil. intros [->|[->|[->|[]]]].
  - exists utils.continuous. split; [done|]. right; left.
  - exists utils.binary. split; [done|]. left.
  - exists utils.continuous. split; [done|]. right; left.
Qed.

Lemma get_parents_edge_sources_witness :
  ∃ parents,
    CausalModel.get_parents Examples.model_without_data "Y" = Return parents ∧
    NoDup parents ∧
    ∀ u, u ∈ parents ↔
         {| Config.edge_from := u; Config.edge_to := "Y" |}
           ∈ default [] (Config.edges Examples.triangle).
Proof.
  destruct (get_parents_edge_sources Examples.load_triangle Examples.dowhy_accept
              (CausalModel.FromDict Examples.triangle) None Examples.model_without_data
              eq_refl) as (vs & es & Hvs & Hes & Hall).
  injection Hvs as <-. injection Hes as <-.
  apply (proj1 (Hall "Y")). left. by_computation.
Defined.

Lemma get_children_edge_targets_witness :
  ∃ children,
    CausalModel.get_children Examples.model_without_data "X" = Return children ∧
    NoDup children ∧
    ∀ v, v ∈ children ↔
         {| Config.edge_from := "X"; Config.edge_to := v |}
           ∈ default [] (Config.edges Examples.triangle).
Proof.
  destruct (get_children_edge_targets Examples.load_triangle Examples.dowhy_accept
              (CausalModel.FromDict Examples.triangle) None Examples.model_without_data
              eq_refl) as (vs & es & Hvs & Hes & Hall).
  injection Hvs as <-. injection Hes as <-.
  apply (proj1 (Hall "X")). left. by_computation.
Defined.

Lemma parents_children_dual_witness :
  (∃ parents, CausalModel.get_parents Examples.model_without_data "Y" = Return parents ∧
              "X" ∈ parents) ↔
  (∃ children, CausalModel.get_children Examples.model_without_data "X" = Return children ∧
               "Y" ∈ children).
Proof.
  apply (parents_children_dual Examples.load_triangle Examples.dowhy_accept
           (CausalModel.FromDict Examples.triangle) None Examples.model_without_data
           "X" "Y" eq_refl).
Defined.

Lemma attach_after_init_witness :
  CausalModel.attach_data Examples.dowhy_accept Examples.model_without_data
    Examples.table_XTY
  = CausalModel.init Examples.load_triangle Examples.dowhy_accept
      (CausalModel.FromDict Examples.triangle) (Some Examples.table_XTY).
Proof.
  apply (attach_after_init Examples.load_triangle Examples.dowhy_accept
           (CausalModel.FromDict Examples.triangle) Examples.model_without_data
           Examples.table_XTY eq_refl).
  intros v Hv. cbn in Hv.
  repeat (apply elem_of_cons in Hv as [->|Hv]); [..|by apply elem_of_nil in Hv];
    by_computation.
Defined.

Lemma handlers_need_data_witness :
  dispatch.success (dispatch._handle_effect_estimation Examples.identify_ok
                      Examples.estimate_second_only Examples.effect_query
                      Examples.model_without_data) = false ∧
  dispatch.success (dispatch._handle_anomaly_attribution Examples.corr_undefined
                      Examples.effect_query Examples.model_without_data) = false ∧
  dispatch.success (dispatch._handle_distribution_shift_attribution
                      Examples.corr_undefined Examples.effect_query
                      Examples.model_without_data) = false ∧
  dispatch.success (dispatch._handle_intervention Examples.corr_undefined
                      Examples.effect_query Examples.model_without_data) = false ∧
  dispatch.success (dispatch._handle_counterfactual Examples.corr_undefined
                      Examples.effect_query Examples.model_without_data) = false.
Proof.
  apply (handlers_need_data Examples.corr_undefined Examples.load_triangle
           Examples.dowhy_accept Examples.identify_ok Examples.estimate_second_only
           (CausalModel.FromDict Examples.triangle) Examples.model_without_data
           Examples.effect_query eq_refl).
Defined.

Lemma utils_edge_coefficients_witness :
  (if SyntheticDataGenerator._is_treatment_outcome_relationship
        (Examples.default_generator 42) "T" "Y"
   then of_Z 2
   else if SyntheticDataGenerator._is_confounder_relationship
             (Examples.default_generator 42) "T" "Y"
   then of_Z 1 else of_Q (1 # 2))
  = if decide ("T" = "T") then of_Z 2 else of_Z 1.
Proof.
  refine (proj1 (utils_edge_coefficients (Examples.default_generator 42) "T" "M" "Y" ["X"]
                   (of_Z 2) (of_Z 1) _ _ _) eq_refl
            {| Config.edge_from := "T"; Config.edge_to := "Y" |} _).
  - done.
  - by_computation.
  - by_computation.
  - vm_compute. repeat constructor.
Defined.

Lemma validation_agrees_with_attach_witness :
  CausalModel.attach_data Examples.dowhy_accept Examples.model_simple Examples.table_TY
  = Raise (MissingVariables (list_to_set ["X"])).
Proof.
  refine (proj2 (proj1 (validation_agrees_with_attach Examples.dowhy_accept
                          Examples.model_simple Examples.table_TY "T" "Y" ["X"] eq_refl)
                   ["X"] _)).
  vm_compute. left.
Defined.

Lemma example_draws_sized (n : nat) :
  Spec.draws_sized n Examples.counting_normal Examples.always_one
    Examples.always_one_each Examples.first_choice.
Proof.
  split.
  - intros loc scale st. cbn [Examples.counting_normal fst].
    by rewrite length_fmap, length_seq.
  - intros p st. apply length_replicate.
  - intros p st values [= <-]. apply length_replicate.
  - intros a p st. apply length_replicate.
Qed.

Lemma generate_data_frame_witness :
  ∃ df st',
    SyntheticDataGenerator.generate_data Examples.counting_normal Examples.always_one
      Examples.always_one_each Examples.first_choice Examples.exp_one
      (Examples.default_generator 42) ["X"; "T"; "Y"] 2 (of_Z 2) (of_Q (1 # 2)) (of_Z 1)
      0%nat = (Return df, st') ∧
    columns df = ["X"; "T"; "Y"] ∧
    len df = 2%nat.
Proof.
  destruct (SyntheticDataGenerator.generate_data Examples.counting_normal
              Examples.always_one Examples.always_one_each Examples.first_choice
              Examples.exp_one (Examples.default_generator 42) ["X"; "T"; "Y"] 2 (of_Z 2)
              (of_Q (1 # 2)) (of_Z 1) 0%nat) as [[df|e] st'] eqn:Hrun.
  - exists df, st'. split; [done|].
    apply (generate_data_frame Examples.counting_normal Examples.always_one
             Examples.always_one_each Examples.first_choice Examples.exp_one
             (Examples.default_generator 42) ["X"; "T"; "Y"] 2 (of_Z 2) (of_Q (1 # 2))
             (of_Z 1) 0%nat st' df).
    + apply example_draws_sized.
    + by_computation.
    + apply default_variables_typed.
    + exact Hrun.
  - vm_compute in Hrun. discriminate Hrun.
Defined.

Lemma simple_dag_generator_witness :
  ∃ generator,
    SyntheticDataGenerator.new Examples.seed_state Examples.sort_XTY
      (utils.create_simple_treatment_outcome_dag "T" "Y" ["X"]) 42
    = Return (generator, ["X"; "T"; "Y"], 42%nat).
Proof.
  destruct (proj1 (simple_dag_generator Examples.seed_state Examples.sort_XTY
                     "T" "Y" ["X"] 42 42%nat eq_refl))
    as (graph & _ & Hnew & _).
  - split; [done|]. split; by_computation.
  - destruct (Hnew ["X"; "T"; "Y"] eq_refl) as (generator & Hrun & _).
    by exists generator.
Defined.

Lemma mediation_dag_generator_witness :
  ∃ generator,
    SyntheticDataGenerator.new Examples.seed_state Examples.sort_XTMY
      (utils.create_mediation_dag "T" "M" "Y" ["X"]) 42
    = Return (generator, ["X"; "T"; "M"; "Y"], 42%nat).
Proof.
  destruct (proj1 (mediation_dag_generator Examples.seed_state Examples.sort_XTMY
                     "T" "M" "Y" ["X"] 42 42%nat eq_refl))
    as (graph & _ & Hnew & _).
  - do 3 (split; [done|]). repeat split; by_computation.
  - destruct (Hnew ["X"; "T"; "M"; "Y"] eq_refl) as (generator & Hrun & _).
    by exists generator.
Defined.

Lemma generate_data_outcome_witness :
  ∃ df st',
    SyntheticDataGenerator.generate_data Examples.counting_normal Examples.always_one
      Examples.always_one_each Examples.first_choice Examples.exp_one
      (Examples.default_generator 42) ["X"; "T"; "Y"] 2 (of_Z 2) (of_Q (1 # 2)) (of_Z 1)
      0%nat = (Return df, st') ∧
    ∀ c, c ∈ columns df ↔
         c ∈ ["X"; "T"; "Y"] ∧
         Spec.typed (SyntheticDataGenerator.variables (Examples.default_generator 42)) c.
Proof.
  destruct (SyntheticDataGenerator.generate_data Examples.counting_normal
              Examples.always_one Examples.always_one_each Examples.first_choice
              Examples.exp_one (Examples.default_generator 42) ["X"; "T"; "Y"] 2 (of_Z 2)
              (of_Q (1 # 2)) (of_Z 1) 0%nat) as [[df|e] st'] eqn:Hrun.
  - exists df, st'. split; [done|].
    apply (generate_data_outcome Examples.counting_normal Examples.always_one
             Examples.always_one_each Examples.first_choice Examples.exp_one
             (Examples.default_generator 42) ["X"; "T"; "Y"] 2 (of_Z 2) (of_Q (1 # 2))
             (of_Z 1) 0%nat st' df Hrun).
  - vm_compute in Hrun. discriminate Hrun.
Defined.

Lemma sample_dataset_ground_truth_witness :
  let X := Examples.counting_normal (of_Z 0) (of_Z 1) 2 42%nat in
  let T := Examples.always_one_each
             (SyntheticDataGenerator.logistic Examples.exp_one <$>
                ((λ x, Num.add (of_Z 0) (Num.mul (of_Z 1) x)) <$> X.1))
             2 X.2 in
  let noise := Examples.counting_normal (of_Z 0) (of_Q (1 # 2)) 2 T.2 in
  ∃ t df,
    T.1 = Return t ∧
    utils.generate_sample_dataset Examples.counting_normal Examples.always_one
      Examples.always_one_each Examples.first_choice Examples.exp_one
      Examples.seed_state Examples.sort_XTY 2 (of_Z 2) None 42 = Return df ∧
    columns df = ["X"; "T"; "Y"] ∧
    len df = 2%nat ∧
    ∀ i r, rows df !! i = Some r →
      ∃ x_i t_i noise_i,
        X.1 !! i = Some x_i ∧ t !! i = Some t_i ∧ noise.1 !! i = Some noise_i ∧
        cell "X" r = x_i ∧ cell "T" r = t_i ∧
        cell "Y" r = Num.add (Num.add noise_i (Num.mul (of_Z 1) x_i))
                       (Num.mul (of_Z 2) t_i).
Proof.
  apply (sample_dataset_ground_truth Examples.counting_normal Examples.always_one
           Examples.always_one_each Examples.first_choice Examples.exp_one
           Examples.seed_state Examples.sort_XTY 2 (of_Z 2) 42 42%nat).
  - apply example_draws.
  - done.
  - reflexivity.
  - intros generator Hinit. vm_compute in Hinit. injection Hinit as <-.
    exists ["X"; "T"; "Y"]. split; [done|]. apply (default_order_topological 42).
Defined.
